(** * HabitFlow: the habit store and statistics engine of [src/lib/db/index.ts]

    A shallow embedding of the persistence and statistics module and the
    properties of its operations.

    Modelling conventions.
    - A calendar day is its day number: the count of days since 1970-01-01.
      The key [YYYY-MM-DD] that [toISOString().split('T')[0]] produces and
      that [new Date(key)] parses back is identified with the day number of
      the date it spells.
    - A [Date] is its time value in milliseconds.  Module [Zoned] gives the
      functions that read the clock for an arbitrary time zone:
      [toISOString] prints the UTC day of a [Date], [new Date(key)] is
      midnight UTC of the key's day, and [getFullYear], [getMonth],
      [getDate] and [setDate] read and move the local day.  One call reads
      the clock once.
    - The top-level [updateStreak], [toggleHabitCompletion] and
      [getHabitStats] are those functions on a runtime whose time zone is
      UTC, where they depend on the clock through its day number only
      (lemma [zoned_at_utc]).
    - JavaScript numbers holding ids, targets and streaks are integers
      ([Z]).  The addition that forms a new id rounds as a double does; the
      counters of the streak loops stay in the range where doubles are
      exact.
    - [localStorage] holds two entries, each absent or holding well-formed
      JSON of the expected shape. *)

From Stdlib Require Import ZArith Lia String.
From stdpp Require Import base option list gmap fin_maps.

Local Open Scope Z_scope.

(** ** Calendar arithmetic of the [Date] built-in *)

Module Calendar.

(** Day number of the proleptic Gregorian date [y]-[m]-[d], [m] in 1..12. *)
Definition days_from_civil (y m d : Z) : Z :=
  let y' := if m <=? 2 then y - 1 else y in
  let era := y' / 400 in
  let yoe := y' - era * 400 in
  let mp := if m >? 2 then m - 3 else m + 9 in
  let doy := (153 * mp + 2) / 5 + d - 1 in
  let doe := yoe * 365 + yoe / 4 - yoe / 100 + doy in
  era * 146097 + doe - 719468.

(** Year, month (1..12) and day of month of a day number. *)
Definition civil_from_days (z : Z) : Z * Z * Z :=
  let z' := z + 719468 in
  let era := z' / 146097 in
  let doe := z' - era * 146097 in
  let yoe := (doe - doe / 1460 + doe / 36524 - doe / 146096) / 365 in
  let doy := doe - (365 * yoe + yoe / 4 - yoe / 100) in
  let mp := (5 * doy + 2) / 153 in
  let d := doy - (153 * mp + 2) / 5 + 1 in
  let m := if mp <? 10 then mp + 3 else mp - 9 in
  (if m <=? 2 then yoe + era * 400 + 1 else yoe + era * 400, m, d).

(** [date.getFullYear()], [date.getMonth()] (0..11), [date.getDate()]. *)
Definition getFullYear (date : Z) : Z := (civil_from_days date).1.1.
Definition getMonth (date : Z) : Z := (civil_from_days date).1.2 - 1.
Definition getDate (date : Z) : Z := (civil_from_days date).2.

(** [Date.UTC(year, monthIndex, day)], as a day number.  Years 0..99 are
    read as 1900..1999, as the built-in does. *)
Definition Date_UTC (year monthIndex day : Z) : Z :=
  let year' := if (0 <=? year) && (year <=? 99) then 1900 + year else year in
  days_from_civil year' (monthIndex + 1) day.

(** [d.getUTCDay()]: 0 is Sunday; 1970-01-01 was a Thursday. *)
Definition getUTCDay (d : Z) : Z := (d + 4) mod 7.

(** [Math.ceil(n / 7)] for an integer [n]. *)
Definition ceil_div7 (n : Z) : Z := (n + 6) / 7.

End Calendar.

Import Calendar.

(** [getWeekNumber(date)], lines 292-298. *)
Definition getWeekNumber (date : Z) : Z :=
  let d := Date_UTC (getFullYear date) (getMonth date) (getDate date) in
  let dayNum := if getUTCDay d =? 0 then 7 else getUTCDay d in
  let d := d + 4 - dayNum in
  let yearStart := Date_UTC (getFullYear d) 0 1 in
  ceil_div7 ((d - yearStart) + 1).

(** ** Data model *)

Inductive Frequency := daily | weekly | monthly.

#[global] Instance Frequency_eq_dec : EqDecision Frequency.
Proof. solve_decision. Defined.

Record Habit := mkHabit {
  id : Z;
  name : string;
  frequency : Frequency;
  target : Z;
  streak : Z;
  category : string;
  created_at : string;
  reminder_time : option string;
  notes : option string
}.

(** The result of [getHabitStats]. *)
Module Stats.
Record t := mk {
  streak : Z;
  completed : Z;
  total_required : Z;
  completion_rate : Z
}.
End Stats.

(** The completion history: day bucket of habit ids, per day key. *)
Abbreviation Completions := (gmap Z (list Z)).

(** [localStorage], restricted to the entries [habitflow_habits] and
    [habitflow_completions]; [None] is an absent entry. *)
Record Store := mkStore {
  STORAGE_KEY : option (list Habit);
  COMPLETIONS_KEY : option Completions
}.

(** [JSON.parse(localStorage.getItem(STORAGE_KEY) || '[]')] *)
Definition loadHabits (st : Store) : list Habit := default [] (STORAGE_KEY st).

(** [JSON.parse(localStorage.getItem(COMPLETIONS_KEY) || '{}')] *)
Definition loadCompletions (st : Store) : Completions :=
  default ∅ (COMPLETIONS_KEY st).

Definition saveHabits (habits : list Habit) (st : Store) : Store :=
  {| STORAGE_KEY := Some habits; COMPLETIONS_KEY := COMPLETIONS_KEY st |}.

Definition saveCompletions (completions : Completions) (st : Store) : Store :=
  {| STORAGE_KEY := STORAGE_KEY st; COMPLETIONS_KEY := Some completions |}.

(** ** Array and object helpers *)

(** [bucket.includes(habitId)] *)
Definition includes (bucket : list Z) (habitId : Z) : bool :=
  existsb (Z.eqb habitId) bucket.

(** [bucket.filter(x => x !== habitId)] *)
Definition without (habitId : Z) (bucket : list Z) : list Z :=
  filter (λ x, x ≠ habitId) bucket.

(** [completions[dateKey]?.includes(habitId) || false] *)
Definition bucket_includes (completions : Completions) (dateKey habitId : Z) : bool :=
  match completions !! dateKey with
  | Some bucket => includes bucket habitId
  | None => false
  end.

(** [Object.keys(completions).some(date => p(date) && completions[date].includes(habitId))] *)
Definition keys_some (p : Z → bool) (completions : Completions) (habitId : Z) : bool :=
  existsb (λ kv, p kv.1 && includes kv.2 habitId) (map_to_list completions).

(** [habits.find(h => h.id === habitId)] *)
Definition find_habit (habitId : Z) (habits : list Habit) : option Habit :=
  List.find (λ h, id h =? habitId) habits.

(** [habits.findIndex(h => h.id === habitId)]; [None] stands for -1. *)
Fixpoint findIndex (habitId : Z) (habits : list Habit) : option nat :=
  match habits with
  | [] => None
  | h :: rest =>
      if id h =? habitId then Some 0%nat
      else S <$> findIndex habitId rest
  end.

(** [Math.max(...xs)] on a non-empty array (the only use the engine makes). *)
Definition Math_max (xs : list Z) : Z :=
  match xs with
  | [] => 0
  | x :: rest => fold_left Z.max rest x
  end.

(** [a + b] on integer-valued numbers: the sum rounded to the nearest double,
    ties to even.  Below 2^53 in magnitude the sum is exact; no sum the
    engine forms leaves the range of the doubles. *)
Definition round_double (n : Z) : Z :=
  if Z.abs n <? 2 ^ 53 then n
  else
    let e := Z.log2 (Z.abs n) - 52 in
    let q := Z.abs n / 2 ^ e in
    let r := Z.abs n mod 2 ^ e in
    let half := 2 ^ (e - 1) in
    let q := if r <? half then q
             else if half <? r then q + 1
             else if Z.even q then q else q + 1 in
    Z.sgn n * (q * 2 ^ e).

Definition js_add (a b : Z) : Z := round_double (a + b).

(** ** Repository operations *)

(** [initializeDatabase()], lines 34-41. *)
Definition initializeDatabase (st : Store) : Store :=
  let st :=
    match STORAGE_KEY st with
    | None => saveHabits [] st
    | Some _ => st
    end in
  match COMPLETIONS_KEY st with
  | None => saveCompletions ∅ st
  | Some _ => st
  end.

(** [getAllHabits()], lines 47-58: every habit with its status for today. *)
Definition getAllHabits (todayKey : Z) (st : Store) : list (Habit * bool) :=
  let habits := loadHabits st in
  let completions := loadCompletions st in
  map (λ habit, (habit, bucket_includes completions todayKey (id habit))) habits.

(** [addHabit(...)], lines 63-88.  [now] is [new Date().toISOString()]. *)
Definition addHabit (name : string) (frequency : Frequency) (target : Z)
    (category : string) (reminder_time notes : option string)
    (now : string) (st : Store) : Z * Store :=
  let habits := loadHabits st in
  let newHabit :=
    {| id := match length habits with
             | O => 1
             | S _ => js_add (Math_max (map id habits)) 1
             end;
       name := name;
       frequency := frequency;
       target := target;
       streak := 0;
       category := category;
       created_at := now;
       reminder_time := reminder_time;
       notes := notes |} in
  (id newHabit, saveHabits (habits ++ [newHabit]) st).

(** [deleteHabit(id)], lines 94-106. *)
Definition deleteHabit (habitId : Z) (st : Store) : Store :=
  let habits := loadHabits st in
  let filteredHabits := filter (λ h, id h ≠ habitId) habits in
  let st := saveHabits filteredHabits st in
  let completions := loadCompletions st in
  let completions := without habitId <$> completions in
  saveCompletions completions st.

(** ** Editing a habit *)

(** The argument of [updateHabit], as the function receives it.  Its type is
    [Partial<Omit<Habit, 'id' | 'created_at'>>]: an object literal can carry
    the seven other keys only, but an object built elsewhere (a [Habit], say)
    passes the type checker with [id] and [created_at] on it, and the spread
    of [updateHabit] copies every key the object has.  [None] is a key that
    the object does not have.  The two optional fields can also be present
    and hold [undefined], which clears them ([Some None]).  Objects that hold
    [undefined] under a required key are left out: merging one yields a
    record that is no [Habit]. *)
Module Updates.
Record t := mk {
  id : option Z;
  name : option string;
  frequency : option Frequency;
  target : option Z;
  streak : option Z;
  category : option string;
  created_at : option string;
  reminder_time : option (option string);
  notes : option (option string)
}.
End Updates.

(** [{ ...habit, ...updates }] *)
Definition merge (updates : Updates.t) (habit : Habit) : Habit :=
  {| id := default (id habit) (Updates.id updates);
     name := default (name habit) (Updates.name updates);
     frequency := default (frequency habit) (Updates.frequency updates);
     target := default (target habit) (Updates.target updates);
     streak := default (streak habit) (Updates.streak updates);
     category := default (category habit) (Updates.category updates);
     created_at := default (created_at habit) (Updates.created_at updates);
     reminder_time := default (reminder_time habit) (Updates.reminder_time updates);
     notes := default (notes habit) (Updates.notes updates) |}.

(** [updateHabit(id, updates)], lines 212-226. *)
Definition updateHabit (habitId : Z) (updates : Updates.t) (st : Store) : Store :=
  let habits := loadHabits st in
  match findIndex habitId habits with
  | Some index => saveHabits (alter (merge updates) index habits) st
  | None => st
  end.

(** ** Pieces shared by the functions that read the clock *)

(** The three loops of [updateStreak] share one shape: while the current
    period has a completion, count it and step one period back.  [fuel]
    bounds the number of iterations; [None] is a loop still running when the
    fuel is spent. *)
Fixpoint count_back {P : Type} (found : P → bool) (prev : P → P)
    (fuel : nat) (current : P) (streak : Z) : option Z :=
  match fuel with
  | O => None
  | S fuel =>
      if found current
      then count_back found prev fuel (prev current) (streak + 1)
      else Some streak
  end.

(** [currentMonth--] with its wrap to December of the year before, lines
    191-195. *)
Definition prev_month (my : Z * Z) : Z * Z :=
  let '(currentMonth, currentYear) := my in
  let currentMonth := currentMonth - 1 in
  if currentMonth <? 0 then (11, currentYear - 1)
  else (currentMonth, currentYear).

(** [habits[index].streak = streak], line 204. *)
Definition set_streak (streak : Z) (h : Habit) : Habit :=
  {| id := id h; name := name h; frequency := frequency h;
     target := target h; streak := streak; category := category h;
     created_at := created_at h; reminder_time := reminder_time h;
     notes := notes h |}.

(** The body of [toggleHabitCompletion] up to the write of the index,
    lines 114-129. *)
Definition toggle_bucket (todayKey habitId : Z) (completed : bool)
    (completions : Completions) : Completions :=
  let completions :=
    match completions !! todayKey with
    | None => <[todayKey := []]> completions
    | Some _ => completions
    end in
  let bucket := default [] (completions !! todayKey) in
  if completed && negb (includes bucket habitId)
  then <[todayKey := bucket ++ [habitId]]> completions
  else if negb completed
  then <[todayKey := without habitId bucket]> completions
  else completions.

(** [habit?.target || 1] *)
Definition target_or_1 (habit : option Habit) : Z :=
  match habit with
  | Some h => if target h =? 0 then 1 else target h
  | None => 1
  end.

(** ** Time values and the local time zone *)

(** A [Date] holds a time value: the milliseconds since 1970-01-01T00:00Z.
    [Day], [TimeWithinDay], [MakeDay] and [MakeDate] are the operations of
    ECMAScript under their names, on time values within the range of
    [Date]. *)
Definition msPerDay : Z := 86400000.

Definition Day (t : Z) : Z := t / msPerDay.

Definition TimeWithinDay (t : Z) : Z := t mod msPerDay.

Definition MakeDay (year month date : Z) : Z :=
  days_from_civil (year + month / 12) (month mod 12 + 1) 1 + date - 1.

Definition MakeDate (day time : Z) : Z := day * msPerDay + time.

(** The time zone of the runtime, as ECMAScript sees it: [LocalTZA(t, isUTC)]
    is the offset of local time from UTC, in milliseconds, at the UTC time
    value [t] when [isUTC] is true and at the local time value [t] when it is
    false.  A local time that a clock change skips or repeats is read with
    the offset in force before the change. *)
Record Zone := mkZone { LocalTZA : Z → bool → Z }.

Definition LocalTime (zone : Zone) (t : Z) : Z := t + LocalTZA zone t true.

Definition UTC (zone : Zone) (t : Z) : Z := t - LocalTZA zone t false.

(** A zone whose clock never changes, and UTC itself. *)
Definition fixed_zone (offset : Z) : Zone := mkZone (λ _ _, offset).

Definition utc_zone : Zone := fixed_zone 0.

(** ** Streaks and statistics in the time zone of the runtime

    The functions of the engine that read the clock, for any time zone.
    [now] is the time value that [new Date()] returns during the call; a key
    [YYYY-MM-DD] of the index is the day number it denotes. *)

Module Zoned.
Section zone.
Context (zone : Zone).

(** [date.toISOString().split('T')[0]]: the UTC day of a [Date]. *)
Definition toISOString_day (date : Z) : Z := Day date.

(** [getTodayKey()], lines 26-28. *)
Definition getTodayKey (now : Z) : Z := toISOString_day now.

(** [new Date(key)]: a date-only string is read as midnight UTC. *)
Definition new_Date (key : Z) : Z := MakeDate key 0.

(** The local calendar day of a [Date], and the three getters that read
    it. *)
Definition local_day (date : Z) : Z := Day (LocalTime zone date).

Definition getFullYear (date : Z) : Z := Calendar.getFullYear (local_day date).

Definition getMonth (date : Z) : Z := Calendar.getMonth (local_day date).

Definition getDate (date : Z) : Z := Calendar.getDate (local_day date).

(** [date.setDate(dt)]: the time value that [date] holds afterwards. *)
Definition setDate (date dt : Z) : Z :=
  let t := LocalTime zone date in
  let newDate :=
    MakeDate (MakeDay (Calendar.getFullYear (Day t))
                      (Calendar.getMonth (Day t)) dt)
             (TimeWithinDay t) in
  UTC zone newDate.

(** [getWeekNumber(date)], lines 292-298, of a [Date]; [d] and [yearStart]
    are midnights UTC, held as day numbers. *)
Definition getWeekNumber (date : Z) : Z :=
  let d := Date_UTC (getFullYear date) (getMonth date) (getDate date) in
  let dayNum := if getUTCDay d =? 0 then 7 else getUTCDay d in
  let d := d + 4 - dayNum in
  let yearStart := Date_UTC (Calendar.getFullYear d) 0 1 in
  ceil_div7 ((d - yearStart) + 1).

(** The local day on which [new Date(key)] falls. *)
Definition key_day (key : Z) : Z := local_day (new_Date key).

(** Lines 150-159: consecutive days.  [currentDate] is a [Date]: its key is
    its UTC day, and [setDate(getDate() - 1)] moves its local day. *)
Definition daily_streak (fuel : nat) (completions : Completions)
    (habitId today : Z) : option Z :=
  count_back (λ currentDate,
                bucket_includes completions (toISOString_day currentDate)
                                habitId)
             (λ currentDate, setDate currentDate (getDate currentDate - 1))
             fuel today 0.

(** Lines 161-175: consecutive week numbers, by a scan of all the keys. *)
Definition weekly_streak (fuel : nat) (completions : Completions)
    (habitId today : Z) : option Z :=
  count_back (λ currentWeek,
                keys_some (λ date, getWeekNumber (new_Date date) =? currentWeek)
                          completions habitId)
             (λ currentWeek, currentWeek - 1)
             fuel (getWeekNumber today) 0.

(** Lines 177-198: consecutive months, by a scan of all the keys. *)
Definition monthly_streak (fuel : nat) (completions : Completions)
    (habitId today : Z) : option Z :=
  count_back (λ '(currentMonth, currentYear),
                keys_some (λ date,
                             (getMonth (new_Date date) =? currentMonth)
                             && (getFullYear (new_Date date) =? currentYear))
                          completions habitId)
             prev_month
             fuel (getMonth today, getFullYear today) 0.

(** The [switch (habit.frequency)] of [updateStreak], lines 149-199. *)
Definition computeStreak (fuel : nat) (habit : Habit)
    (completions : Completions) (habitId today : Z) : option Z :=
  match frequency habit with
  | daily => daily_streak fuel completions habitId today
  | weekly => weekly_streak fuel completions habitId today
  | monthly => monthly_streak fuel completions habitId today
  end.

(** [updateStreak(habitId)], lines 138-207. *)
Definition updateStreak (fuel : nat) (now : Z) (habitId : Z)
    (st : Store) : option Store :=
  let habits := loadHabits st in
  let completions := loadCompletions st in
  match find_habit habitId habits with
  | None => Some st
  | Some habit =>
      let today := now in
      streak ← computeStreak fuel habit completions habitId today;
      match findIndex habitId habits with
      | Some index =>
          Some (saveHabits (alter (set_streak streak) index habits) st)
      | None => Some st
      end
  end.

(** [toggleHabitCompletion(habitId, completed)], lines 113-133. *)
Definition toggleHabitCompletion (fuel : nat) (now : Z) (habitId : Z)
    (completed : bool) (st : Store) : option Store :=
  let completions := loadCompletions st in
  let todayKey := getTodayKey now in
  let st :=
    saveCompletions (toggle_bucket todayKey habitId completed completions)
                    st in
  updateStreak fuel now habitId st.

(** The [isCompleted] closure of [getHabitStats], lines 254-279. *)
Definition isCompleted (habit : Habit) (completions : Completions)
    (today todayKey habitId : Z) : bool :=
  match frequency habit with
  | daily => bucket_includes completions todayKey habitId
  | weekly =>
      let thisWeek := getWeekNumber today in
      keys_some (λ date, getWeekNumber (new_Date date) =? thisWeek)
                completions habitId
  | monthly =>
      let thisMonth := getMonth today in
      keys_some (λ date, getMonth (new_Date date) =? thisMonth)
                completions habitId
  end.

(** [getHabitStats(habitId)], lines 231-287. *)
Definition getHabitStats (now : Z) (habitId : Z) (st : Store)
    : Stats.t * Store :=
  let habits := loadHabits st in
  let completions := loadCompletions st in
  match find_habit habitId habits with
  | None =>
      ({| Stats.streak := 0;
          Stats.completed := 0;
          Stats.total_required := target_or_1 None;
          Stats.completion_rate := 0 |}, st)
  | Some habit =>
      let today := now in
      let todayKey := getTodayKey now in
      let isCompleted := isCompleted habit completions today todayKey habitId in
      ({| Stats.streak := streak habit;
          Stats.completed := if isCompleted then 1 else 0;
          Stats.total_required := target habit;
          Stats.completion_rate := if isCompleted then 100 else 0 |}, st)
  end.

End zone.
End Zoned.

(** ** The engine on a UTC clock

    In the zone UTC the key of a [Date] and its local day are one day, and
    [setDate(getDate() - 1)] moves a [Date] back by one day exactly, whatever
    its time of day.  There the functions of [Zoned] depend on the clock
    through its day number [today] only; they are written out below in that
    form, and lemma [zoned_at_utc] proves that they are the functions of
    [Zoned] at [utc_zone]. *)

(** Lines 150-159: consecutive days, by bucket lookup. *)
Definition daily_streak (fuel : nat) (completions : Completions)
    (habitId today : Z) : option Z :=
  count_back (λ currentDate, bucket_includes completions currentDate habitId)
             (λ currentDate, currentDate - 1)
             fuel today 0.

(** Lines 161-175: consecutive week numbers, by a scan of all the keys. *)
Definition weekly_streak (fuel : nat) (completions : Completions)
    (habitId today : Z) : option Z :=
  count_back (λ currentWeek,
                keys_some (λ date, getWeekNumber date =? currentWeek)
                          completions habitId)
             (λ currentWeek, currentWeek - 1)
             fuel (getWeekNumber today) 0.

(** Lines 177-198: consecutive months, by a scan of all the keys. *)
Definition monthly_streak (fuel : nat) (completions : Completions)
    (habitId today : Z) : option Z :=
  count_back (λ '(currentMonth, currentYear),
                keys_some (λ date, (getMonth date =? currentMonth)
                                   && (getFullYear date =? currentYear))
                          completions habitId)
             prev_month
             fuel (getMonth today, getFullYear today) 0.

(** The [switch (habit.frequency)] of [updateStreak], lines 149-199. *)
Definition computeStreak (fuel : nat) (habit : Habit)
    (completions : Completions) (habitId today : Z) : option Z :=
  match frequency habit with
  | daily => daily_streak fuel completions habitId today
  | weekly => weekly_streak fuel completions habitId today
  | monthly => monthly_streak fuel completions habitId today
  end.

(** [updateStreak(habitId)], lines 138-207.  [today] is [new Date()]. *)
Definition updateStreak (fuel : nat) (today : Z) (habitId : Z)
    (st : Store) : option Store :=
  let habits := loadHabits st in
  let completions := loadCompletions st in
  match find_habit habitId habits with
  | None => Some st
  | Some habit =>
      streak ← computeStreak fuel habit completions habitId today;
      match findIndex habitId habits with
      | Some index => Some (saveHabits (alter (set_streak streak) index habits) st)
      | None => Some st
      end
  end.

(** [toggleHabitCompletion(habitId, completed)], lines 113-133. *)
Definition toggleHabitCompletion (fuel : nat) (today : Z) (habitId : Z)
    (completed : bool) (st : Store) : option Store :=
  let completions := loadCompletions st in
  let st := saveCompletions (toggle_bucket today habitId completed completions) st in
  updateStreak fuel today habitId st.

(** The [isCompleted] closure of [getHabitStats], lines 254-279. *)
Definition isCompleted (habit : Habit) (completions : Completions)
    (today habitId : Z) : bool :=
  match frequency habit with
  | daily => bucket_includes completions today habitId
  | weekly =>
      let thisWeek := getWeekNumber today in
      keys_some (λ date, getWeekNumber date =? thisWeek) completions habitId
  | monthly =>
      let thisMonth := getMonth today in
      keys_some (λ date, getMonth date =? thisMonth) completions habitId
  end.

(** [getHabitStats(habitId)], lines 231-287.  The function only reads
    [localStorage]: the store it leaves is the store it was given. *)
Definition getHabitStats (today : Z) (habitId : Z) (st : Store) : Stats.t * Store :=
  let habits := loadHabits st in
  let completions := loadCompletions st in
  match find_habit habitId habits with
  | None =>
      ({| Stats.streak := 0;
          Stats.completed := 0;
          Stats.total_required := target_or_1 None;
          Stats.completion_rate := 0 |}, st)
  | Some habit =>
      let isCompleted := isCompleted habit completions today habitId in
      ({| Stats.streak := streak habit;
          Stats.completed := if isCompleted then 1 else 0;
          Stats.total_required := target habit;
          Stats.completion_rate := if isCompleted then 100 else 0 |}, st)
  end.

(** ** Specification vocabulary *)

(** The day bucket of [date] contains the habit's id. *)
Definition completed_on (completions : Completions) (habitId date : Z) : Prop :=
  ∃ bucket, completions !! date = Some bucket ∧ habitId ∈ bucket.

(** [n] is the number of consecutive calendar days, counted backwards from
    [referenceDate], on which the habit was completed: the [n] days
    [referenceDate], ..., [referenceDate - (n - 1)] all have a completion and
    the day [referenceDate - n] has none. *)
Definition consecutive_days (completions : Completions) (habitId referenceDate : Z)
    (n : nat) : Prop :=
  (∀ i : nat, (i < n)%nat →
     completed_on completions habitId (referenceDate - Z.of_nat i))
  ∧ ¬ completed_on completions habitId (referenceDate - Z.of_nat n).

(** With no completion recorded for the habit, no period is ever found. *)
Definition never_completed (completions : Completions) (habitId : Z) : Prop :=
  ∀ date bucket, completions !! date = Some bucket → habitId ∉ bucket.

(** Every id of every day bucket is the id of a stored habit. *)
Definition referential_integrity (st : Store) : Prop :=
  ∀ date bucket habitId,
    loadCompletions st !! date = Some bucket →
    habitId ∈ bucket →
    habitId ∈ map id (loadHabits st).

(** ** Measures for the termination of the streak loops *)

(** The part of the index that a period can still reach: the buckets whose
    day lies at or before it, for a notion [upto] of "at or before". *)
Definition reach {P : Type} (upto : P → Z → Prop)
    `{!∀ p k, Decision (upto p k)} (completions : Completions) (p : P)
    : Completions :=
  filter (λ kv, upto p kv.1) completions.

(** Days at or before day [d]; dates whose week number is at most [w]; dates
    of a month at or before month [my.1] of year [my.2]. *)
Definition day_upto (d date : Z) : Prop := date ≤ d.

#[local] Instance day_upto_dec d date : Decision (day_upto d date).
Proof. unfold day_upto. apply _. Defined.

Definition week_upto (w date : Z) : Prop := getWeekNumber date ≤ w.

#[local] Instance week_upto_dec w date : Decision (week_upto w date).
Proof. unfold week_upto. apply _. Defined.

Definition month_upto (my : Z * Z) (date : Z) : Prop :=
  getFullYear date < my.2 ∨ (getFullYear date = my.2 ∧ getMonth date ≤ my.1).

#[local] Instance month_upto_dec my date : Decision (month_upto my date).
Proof. unfold month_upto. apply _. Defined.

(** The same two notions on the local day on which a key is read. *)
Definition key_week_upto (zone : Zone) (w key : Z) : Prop :=
  week_upto w (Zoned.key_day zone key).

#[local] Instance key_week_upto_dec zone w key :
  Decision (key_week_upto zone w key).
Proof. unfold key_week_upto. apply _. Defined.

Definition key_month_upto (zone : Zone) (my : Z * Z) (key : Z) : Prop :=
  month_upto my (Zoned.key_day zone key).

#[local] Instance key_month_upto_dec zone my key :
  Decision (key_month_upto zone my key).
Proof. unfold key_month_upto. apply _. Defined.

#[local] Typeclasses Opaque key_week_upto key_month_upto.

(** ** Sample stores *)

(** The habit "Exercise" with id 1, as [addHabit] creates it. *)
Definition exercise (freq : Frequency) : Habit :=
  {| id := 1; name := "Exercise"; frequency := freq; target := 1; streak := 0;
     category := "general"; created_at := "2024-03-10T08:00:00.000Z";
     reminder_time := None; notes := None |}.

(** 2024-03-10, a Sunday of ISO week 10. *)
Definition T0 : Z := 19792.

(** The store after [initializeDatabase()] on a fresh [localStorage]. *)
Definition empty_store : Store := initializeDatabase (mkStore None None).

(** Completions on T0, T0-1, T0-2 and, after a gap, T0-4. *)
Definition three_day_store : Store :=
  {| STORAGE_KEY := Some [exercise daily];
     COMPLETIONS_KEY :=
       Some (<[T0 := [1]]> (<[T0 - 1 := [1]]> (<[T0 - 2 := [1]]>
             (<[T0 - 4 := [1]]> ∅)))) |}.


(** One completion, on Wednesday 2023-03-08: ISO week 10 of 2023. *)
Definition last_year_store (freq : Frequency) : Store :=
  {| STORAGE_KEY := Some [exercise freq];
     COMPLETIONS_KEY := Some (<[days_from_civil 2023 3 8 := [1]]> ∅) |}.

(** Wednesday 2024-01-03, in ISO week 1 of 2024. *)
Definition R0 : Z := days_from_civil 2024 1 3.

(** Completions on 2024-01-03 and, one week before, on 2023-12-27. *)
Definition new_year_store : Store :=
  {| STORAGE_KEY := Some [exercise weekly];
     COMPLETIONS_KEY := Some (<[R0 := [1]]> (<[R0 - 7 := [1]]> ∅)) |}.

(** ** Sample clocks

    The time value of [y]-[m]-[d]T[hh]:[mm]:00Z. *)
Definition msPerHour : Z := 3600000.

Definition instant (y m d hh mm : Z) : Z :=
  MakeDate (days_from_civil y m d) (hh * msPerHour + mm * 60000).

(** America/New_York through 2024: five hours behind UTC, and four hours
    behind from 2024-03-10T07:00Z, when the local clock jumps from 02:00 to
    03:00, until 2024-11-03T06:00Z, when it goes from 02:00 back to 01:00.
    The skipped hour is read with the offset before the jump and the
    repeated hour with the offset before the step back. *)
Definition new_york : Zone :=
  mkZone (λ t isUTC,
    if isUTC
    then if (instant 2024 3 10 7 0 <=? t) && (t <? instant 2024 11 3 6 0)
         then -4 * msPerHour else -5 * msPerHour
    else if (instant 2024 3 10 3 0 <=? t) && (t <? instant 2024 11 3 2 0)
         then -4 * msPerHour else -5 * msPerHour).

(** Zones in which [setDate(getDate() - 1)] always moves a [Date] back in
    time: the offset in force one local day earlier is less than a day
    behind the current one. *)
Definition steps_back (zone : Zone) : Prop :=
  ∀ t, LocalTZA zone t true
       - LocalTZA zone (LocalTime zone t - msPerDay) false < msPerDay.

(** India: five and a half hours ahead of UTC, without clock changes. *)
Definition kolkata : Zone := fixed_zone (5 * msPerHour + 30 * 60000).

(** One completion of habit 1, under the key 2024-11-02. *)
Definition november_store : Store :=
  {| STORAGE_KEY := Some [exercise daily];
     COMPLETIONS_KEY := Some (<[days_from_civil 2024 11 2 := [1]]> ∅) |}.

(** Completions under the keys [date1] and [date2]. *)
Definition two_key_store (freq : Frequency) (date1 date2 : Z) : Store :=
  {| STORAGE_KEY := Some [exercise freq];
     COMPLETIONS_KEY := Some (<[date1 := [1]]> (<[date2 := [1]]> ∅)) |}.

(** One completion, under the key [date]. *)
Definition one_key_store (freq : Frequency) (date : Z) : Store :=
  {| STORAGE_KEY := Some [exercise freq];
     COMPLETIONS_KEY := Some (<[date := [1]]> ∅) |}.

(** ** Further vocabulary *)

(** The Thursday of the Monday-to-Sunday week of [date]: the day that
    [getWeekNumber] moves to before it counts weeks (line 295). *)
Definition thursday_of (date : Z) : Z :=
  date + 4 - (if getUTCDay date =? 0 then 7 else getUTCDay date).

(** The calendar month of a date, months being numbered through the years. *)
Definition month_index (date : Z) : Z := 12 * getFullYear date + getMonth date.

(** The bucket of some key holds the habit's id, and the local day on which
    the runtime reads that key, [new Date(key)], satisfies [period]. *)
Definition completed_in (zone : Zone) (period : Z → Prop)
    (completions : Completions) (habitId : Z) : Prop :=
  ∃ key bucket, completions !! key = Some bucket ∧ habitId ∈ bucket
                ∧ period (Zoned.key_day zone key).

(** Some key read as a day of the calendar month [index] has a completion
    of the habit. *)
Definition completed_in_month (zone : Zone) (completions : Completions)
    (habitId index : Z) : Prop :=
  completed_in zone (λ date, month_index date = index) completions habitId.

(** [n] is the number of consecutive calendar months, counted backwards from
    the local month of the time value [now], that have a completion of the
    habit. *)
Definition consecutive_months (zone : Zone) (completions : Completions)
    (habitId now : Z) (n : nat) : Prop :=
  (∀ i : nat, (i < n)%nat →
     completed_in_month zone completions habitId
       (month_index (Zoned.local_day zone now) - Z.of_nat i))
  ∧ ¬ completed_in_month zone completions habitId
        (month_index (Zoned.local_day zone now) - Z.of_nat n).

(** Some key read as a day whose week number is [w], in whatever year, has a
    completion of the habit. *)
Definition completed_in_week_number (zone : Zone) (completions : Completions)
    (habitId w : Z) : Prop :=
  completed_in zone (λ date, getWeekNumber date = w) completions habitId.

(** Some key read as a day whose month of the year is [m] (0..11), in
    whatever year, has a completion of the habit. *)
Definition completed_in_month_of_year (zone : Zone)
    (completions : Completions) (habitId m : Z) : Prop :=
  completed_in zone (λ date, getMonth date = m) completions habitId.

(** Habit ids are unique across the collection. *)
Definition unique_ids (st : Store) : Prop := NoDup (map id (loadHabits st)).

(** [Number.isSafeInteger(x)], for an integer [x]. *)
Definition safe_integer (x : Z) : Prop := - 2 ^ 53 < x < 2 ^ 53.

(** Every id of the collection is a safe integer. *)
Definition safe_ids (st : Store) : Prop :=
  ∀ h, h ∈ loadHabits st → safe_integer (id h).

(** A habit id appears in a day bucket at most once. *)
Definition buckets_nodup (st : Store) : Prop :=
  ∀ date bucket, loadCompletions st !! date = Some bucket → NoDup bucket.

(** ** Calls of the exported functions *)

(** One call of the module's interface, with its arguments and the clock
    readings it makes. *)
Inductive Op :=
  | OpInitialize
  | OpAdd (name : string) (frequency : Frequency) (target : Z)
          (category : string) (reminder_time notes : option string)
          (now : string)
  | OpDelete (habitId : Z)
  | OpUpdate (habitId : Z) (updates : Updates.t)
  | OpToggle (today habitId : Z) (completed : bool)
  | OpStats (today habitId : Z).

(** The store a call leaves; [None] when the fuel of a streak loop runs
    out. *)
Definition run_op (fuel : nat) (op : Op) (st : Store) : option Store :=
  match op with
  | OpInitialize => Some (initializeDatabase st)
  | OpAdd name frequency target category reminder_time notes now =>
      Some (addHabit name frequency target category reminder_time notes
                     now st).2
  | OpDelete habitId => Some (deleteHabit habitId st)
  | OpUpdate habitId updates => Some (updateHabit habitId updates st)
  | OpToggle today habitId completed =>
      toggleHabitCompletion fuel today habitId completed st
  | OpStats today habitId => Some (getHabitStats today habitId st).2
  end.

(** Calls that cannot produce a second habit with an id in use: an addition
    to a collection whose ids are safe integers, an update that carries no
    [id] key, and every other call. *)
Definition keeps_ids_apart (op : Op) (st : Store) : Prop :=
  match op with
  | OpAdd _ _ _ _ _ _ _ => safe_ids st
  | OpUpdate _ updates => Updates.id updates = None
  | _ => True
  end.

(** Calls that cannot leave an id of the index without its habit: a habit is
    only marked complete if it exists, and an update carries no [id] key. *)
Definition keeps_references (op : Op) (st : Store) : Prop :=
  match op with
  | OpToggle _ habitId true => is_Some (find_habit habitId (loadHabits st))
  | OpUpdate _ updates => Updates.id updates = None
  | _ => True
  end.

(** ** The page component that drives the store

    The script of the Svelte page: its state, its key handler and the
    functions they call.  [String.prototype.trim] is a parameter [trim].  A
    handler run is given one reading [today] / [now] of the clock. *)

(** [import { addHabit as dbAddHabit, deleteHabit as dbDeleteHabit }] *)
Abbreviation dbAddHabit := addHabit.
Abbreviation dbDeleteHabit := deleteHabit.

Module Page.

(** How a handler ends: normally, by an uncaught [TypeError] (with the state
    reached when it is thrown), or still inside a streak loop when the fuel
    is spent. *)
Inductive Result (A : Type) : Type :=
  | Return (a : A)
  | Throw (a : A)
  | Diverge.
Arguments Return {A} a.
Arguments Throw {A} a.
Arguments Diverge {A}.

(** The component's variables.  A row of [habits] is a habit with its
    [completed] flag; [None] is [null] or [undefined]. *)
Record State := mkState {
  habits : list (Habit * bool);
  selectedIndex : Z;
  isAddingHabit : bool;
  isEditingHabit : bool;
  showingDetails : bool;
  newHabitName : string;
  newHabitFrequency : Frequency;
  newHabitTarget : Z;
  newHabitCategory : string;
  newHabitNotes : string;
  editingHabit : option (Habit * bool)
}.

Definition with_habits (rows : list (Habit * bool)) (ui : State) : State :=
  mkState rows (selectedIndex ui) (isAddingHabit ui) (isEditingHabit ui)
          (showingDetails ui) (newHabitName ui) (newHabitFrequency ui)
          (newHabitTarget ui) (newHabitCategory ui) (newHabitNotes ui)
          (editingHabit ui).

Definition with_selectedIndex (index : Z) (ui : State) : State :=
  mkState (habits ui) index (isAddingHabit ui) (isEditingHabit ui)
          (showingDetails ui) (newHabitName ui) (newHabitFrequency ui)
          (newHabitTarget ui) (newHabitCategory ui) (newHabitNotes ui)
          (editingHabit ui).

Definition with_isAddingHabit (flag : bool) (ui : State) : State :=
  mkState (habits ui) (selectedIndex ui) flag (isEditingHabit ui)
          (showingDetails ui) (newHabitName ui) (newHabitFrequency ui)
          (newHabitTarget ui) (newHabitCategory ui) (newHabitNotes ui)
          (editingHabit ui).

Definition with_showingDetails (flag : bool) (ui : State) : State :=
  mkState (habits ui) (selectedIndex ui) (isAddingHabit ui) (isEditingHabit ui)
          flag (newHabitName ui) (newHabitFrequency ui)
          (newHabitTarget ui) (newHabitCategory ui) (newHabitNotes ui)
          (editingHabit ui).

Definition with_editingHabit (habit : option (Habit * bool)) (ui : State)
    : State :=
  mkState (habits ui) (selectedIndex ui) (isAddingHabit ui) (isEditingHabit ui)
          (showingDetails ui) (newHabitName ui) (newHabitFrequency ui)
          (newHabitTarget ui) (newHabitCategory ui) (newHabitNotes ui)
          habit.

(** [habits[index]]: [undefined] outside the array. *)
Definition nth_habit (rows : list (Habit * bool)) (index : Z)
    : option (Habit * bool) :=
  if index <? 0 then None else rows !! Z.to_nat index.

(** A string used as a condition: true when it is not empty. *)
Definition truthy (s : string) : bool :=
  match s with
  | EmptyString => false
  | String _ _ => true
  end.

(** [loadHabits()], lines 28-30. *)
Definition loadHabits (today : Z) (w : State * Store) : State * Store :=
  (with_habits (getAllHabits today w.2) w.1, w.2).

(** [cancelEdit()], lines 123-132. *)
Definition cancelEdit (ui : State) : State :=
  mkState (habits ui) (selectedIndex ui) false false (showingDetails ui)
          EmptyString daily 1 EmptyString EmptyString None.

(** [showHabitDetails(habit)], lines 143-146. *)
Definition showHabitDetails (habit : option (Habit * bool)) (ui : State)
    : State :=
  with_showingDetails true (with_editingHabit habit ui).

(** [startEditing(habit)], lines 99-107: the first statement stores the
    argument, the second reads [habit.name] and throws on [undefined]. *)
Definition startEditing (habit : option (Habit * bool)) (ui : State)
    : Result State :=
  let ui := with_editingHabit habit ui in
  match habit with
  | None => Throw ui
  | Some row =>
      Return (mkState (habits ui) (selectedIndex ui) (isAddingHabit ui) true
                (showingDetails ui) (name row.1) (frequency row.1)
                (target row.1) (category row.1)
                (default EmptyString (notes row.1)) (editingHabit ui))
  end.

(** [toggleHabit(index)], lines 78-82. *)
Definition toggleHabit (fuel : nat) (today index : Z) (w : State * Store)
    : Result (State * Store) :=
  match nth_habit (habits w.1) index with
  | None => Throw w
  | Some habit =>
      match toggleHabitCompletion fuel today (id habit.1) (negb habit.2) w.2 with
      | None => Diverge
      | Some st => Return (loadHabits today (w.1, st))
      end
  end.

(** [deleteHabit(index)], lines 134-141. *)
Definition deleteHabit (today index : Z) (w : State * Store)
    : Result (State * Store) :=
  match nth_habit (habits w.1) index with
  | None => Throw w
  | Some habit =>
      let st := dbDeleteHabit (id habit.1) w.2 in
      let w := loadHabits today (w.1, st) in
      if selectedIndex w.1 >=? Z.of_nat (length (habits w.1))
      then Return (with_selectedIndex
                     (Z.max 0 (Z.of_nat (length (habits w.1)) - 1)) w.1, w.2)
      else Return w
  end.

Section script.
Context (trim : string → string).

(** [addHabit()], lines 84-97. *)
Definition addHabit (today : Z) (now : string) (w : State * Store)
    : State * Store :=
  let ui := w.1 in
  if truthy (trim (newHabitName ui)) then
    let st := (dbAddHabit (trim (newHabitName ui)) (newHabitFrequency ui)
                 (newHabitTarget ui) (newHabitCategory ui) None
                 (Some (newHabitNotes ui)) now w.2).2 in
    loadHabits today (cancelEdit ui, st)
  else w.

(** [saveHabitEdit()], lines 109-121. *)
Definition saveHabitEdit (today : Z) (w : State * Store) : State * Store :=
  let ui := w.1 in
  match editingHabit ui with
  | Some row =>
      if truthy (trim (newHabitName ui)) then
        let st := updateHabit (id row.1)
                    (Updates.mk None
                                (Some (trim (newHabitName ui)))
                                (Some (newHabitFrequency ui))
                                (Some (newHabitTarget ui))
                                None
                                (Some (newHabitCategory ui))
                                None
                                None
                                (Some (Some (newHabitNotes ui))))
                    w.2 in
        loadHabits today (cancelEdit ui, st)
      else w
  | None => w
  end.

(** [handleKeydown(e)], lines 32-76, for [e.key = key]. *)
Definition handleKeydown (fuel : nat) (today : Z) (now : string)
    (key : string) (w : State * Store) : Result (State * Store) :=
  let ui := w.1 in
  if isAddingHabit ui || isEditingHabit ui then
    if String.eqb key "Enter" then
      if isAddingHabit ui then Return (addHabit today now w)
      else Return (saveHabitEdit today w)
    else if String.eqb key "Escape" then Return (cancelEdit ui, w.2)
    else Return w
  else if showingDetails ui && String.eqb key "Escape" then
    Return (with_showingDetails false ui, w.2)
  else if String.eqb key "j" || String.eqb key "ArrowDown" then
    Return (with_selectedIndex
              (Z.min (selectedIndex ui + 1) (Z.of_nat (length (habits ui)) - 1))
              ui, w.2)
  else if String.eqb key "k" || String.eqb key "ArrowUp" then
    Return (with_selectedIndex (Z.max (selectedIndex ui - 1) 0) ui, w.2)
  else if String.eqb key " " then toggleHabit fuel today (selectedIndex ui) w
  else if String.eqb key "n" then Return (with_isAddingHabit true ui, w.2)
  else if String.eqb key "d" then deleteHabit today (selectedIndex ui) w
  else if String.eqb key "e" then
    match startEditing (nth_habit (habits ui) (selectedIndex ui)) ui with
    | Return ui => Return (ui, w.2)
    | Throw ui => Throw (ui, w.2)
    | Diverge => Diverge
    end
  else if String.eqb key "Enter" then
    Return (showHabitDetails (nth_habit (habits ui) (selectedIndex ui)) ui, w.2)
  else Return w.

(** What the user can do to the page: press a key, type into the form (the
    [bind:value] fields), tick the checkbox of row [index], click Edit in
    the details view. *)
Inductive Event :=
  | Keydown (today : Z) (now key : string)
  | Input (name : string) (frequency : Frequency) (target : Z)
          (category notes : string)
  | Change (today index : Z)
  | ClickEdit.

Definition dispatch (fuel : nat) (event : Event) (w : State * Store)
    : Result (State * Store) :=
  match event with
  | Keydown today now key => handleKeydown fuel today now key w
  | Input name frequency target category notes =>
      Return (mkState (habits w.1) (selectedIndex w.1) (isAddingHabit w.1)
                (isEditingHabit w.1) (showingDetails w.1) name frequency
                target category notes (editingHabit w.1), w.2)
  | Change today index => toggleHabit fuel today index w
  | ClickEdit =>
      match startEditing (editingHabit w.1) w.1 with
      | Return ui => Return (ui, w.2)
      | Throw ui => Throw (ui, w.2)
      | Diverge => Diverge
      end
  end.

(** A run of events; it stops at the first handler that does not return. *)
Fixpoint run (fuel : nat) (events : list Event) (w : State * Store)
    : Result (State * Store) :=
  match events with
  | [] => Return w
  | event :: rest =>
      match dispatch fuel event w with
      | Return w => run fuel rest w
      | Throw w => Throw w
      | Diverge => Diverge
      end
  end.

End script.

(** [onMount]: the first two statements, lines 149-150. *)
Definition onMount (today : Z) (w : State * Store) : State * Store :=
  loadHabits today (w.1, initializeDatabase w.2).

(** The component's variables as declared, lines 14-26. *)
Definition initial : State :=
  mkState [] 0 false false false EmptyString daily 1 EmptyString EmptyString
          None.

End Page.

(** The rows on the page are the habits of the store, in order. *)
Definition page_synced (w : Page.State * Store) : Prop :=
  map (λ row, id row.1) (Page.habits w.1) = map id (loadHabits w.2).

(** The selection points at a row, or at position 0 of an empty list. *)
Definition selection_valid (ui : Page.State) : Prop :=
  0 ≤ Page.selectedIndex ui
  ∧ Page.selectedIndex ui < Z.max 1 (Z.of_nat (length (Page.habits ui))).

(** The page after [onMount] on a store that holds the habit "Exercise". *)
Definition sample_page : Page.State * Store :=
  Page.onMount T0 (Page.initial, saveHabits [exercise daily] empty_store).

(** Open the form, type a name, save, then complete the new habit. *)
Definition sample_events : list Page.Event :=
  [Page.Keydown T0 "2024-03-10T08:00:00.000Z" "n";
   Page.Input "Exercise" daily 1 "Health" EmptyString;
   Page.Keydown T0 "2024-03-10T08:00:05.000Z" "Enter";
   Page.Keydown T0 "2024-03-10T08:00:09.000Z" " "].

(** ** Sanity checks of the calendar model *)

Example civil_epoch : civil_from_days 0 = (1970, 1, 1).
Proof. reflexivity. Qed.

Example civil_2024_leap : civil_from_days (days_from_civil 2024 2 29) = (2024, 2, 29).
Proof. reflexivity. Qed.

Example day_2024_03_10 : days_from_civil 2024 3 10 = 19792.
Proof. reflexivity. Qed.

(** 2021-01-03 is a Sunday of ISO week 53 of 2020; 2021-01-04 opens week 1. *)
Example week_2021_01_03 : getWeekNumber (days_from_civil 2021 1 3) = 53.
Proof. reflexivity. Qed.

Example week_2021_01_04 : getWeekNumber (days_from_civil 2021 1 4) = 1.
Proof. reflexivity. Qed.

Example week_2024_12_30 : getWeekNumber (days_from_civil 2024 12 30) = 1.
Proof. reflexivity. Qed.

(** ** Basic facts about the helpers *)

Lemma includes_spec (bucket : list Z) (habitId : Z) :
  includes bucket habitId = true ↔ habitId ∈ bucket.
Proof.
  unfold includes. rewrite existsb_exists. split.
  - intros (x & Hin & Heq). apply Z.eqb_eq in Heq. subst x.
    by apply list_elem_of_In.
  - intros Hin. exists habitId. split; [by apply list_elem_of_In | apply Z.eqb_refl].
Qed.

Lemma includes_false (bucket : list Z) (habitId : Z) :
  includes bucket habitId = false ↔ habitId ∉ bucket.
Proof.
  rewrite <- includes_spec. destruct (includes bucket habitId); naive_solver.
Qed.

Lemma elem_of_without (habitId x : Z) (bucket : list Z) :
  x ∈ without habitId bucket ↔ x ≠ habitId ∧ x ∈ bucket.
Proof. unfold without. by rewrite list_elem_of_filter. Qed.

Lemma without_absent (habitId : Z) (bucket : list Z) :
  habitId ∉ bucket → without habitId bucket = bucket.
Proof.
  unfold without. induction bucket as [|x bucket IH]; [done|].
  intros Hnot. apply not_elem_of_cons in Hnot as [Hne Hnot].
  rewrite filter_cons_True by congruence. by rewrite IH.
Qed.

Lemma bucket_includes_spec (completions : Completions) (dateKey habitId : Z) :
  bucket_includes completions dateKey habitId = true ↔
  ∃ bucket, completions !! dateKey = Some bucket ∧ habitId ∈ bucket.
Proof.
  unfold bucket_includes. destruct (completions !! dateKey) as [bucket|].
  - rewrite includes_spec. split.
    + intros Hin. by exists bucket.
    + by intros (b & [= <-] & Hin).
  - split; [done|]. by intros (b & Hb & _).
Qed.

Lemma keys_some_spec (p : Z → bool) (completions : Completions) (habitId : Z) :
  keys_some p completions habitId = true ↔
  ∃ date bucket, completions !! date = Some bucket ∧ p date = true
                 ∧ habitId ∈ bucket.
Proof.
  unfold keys_some. rewrite existsb_exists. split.
  - intros ([date bucket] & Hin & Hp). simpl in Hp.
    apply andb_true_iff in Hp as [Hp Hinc].
    exists date, bucket. split_and!; [|done|by apply includes_spec].
    by apply elem_of_map_to_list, list_elem_of_In.
  - intros (date & bucket & Hlk & Hp & Hin). exists (date, bucket). split.
    + by apply list_elem_of_In, elem_of_map_to_list.
    + simpl. rewrite Hp. simpl. by apply includes_spec.
Qed.

Lemma find_habit_Some (habitId : Z) (habits : list Habit) (h : Habit) :
  find_habit habitId habits = Some h → h ∈ habits ∧ id h = habitId.
Proof.
  unfold find_habit. intros Hf. apply find_some in Hf as [Hin Heq].
  split; [by apply list_elem_of_In | by apply Z.eqb_eq].
Qed.

Lemma find_habit_None (habitId : Z) (habits : list Habit) :
  find_habit habitId habits = None ↔ ∀ h, h ∈ habits → id h ≠ habitId.
Proof.
  unfold find_habit. split.
  - intros Hf h Hin. apply list_elem_of_In in Hin.
    apply (find_none _ _ Hf) in Hin. by apply Z.eqb_neq.
  - intros Hall. induction habits as [|h habits IH]; [done|]. simpl.
    destruct (id h =? habitId) eqn:E.
    + apply Z.eqb_eq in E. exfalso. apply (Hall h); [left | done].
    + apply IH. intros h' Hin. apply Hall. by right.
Qed.

(** [find] and [findIndex] run the same test, so they agree. *)
Lemma findIndex_find (habitId : Z) (habits : list Habit) :
  match findIndex habitId habits with
  | Some index =>
      habits !! index = find_habit habitId habits
      ∧ is_Some (find_habit habitId habits)
      ∧ ∀ j h, (j < index)%nat → habits !! j = Some h → id h ≠ habitId
  | None => find_habit habitId habits = None
  end.
Proof.
  unfold find_habit. induction habits as [|h habits IH]; [done|]. simpl.
  destruct (id h =? habitId) eqn:E; simpl.
  - split_and!; [done | by eexists | intros; lia].
  - destruct (findIndex habitId habits) as [index|]; simpl; [|done].
    destruct IH as (Hlk & Hsome & Hbefore). split_and!; [done..|].
    intros [|j] h' Hlt Hj; simpl in Hj.
    + injection Hj as <-. by apply Z.eqb_neq.
    + apply (Hbefore j); [lia | done].
Qed.

Lemma findIndex_None (habitId : Z) (habits : list Habit) :
  findIndex habitId habits = None ↔ find_habit habitId habits = None.
Proof.
  pose proof (findIndex_find habitId habits) as H.
  destruct (findIndex habitId habits) as [index|]; [|done].
  destruct H as (_ & [h Hh] & _). rewrite Hh. split; discriminate.
Qed.

(** ** The counting loop *)

Section count_back.
Context {P : Type} (found : P → bool) (prev : P → P).

(** More fuel never changes a result. *)
Lemma count_back_more_fuel (fuel fuel' : nat) (p : P) (s r : Z) :
  count_back found prev fuel p s = Some r →
  (fuel ≤ fuel')%nat →
  count_back found prev fuel' p s = Some r.
Proof.
  revert fuel' p s. induction fuel as [|fuel IH]; intros fuel' p s; [done|].
  intros Hrun Hle. destruct fuel' as [|fuel']; [lia|]. simpl in *.
  destruct (found p); [|done]. apply IH; [done | lia].
Qed.

(** What a finished loop has counted: the periods stepped through all had a
    completion, and the one it stopped at had none. *)
Lemma count_back_result (fuel : nat) (p : P) (s r : Z) :
  count_back found prev fuel p s = Some r →
  ∃ n : nat, r = s + Z.of_nat n
    ∧ (∀ i, (i < n)%nat → found (Nat.iter i prev p) = true)
    ∧ found (Nat.iter n prev p) = false.
Proof.
  revert p s. induction fuel as [|fuel IH]; intros p s; [done|]. simpl.
  destruct (found p) eqn:Hf.
  - intros Hrun. apply IH in Hrun as (n & -> & Hall & Hstop).
    exists (S n). split_and!; [lia | |].
    + intros [|i] Hi; [done|]. rewrite Nat.iter_succ_r. apply Hall. lia.
    + by rewrite Nat.iter_succ_r.
  - intros [= <-]. exists 0%nat. split_and!; [lia | intros; lia | done].
Qed.

Lemma count_back_gap (fuel : nat) (p : P) (s : Z) :
  found p = false → count_back found prev (S fuel) p s = Some s.
Proof. intros Hf. simpl. by rewrite Hf. Qed.

(** Termination.  Each period that counts owns a key of the index that no
    earlier period can reach, so the loop runs out of keys. *)
Context (completions : Completions).
Context (upto : P → Z → Prop) `{!∀ p k, Decision (upto p k)}.
Hypothesis found_key : ∀ p, found p = true →
  ∃ k, is_Some (completions !! k) ∧ upto p k ∧ ¬ upto (prev p) k.
Hypothesis upto_prev : ∀ p k, upto (prev p) k → upto p k.

Lemma reach_prev (p : P) :
  found p = true →
  (size (reach upto completions (prev p))
   < size (reach upto completions p))%nat.
Proof.
  intros Hf. apply map_subset_size, map_subset_alt. split.
  - apply map_subseteq_spec. intros k x. unfold reach.
    rewrite !map_lookup_filter_Some. intros [Hx Hup]. split; [done|].
    by apply upto_prev.
  - destruct (found_key p Hf) as (k & [x Hx] & Hup & Hnot).
    exists k. unfold reach. split.
    + apply map_lookup_filter_None. right. by intros x' _.
    + exists x. by apply map_lookup_filter_Some.
Qed.

Lemma count_back_reach (fuel : nat) (p : P) (s : Z) :
  (size (reach upto completions p) < fuel)%nat →
  is_Some (count_back found prev fuel p s).
Proof.
  revert p s. induction fuel as [|fuel IH]; intros p s Hfuel; [lia|].
  simpl. destruct (found p) eqn:Hf; [|by eexists].
  apply IH. pose proof (reach_prev p Hf). lia.
Qed.

Lemma count_back_terminates (fuel : nat) (p : P) (s : Z) :
  (size completions < fuel)%nat →
  is_Some (count_back found prev fuel p s).
Proof.
  intros Hfuel. apply count_back_reach.
  pose proof (map_subseteq_size (reach upto completions p) completions
                (map_filter_subseteq _ _)). lia.
Qed.

End count_back.

(** ** Termination of the three streak loops *)

Lemma daily_streak_terminates (fuel : nat) (completions : Completions)
    (habitId today : Z) :
  (size completions < fuel)%nat →
  is_Some (daily_streak fuel completions habitId today).
Proof.
  intros Hfuel. unfold daily_streak.
  apply (count_back_terminates _ _ completions day_upto); [| |done].
  - intros d Hf. apply bucket_includes_spec in Hf as (bucket & Hlk & _).
    exists d. unfold day_upto. split_and!; [by eexists | lia | lia].
  - intros d k. unfold day_upto. lia.
Qed.

Lemma weekly_streak_terminates (fuel : nat) (completions : Completions)
    (habitId today : Z) :
  (size completions < fuel)%nat →
  is_Some (weekly_streak fuel completions habitId today).
Proof.
  intros Hfuel. unfold weekly_streak.
  apply (count_back_terminates _ _ completions week_upto); [| |done].
  - intros w Hf. apply keys_some_spec in Hf as (date & bucket & Hlk & Hw & _).
    apply Z.eqb_eq in Hw. exists date. unfold week_upto.
    split_and!; [by eexists | lia | lia].
  - intros w k. unfold week_upto. lia.
Qed.

Lemma monthly_streak_terminates (fuel : nat) (completions : Completions)
    (habitId today : Z) :
  (size completions < fuel)%nat →
  is_Some (monthly_streak fuel completions habitId today).
Proof.
  intros Hfuel. unfold monthly_streak.
  apply (count_back_terminates _ _ completions month_upto); [| |done].
  - intros [m y] Hf.
    apply keys_some_spec in Hf as (date & bucket & Hlk & Hmy & _).
    apply andb_true_iff in Hmy as [Hm Hy].
    apply Z.eqb_eq in Hm, Hy. exists date.
    split_and!; [by eexists | |]; unfold month_upto, prev_month; simpl.
    + lia.
    + destruct (m - 1 <? 0) eqn:E; simpl; lia.
  - intros [m y] k. unfold month_upto, prev_month.
    destruct (m - 1 <? 0) eqn:E; simpl; lia.
Qed.

Lemma computeStreak_terminates (fuel : nat) (habit : Habit)
    (completions : Completions) (habitId today : Z) :
  (size completions < fuel)%nat →
  is_Some (computeStreak fuel habit completions habitId today).
Proof.
  intros Hfuel. unfold computeStreak. destruct (frequency habit).
  - by apply daily_streak_terminates.
  - by apply weekly_streak_terminates.
  - by apply monthly_streak_terminates.
Qed.


Lemma bucket_includes_never (completions : Completions) (habitId date : Z) :
  never_completed completions habitId →
  bucket_includes completions date habitId = false.
Proof.
  intros Hnever. apply not_true_iff_false. intros Hinc.
  apply bucket_includes_spec in Hinc as (bucket & Hlk & Hin).
  by apply (Hnever date bucket).
Qed.

Lemma keys_some_never (p : Z → bool) (completions : Completions) (habitId : Z) :
  never_completed completions habitId →
  keys_some p completions habitId = false.
Proof.
  intros Hnever. apply not_true_iff_false. intros Hsome.
  apply keys_some_spec in Hsome as (date & bucket & Hlk & _ & Hin).
  by apply (Hnever date bucket).
Qed.


(** ** Writing one habit of the collection *)

Lemma find_habit_alter (f : Habit → Habit) (habitId : Z)
    (habits : list Habit) (index : nat) :
  (∀ h, id (f h) = id h) →
  findIndex habitId habits = Some index →
  find_habit habitId (alter f index habits) = f <$> find_habit habitId habits.
Proof.
  intros Hid. unfold find_habit. revert index.
  induction habits as [|h habits IH]; intros index; [done|]. simpl.
  destruct (id h =? habitId) eqn:E.
  - intros [= <-]. simpl. by rewrite Hid, E.
  - destruct (findIndex habitId habits) as [j|]; [|done].
    intros [= <-]. simpl. rewrite E. by apply IH.
Qed.

Lemma find_habit_alter_other (f : Habit → Habit) (habitId other : Z)
    (habits : list Habit) (index : nat) :
  (∀ h, id (f h) = id h) →
  findIndex habitId habits = Some index →
  other ≠ habitId →
  find_habit other (alter f index habits) = find_habit other habits.
Proof.
  intros Hid Hidx Hne. unfold find_habit. revert index Hidx.
  induction habits as [|h habits IH]; intros index; [done|]. simpl.
  destruct (id h =? habitId) eqn:E.
  - intros [= <-]. simpl. rewrite Hid. apply Z.eqb_eq in E.
    destruct (id h =? other) eqn:E'; [|done]. apply Z.eqb_eq in E'. congruence.
  - destruct (findIndex habitId habits) as [j|]; [|done].
    intros [= <-]. simpl. destruct (id h =? other); [done|]. by apply IH.
Qed.

Lemma map_id_alter (f : Habit → Habit) (habits : list Habit) (index : nat) :
  (∀ h, id (f h) = id h) →
  map id (alter f index habits) = map id habits.
Proof.
  intros Hid. revert index.
  induction habits as [|h habits IH]; intros [|index]; simpl; [done..| |].
  - by rewrite Hid.
  - f_equal. apply IH.
Qed.

Lemma consecutive_days_unique (completions : Completions)
    (habitId referenceDate : Z) (n m : nat) :
  consecutive_days completions habitId referenceDate n →
  consecutive_days completions habitId referenceDate m →
  n = m.
Proof.
  intros [Hn Hn'] [Hm Hm'].
  destruct (Nat.lt_total n m) as [Hlt|[Heq|Hgt]]; [|done|].
  - exfalso. apply Hn'. by apply Hm.
  - exfalso. apply Hm'. by apply Hn.
Qed.

Lemma iter_day_back (i : nat) (today : Z) :
  Nat.iter i (λ currentDate, currentDate - 1) today = today - Z.of_nat i.
Proof.
  induction i as [|i IH]; simpl; [lia|]. rewrite IH. lia.
Qed.

Lemma daily_streak_consecutive (fuel : nat) (completions : Completions)
    (habitId today r : Z) :
  daily_streak fuel completions habitId today = Some r →
  ∃ n : nat, r = Z.of_nat n ∧ consecutive_days completions habitId today n.
Proof.
  unfold daily_streak. intros Hrun.
  apply count_back_result in Hrun as (n & -> & Hall & Hstop).
  exists n. split; [lia|]. split.
  - intros i Hi. specialize (Hall i Hi). rewrite iter_day_back in Hall.
    by apply bucket_includes_spec.
  - rewrite iter_day_back in Hstop. intros Hc.
    apply bucket_includes_spec in Hc. congruence.
Qed.

(** ** The store after [updateStreak] *)

Lemma loadHabits_saveHabits (habits : list Habit) (st : Store) :
  loadHabits (saveHabits habits st) = habits.
Proof. done. Qed.

Lemma loadCompletions_saveHabits (habits : list Habit) (st : Store) :
  loadCompletions (saveHabits habits st) = loadCompletions st.
Proof. done. Qed.

Lemma loadCompletions_saveCompletions (completions : Completions) (st : Store) :
  loadCompletions (saveCompletions completions st) = completions.
Proof. done. Qed.

Lemma loadHabits_saveCompletions (completions : Completions) (st : Store) :
  loadHabits (saveCompletions completions st) = loadHabits st.
Proof. done. Qed.

Lemma updateStreak_missing (fuel : nat) (today habitId : Z) (st : Store) :
  find_habit habitId (loadHabits st) = None →
  updateStreak fuel today habitId st = Some st.
Proof. unfold updateStreak. by intros ->. Qed.

Lemma updateStreak_found (fuel : nat) (today habitId s : Z) (st : Store)
    (habit : Habit) :
  find_habit habitId (loadHabits st) = Some habit →
  computeStreak fuel habit (loadCompletions st) habitId today = Some s →
  ∃ index, findIndex habitId (loadHabits st) = Some index
    ∧ updateStreak fuel today habitId st
      = Some (saveHabits (alter (set_streak s) index (loadHabits st)) st).
Proof.
  intros Hfind Hs. unfold updateStreak. rewrite Hfind, Hs. simpl.
  pose proof (findIndex_find habitId (loadHabits st)) as Hidx.
  destruct (findIndex habitId (loadHabits st)) as [index|]; [|congruence].
  by exists index.
Qed.

Lemma updateStreak_completions (fuel : nat) (today habitId : Z) (st st' : Store) :
  updateStreak fuel today habitId st = Some st' →
  COMPLETIONS_KEY st' = COMPLETIONS_KEY st.
Proof.
  unfold updateStreak.
  destruct (find_habit habitId (loadHabits st)) as [habit|]; [|by intros [= <-]].
  destruct (computeStreak _ _ _ _ _) as [s|]; [|done]. simpl.
  destruct (findIndex habitId (loadHabits st)); by intros [= <-].
Qed.

Lemma updateStreak_is_Some (fuel : nat) (today habitId : Z) (st : Store) :
  (size (loadCompletions st) < fuel)%nat →
  is_Some (updateStreak fuel today habitId st).
Proof.
  intros Hfuel.
  destruct (find_habit habitId (loadHabits st)) as [habit|] eqn:Hfind.
  - destruct (computeStreak_terminates fuel habit (loadCompletions st)
                habitId today Hfuel) as [s Hs].
    destruct (updateStreak_found _ _ _ _ _ _ Hfind Hs) as (index & _ & ->).
    by eexists.
  - rewrite updateStreak_missing by done. by eexists.
Qed.



(** The run of three days, and the gap on the reference day, on the sample
    store. *)
Example daily_streak_three :
  updateStreak 5 T0 1 three_day_store
  = Some (saveHabits [set_streak 3 (exercise daily)] three_day_store).
Proof. vm_compute. reflexivity. Qed.

Example daily_streak_gap_today :
  updateStreak 5 (T0 + 1) 1 three_day_store
  = Some (saveHabits [set_streak 0 (exercise daily)] three_day_store).
Proof. vm_compute. reflexivity. Qed.

(** C10.  For an id that no habit has, [getHabitStats] returns exactly
    [{streak: 0, completed: 0, total_required: 1, completion_rate: 0}], the 1
    being a constant and not a stored target, and the store is left as it
    was. *)
Theorem getHabitStats_missing (today habitId : Z) (st : Store) :
  find_habit habitId (loadHabits st) = None →
  getHabitStats today habitId st = (Stats.mk 0 0 1 0, st).
Proof. intros Hfind. unfold getHabitStats. by rewrite Hfind. Qed.

Lemma getHabitStats_missing_witness :
  find_habit 7 (loadHabits three_day_store) = None
  ∧ getHabitStats T0 7 three_day_store = (Stats.mk 0 0 1 0, three_day_store).
Proof.
  split; [reflexivity|].
  apply (getHabitStats_missing T0 7 three_day_store). reflexivity.
Defined.

(** ** Deleting a habit *)

Lemma deleteHabit_habits (habitId : Z) (st : Store) :
  loadHabits (deleteHabit habitId st)
  = filter (λ h, id h ≠ habitId) (loadHabits st).
Proof. done. Qed.

Lemma deleteHabit_completions (habitId : Z) (st : Store) :
  loadCompletions (deleteHabit habitId st)
  = without habitId <$> loadCompletions st.
Proof. done. Qed.

Lemma filter_habits_absent (habitId : Z) (habits : list Habit) :
  find_habit habitId habits = None →
  filter (λ h, id h ≠ habitId) habits = habits.
Proof.
  rewrite find_habit_None. induction habits as [|h habits IH]; [done|].
  intros Hall. rewrite filter_cons_True by (apply Hall; left).
  rewrite IH; [done|]. intros h' Hin. apply Hall. by right.
Qed.

(** C6.  After [deleteHabit(id)] no day bucket contains [id] and no habit of
    the collection, hence no row of [getAllHabits()], has that id; with no
    such habit to begin with, the collection is left as it was.  The
    operation is total: it raises nothing. *)
Theorem deleteHabit_cascade (today habitId : Z) (st : Store) :
  let st' := deleteHabit habitId st in
  (∀ date bucket, loadCompletions st' !! date = Some bucket → habitId ∉ bucket)
  ∧ (∀ h, h ∈ loadHabits st' → id h ≠ habitId)
  ∧ (∀ row, row ∈ getAllHabits today st' → id row.1 ≠ habitId)
  ∧ (find_habit habitId (loadHabits st) = None →
     loadHabits st' = loadHabits st).
Proof.
  simpl. split_and!.
  - intros date bucket. rewrite deleteHabit_completions, lookup_fmap.
    destruct (loadCompletions st !! date) as [b|]; [|done].
    intros [= <-]. rewrite elem_of_without. by intros [Hne _].
  - intros h. rewrite deleteHabit_habits, list_elem_of_filter. by intros [Hne _].
  - intros row. unfold getAllHabits. rewrite list_elem_of_fmap.
    intros (h & -> & Hin). simpl.
    rewrite deleteHabit_habits, list_elem_of_filter in Hin. by destruct Hin.
  - intros Hfind. rewrite deleteHabit_habits. by apply filter_habits_absent.
Qed.

(** ** Editing a habit *)



(** An object that carries an [id] key, as a [Habit] passed for the updates
    does, overwrites the id: the spread copies every key. *)
Lemma updateHabit_overwrites_id :
  find_habit 1 (loadHabits
                  (updateHabit 1
                     (Updates.mk (Some 9) None None None None None None None
                                 None)
                     three_day_store))
  = None
  ∧ id <$> find_habit 9 (loadHabits
                  (updateHabit 1
                     (Updates.mk (Some 9) None None None None None None None
                                 None)
                     three_day_store))
    = Some 9.
Proof. split; reflexivity. Qed.


(** ** Toggling a completion *)

Lemma toggle_bucket_true (todayKey habitId : Z) (completions : Completions) :
  toggle_bucket todayKey habitId true completions
  = match completions !! todayKey with
    | None => <[todayKey := [habitId]]> completions
    | Some bucket =>
        if includes bucket habitId then completions
        else <[todayKey := bucket ++ [habitId]]> completions
    end.
Proof.
  unfold toggle_bucket.
  destruct (completions !! todayKey) as [bucket|] eqn:Hlk.
  - rewrite Hlk. simpl. by destruct (includes bucket habitId).
  - rewrite lookup_insert_eq. simpl. by rewrite insert_insert_eq.
Qed.

Lemma toggle_bucket_false (todayKey habitId : Z) (completions : Completions) :
  toggle_bucket todayKey habitId false completions
  = match completions !! todayKey with
    | None => <[todayKey := []]> completions
    | Some bucket => <[todayKey := without habitId bucket]> completions
    end.
Proof.
  unfold toggle_bucket.
  destruct (completions !! todayKey) as [bucket|] eqn:Hlk.
  - by rewrite Hlk.
  - rewrite lookup_insert_eq. simpl. by rewrite insert_insert_eq.
Qed.

Lemma toggle_bucket_size (todayKey habitId : Z) (completed : bool)
    (completions : Completions) :
  (size (toggle_bucket todayKey habitId completed completions)
   ≤ S (size completions))%nat.
Proof.
  destruct completed; [rewrite toggle_bucket_true | rewrite toggle_bucket_false];
    destruct (completions !! todayKey) as [bucket|] eqn:Hlk;
    try destruct (includes bucket habitId);
    rewrite ?map_size_insert, ?Hlk; simpl; lia.
Qed.

Lemma includes_snoc (bucket : list Z) (habitId : Z) :
  includes (bucket ++ [habitId]) habitId = true.
Proof. apply includes_spec. set_solver. Qed.

Lemma toggle_bucket_true_twice (todayKey habitId : Z) (completions : Completions) :
  toggle_bucket todayKey habitId true
    (toggle_bucket todayKey habitId true completions)
  = toggle_bucket todayKey habitId true completions.
Proof.
  rewrite (toggle_bucket_true _ _ completions).
  destruct (completions !! todayKey) as [bucket|] eqn:Hlk.
  - destruct (includes bucket habitId) eqn:Hinc.
    + by rewrite toggle_bucket_true, Hlk, Hinc.
    + by rewrite toggle_bucket_true, lookup_insert_eq, includes_snoc.
  - rewrite toggle_bucket_true, lookup_insert_eq.
    by rewrite (includes_snoc [] habitId : includes [habitId] habitId = true).
Qed.

Lemma toggleHabitCompletion_terminates (fuel : nat) (today habitId : Z)
    (completed : bool) (st : Store) :
  (S (size (loadCompletions st)) < fuel)%nat →
  ∃ st', toggleHabitCompletion fuel today habitId completed st = Some st'
    ∧ COMPLETIONS_KEY st'
      = Some (toggle_bucket today habitId completed (loadCompletions st)).
Proof.
  intros Hfuel. unfold toggleHabitCompletion.
  set (st1 := saveCompletions _ st).
  destruct (updateStreak_is_Some fuel today habitId st1) as (st' & Hrun).
  { unfold st1. rewrite loadCompletions_saveCompletions.
    pose proof (toggle_bucket_size today habitId completed (loadCompletions st)).
    lia. }
  exists st'. split; [done|].
  by rewrite (updateStreak_completions _ _ _ _ _ Hrun).
Qed.

(** On an initialized store without a bucket for today, un-completing a habit
    creates today's bucket: the stored index changes from [{}] to
    [{today: []}]. *)
Lemma toggle_off_creates_bucket :
  bucket_includes (loadCompletions empty_store) T0 1 = false
  ∧ toggleHabitCompletion 2 T0 1 false empty_store
    = Some (mkStore (Some []) (Some {[T0 := []]}))
  ∧ COMPLETIONS_KEY (mkStore (Some []) (Some {[T0 := []]}))
    ≠ COMPLETIONS_KEY empty_store.
Proof.
  split; [reflexivity|]. split; [vm_compute; reflexivity|].
  intros H. vm_compute in H. discriminate H.
Qed.

(** C7, amended.  Calling [toggleHabitCompletion(id, true)] twice in a row
    leaves the same Completion Index as calling it once.  Calling
    [toggleHabitCompletion(id, false)] when today's bucket exists and does not
    contain [id] leaves the Completion Index as it was; when today has no
    bucket yet, the call creates an empty one and changes no other bucket. *)
Theorem toggle_idempotent (fuel : nat) (today habitId : Z) (st : Store) :
  (S (S (size (loadCompletions st))) < fuel)%nat →
  (∃ st1 st2,
      toggleHabitCompletion fuel today habitId true st = Some st1
      ∧ toggleHabitCompletion fuel today habitId true st1 = Some st2
      ∧ COMPLETIONS_KEY st2 = COMPLETIONS_KEY st1)
  ∧ (∃ st',
      toggleHabitCompletion fuel today habitId false st = Some st'
      ∧ (∀ bucket, loadCompletions st !! today = Some bucket →
           habitId ∉ bucket →
           COMPLETIONS_KEY st' = COMPLETIONS_KEY st)
      ∧ (loadCompletions st !! today = None →
           COMPLETIONS_KEY st' = Some (<[today := []]> (loadCompletions st)))).
Proof.
  intros Hfuel. split.
  - destruct (toggleHabitCompletion_terminates fuel today habitId true st)
      as (st1 & Hrun1 & Hc1); [lia|].
    assert (loadCompletions st1
            = toggle_bucket today habitId true (loadCompletions st)) as Hl1.
    { unfold loadCompletions at 1. by rewrite Hc1. }
    destruct (toggleHabitCompletion_terminates fuel today habitId true st1)
      as (st2 & Hrun2 & Hc2).
    { rewrite Hl1.
      pose proof (toggle_bucket_size today habitId true (loadCompletions st)).
      lia. }
    exists st1, st2. split; [exact Hrun1|]. split; [exact Hrun2|].
    by rewrite Hc2, Hc1, Hl1, toggle_bucket_true_twice.
  - destruct (toggleHabitCompletion_terminates fuel today habitId false st)
      as (st' & Hrun & Hc); [lia|].
    exists st'. split; [exact Hrun|]. split.
    + intros bucket Hlk Hnot. rewrite Hc, toggle_bucket_false, Hlk.
      rewrite without_absent by done. rewrite insert_id by done.
      unfold loadCompletions in *.
      destruct (COMPLETIONS_KEY st) as [c|]; [done|].
      simpl in Hlk. by rewrite lookup_empty in Hlk.
    + intros Hlk. by rewrite Hc, toggle_bucket_false, Hlk.
Qed.

Lemma toggle_idempotent_witness :
  (S (S (size (loadCompletions three_day_store))) < 7)%nat
  ∧ (∃ st1 st2,
      toggleHabitCompletion 7 (T0 + 1) 1 true three_day_store = Some st1
      ∧ toggleHabitCompletion 7 (T0 + 1) 1 true st1 = Some st2
      ∧ COMPLETIONS_KEY st2 = COMPLETIONS_KEY st1)
  ∧ (∃ st',
      toggleHabitCompletion 7 (T0 + 1) 1 false three_day_store = Some st'
      ∧ (∀ bucket, loadCompletions three_day_store !! (T0 + 1) = Some bucket →
           1 ∉ bucket →
           COMPLETIONS_KEY st' = COMPLETIONS_KEY three_day_store)
      ∧ (loadCompletions three_day_store !! (T0 + 1) = None →
           COMPLETIONS_KEY st'
           = Some (<[T0 + 1 := []]> (loadCompletions three_day_store)))).
Proof.
  split; [vm_compute; lia|].
  apply (toggle_idempotent 7 (T0 + 1) 1 three_day_store). vm_compute. lia.
Defined.

(** ** The add / complete / un-complete scenario *)

Lemma daily_streak_today_only (fuel : nat) (today habitId : Z)
    (bucket : list Z) :
  (2 ≤ fuel)%nat →
  daily_streak fuel (<[today := bucket]> ∅) habitId today
  = Some (if includes bucket habitId then 1 else 0).
Proof.
  intros Hfuel. destruct fuel as [|[|fuel]]; [lia..|].
  unfold daily_streak. simpl. unfold bucket_includes.
  rewrite lookup_insert_eq. destruct (includes bucket habitId); [|done].
  rewrite lookup_insert_ne by lia. by rewrite lookup_empty.
Qed.

Lemma isCompleted_daily (habit : Habit) (completions : Completions)
    (today habitId : Z) :
  frequency habit = daily →
  isCompleted habit completions today habitId
  = bucket_includes completions today habitId.
Proof. unfold isCompleted. by intros ->. Qed.

Lemma bucket_includes_insert_eq (completions : Completions)
    (date habitId : Z) (bucket : list Z) :
  bucket_includes (<[date := bucket]> completions) date habitId
  = includes bucket habitId.
Proof. unfold bucket_includes. by rewrite lookup_insert_eq. Qed.

(** ** Referential integrity of the Completion Index *)

Lemma initializeDatabase_loads (st : Store) :
  loadHabits (initializeDatabase st) = loadHabits st
  ∧ loadCompletions (initializeDatabase st) = loadCompletions st.
Proof. destruct st as [[hs|] [c|]]; done. Qed.

Lemma initializeDatabase_integrity (st : Store) :
  referential_integrity st → referential_integrity (initializeDatabase st).
Proof.
  unfold referential_integrity.
  destruct (initializeDatabase_loads st) as [-> ->]. done.
Qed.

Lemma addHabit_integrity (name : string) (frequency : Frequency) (target : Z)
    (category : string) (reminder_time notes : option string) (now : string)
    (st : Store) :
  referential_integrity st →
  referential_integrity
    (addHabit name frequency target category reminder_time notes now st).2.
Proof.
  intros Hri date bucket habitId Hlk Hin. unfold addHabit. cbn [snd].
  rewrite loadHabits_saveHabits, map_app. apply elem_of_app. left.
  by apply (Hri date bucket).
Qed.

Lemma deleteHabit_integrity (habitId : Z) (st : Store) :
  referential_integrity st → referential_integrity (deleteHabit habitId st).
Proof.
  intros Hri date bucket other.
  rewrite deleteHabit_completions, deleteHabit_habits, lookup_fmap.
  destruct (loadCompletions st !! date) as [b|] eqn:Hlk; [|done].
  intros [= <-]. rewrite elem_of_without. intros [Hne Hin].
  specialize (Hri date b other Hlk Hin).
  apply (list_elem_of_fmap (B := Z)) in Hri as (h & -> & Hh).
  apply (list_elem_of_fmap (B := Z)). exists h. split; [done|].
  by apply list_elem_of_filter.
Qed.

Lemma merge_id (updates : Updates.t) (habit : Habit) :
  Updates.id updates = None → id (merge updates habit) = id habit.
Proof. unfold merge. simpl. by intros ->. Qed.

(** An update that carries no [id] key keeps the invariant. *)
Lemma updateHabit_integrity (habitId : Z) (updates : Updates.t) (st : Store) :
  Updates.id updates = None →
  referential_integrity st →
  referential_integrity (updateHabit habitId updates st).
Proof.
  intros Hid Hri. unfold updateHabit.
  destruct (findIndex habitId (loadHabits st)) as [index|]; [|done].
  intros date bucket other Hlk Hin. rewrite loadHabits_saveHabits.
  rewrite map_id_alter by (intros h; by apply merge_id).
  by apply (Hri date bucket).
Qed.

Lemma getHabitStats_store (today habitId : Z) (st : Store) :
  (getHabitStats today habitId st).2 = st.
Proof.
  unfold getHabitStats. by destruct (find_habit habitId (loadHabits st)).
Qed.

Lemma updateStreak_ids (fuel : nat) (today habitId : Z) (st st' : Store) :
  updateStreak fuel today habitId st = Some st' →
  map id (loadHabits st') = map id (loadHabits st).
Proof.
  unfold updateStreak.
  destruct (find_habit habitId (loadHabits st)) as [habit|]; [|by intros [= <-]].
  destruct (computeStreak _ _ _ _ _) as [s|]; [|done]. simpl.
  destruct (findIndex habitId (loadHabits st)); intros [= <-]; [|done].
  rewrite loadHabits_saveHabits. by apply map_id_alter.
Qed.

(** The toggle keeps the invariant whenever the habit exists, and whenever it
    un-completes. *)
Lemma toggleHabitCompletion_integrity (fuel : nat) (today habitId : Z)
    (completed : bool) (st st' : Store) :
  referential_integrity st →
  completed = false ∨ is_Some (find_habit habitId (loadHabits st)) →
  toggleHabitCompletion fuel today habitId completed st = Some st' →
  referential_integrity st'.
Proof.
  intros Hri Hcase Hrun date bucket other Hlk Hin.
  unfold toggleHabitCompletion in Hrun.
  rewrite (updateStreak_ids _ _ _ _ _ Hrun), loadHabits_saveCompletions.
  unfold loadCompletions in Hlk at 1.
  rewrite (updateStreak_completions _ _ _ _ _ Hrun) in Hlk. simpl in Hlk.
  destruct completed.
  - destruct Hcase as [|[h Hh]]; [done|].
    apply find_habit_Some in Hh as [Hh Hid].
    assert (habitId ∈ map id (loadHabits st)) as Hmine.
    { apply (list_elem_of_fmap (B := Z)). by exists h. }
    rewrite toggle_bucket_true in Hlk.
    destruct (loadCompletions st !! today) as [b|] eqn:Hb.
    + destruct (includes b habitId); [by apply (Hri date bucket)|].
      apply lookup_insert_Some in Hlk as [[<- <-]|[_ Hlk]];
        [|by apply (Hri date bucket)].
      apply elem_of_app in Hin as [Hin|Hin]; [by apply (Hri today b)|].
      by apply list_elem_of_singleton in Hin as ->.
    + apply lookup_insert_Some in Hlk as [[<- <-]|[_ Hlk]];
        [|by apply (Hri date bucket)].
      by apply list_elem_of_singleton in Hin as ->.
  - rewrite toggle_bucket_false in Hlk.
    destruct (loadCompletions st !! today) as [b|] eqn:Hb.
    + apply lookup_insert_Some in Hlk as [[<- <-]|[_ Hlk]];
        [|by apply (Hri date bucket)].
      apply elem_of_without in Hin as [_ Hin]. by apply (Hri today b).
    + apply lookup_insert_Some in Hlk as [[<- <-]|[_ Hlk]];
        [|by apply (Hri date bucket)].
      by apply elem_of_nil in Hin.
Qed.

(** C2, at the input where it fails.  The empty, initialized store satisfies
    referential integrity and has no habit 7; completing habit 7 on it is not
    a no-op: it writes 7 into today's bucket, an id that references no
    habit. *)
Theorem toggle_missing_habit_dangles :
  referential_integrity empty_store
  ∧ find_habit 7 (loadHabits empty_store) = None
  ∧ toggleHabitCompletion 1 T0 7 true empty_store
    = Some (mkStore (Some []) (Some {[T0 := [7]]}))
  ∧ mkStore (Some []) (Some {[T0 := [7]]}) ≠ empty_store
  ∧ ¬ referential_integrity (mkStore (Some []) (Some {[T0 := [7]]})).
Proof.
  split.
  { intros date bucket habitId Hlk.
    change (loadCompletions empty_store) with (∅ : Completions) in Hlk.
    by rewrite lookup_empty in Hlk. }
  split; [reflexivity|]. split; [vm_compute; reflexivity|]. split.
  { intros H. vm_compute in H. discriminate H. }
  intros Hri. specialize (Hri T0 [7] 7).
  assert (7 ∈ map id (loadHabits (mkStore (Some []) (Some {[T0 := [7]]}))))
    as Hin.
  { apply Hri; [apply lookup_singleton_eq | by left]. }
  by apply elem_of_nil in Hin.
Qed.

(** ** Weekly and monthly periods *)

Lemma last_year_store_far (freq : Frequency) (date : Z) :
  T0 - 300 ≤ date →
  ¬ completed_on (loadCompletions (last_year_store freq)) 1 date.
Proof.
  intros Hdate (bucket & Hlk & _).
  change (loadCompletions (last_year_store freq))
    with (<[19424 := [1]]> (∅ : Completions)) in Hlk.
  unfold T0 in Hdate. rewrite lookup_insert_ne in Hlk by lia.
  by rewrite lookup_empty in Hlk.
Qed.

(** The statistics report 0 or 1 completed, and the rate is that times 100. *)
Lemma getHabitStats_rate (today habitId : Z) (st : Store) :
  let stats := (getHabitStats today habitId st).1 in
  Stats.completion_rate stats = Stats.completed stats * 100
  ∧ (Stats.completed stats = 0 ∨ Stats.completed stats = 1).
Proof.
  simpl. unfold getHabitStats.
  destruct (find_habit habitId (loadHabits st)) as [habit|]; simpl.
  - destruct (isCompleted _ _ _ _); simpl; lia.
  - lia.
Qed.

(** For a daily habit, [completed] tells whether the reference day has a
    completion. *)
Lemma getHabitStats_daily (today habitId : Z) (st : Store) (habit : Habit) :
  find_habit habitId (loadHabits st) = Some habit →
  frequency habit = daily →
  Stats.completed (getHabitStats today habitId st).1 = 1
  ↔ completed_on (loadCompletions st) habitId today.
Proof.
  intros Hfind Hfreq. unfold getHabitStats. rewrite Hfind. simpl.
  rewrite isCompleted_daily by done. unfold completed_on.
  rewrite <- bucket_includes_spec.
  destruct (bucket_includes _ _ _); split; (done || lia).
Qed.

(** C3, at the inputs where it fails.  The weekly loop compares bare week
    numbers.  (a) A completion in week 10 of 2023 counts for week 10 of 2024:
    with no completion in the week Monday 2024-03-04 to Sunday 2024-03-10, the
    streak written at 2024-03-10 is 1.  (b) The week before week 1 is looked
    up as week 0, which no date has: with completions in week 1 of 2024 and
    in week 52 of 2023, the streak written at 2024-01-03 is 1. *)
Theorem weekly_streak_ignores_year :
  (getUTCDay T0 = 0
   ∧ getWeekNumber T0 = 10
   ∧ getWeekNumber (days_from_civil 2023 3 8) = 10
   ∧ (∀ date, T0 - 6 ≤ date ≤ T0 →
        ¬ completed_on (loadCompletions (last_year_store weekly)) 1 date)
   ∧ updateStreak 2 T0 1 (last_year_store weekly)
     = Some (saveHabits [set_streak 1 (exercise weekly)]
                        (last_year_store weekly)))
  ∧ (getWeekNumber R0 = 1
     ∧ getWeekNumber (R0 - 7) = 52
     ∧ completed_on (loadCompletions new_year_store) 1 R0
     ∧ completed_on (loadCompletions new_year_store) 1 (R0 - 7)
     ∧ updateStreak 3 R0 1 new_year_store
       = Some (saveHabits [set_streak 1 (exercise weekly)] new_year_store)).
Proof.
  split.
  - split; [reflexivity|]. split; [reflexivity|]. split; [reflexivity|]. split.
    + intros date [Hlo _]. apply last_year_store_far. lia.
    + vm_compute. reflexivity.
  - split; [reflexivity|]. split; [reflexivity|]. split.
    { exists [1]. split; [reflexivity | by left]. }
    split.
    { exists [1]. split; [reflexivity | by left]. }
    vm_compute. reflexivity.
Qed.

(** C4, at the inputs where it fails.  With the only completion on
    2023-03-08, the statistics taken on 2024-03-10 report [completed = 1] and
    [completion_rate = 100] for a monthly habit, although no day of March 2024
    has a completion, and for a weekly habit, although no day of the week
    2024-03-04 to 2024-03-10 has one. *)
Theorem getHabitStats_ignores_year :
  (civil_from_days (T0 - 9) = (2024, 3, 1)
   ∧ civil_from_days (T0 + 21) = (2024, 3, 31)
   ∧ (∀ date, T0 - 9 ≤ date ≤ T0 + 21 →
        ¬ completed_on (loadCompletions (last_year_store monthly)) 1 date)
   ∧ getHabitStats T0 1 (last_year_store monthly)
     = (Stats.mk 0 1 1 100, last_year_store monthly))
  ∧ ((∀ date, T0 - 6 ≤ date ≤ T0 →
        ¬ completed_on (loadCompletions (last_year_store weekly)) 1 date)
     ∧ getHabitStats T0 1 (last_year_store weekly)
       = (Stats.mk 0 1 1 100, last_year_store weekly)).
Proof.
  split.
  - split; [reflexivity|]. split; [reflexivity|]. split.
    + intros date [Hlo _]. apply last_year_store_far. lia.
    + vm_compute. reflexivity.
  - split.
    + intros date [Hlo _]. apply last_year_store_far. lia.
    + vm_compute. reflexivity.
Qed.

(** ** Adding a habit *)

Lemma Math_max_ge (xs : list Z) (x : Z) : x ∈ xs → x ≤ Math_max xs.
Proof.
  assert (∀ (l : list Z) (a : Z), a ≤ fold_left Z.max l a
            ∧ ∀ y, y ∈ l → y ≤ fold_left Z.max l a) as Hfold.
  { induction l as [|b l IH]; intros a; simpl.
    - split; [lia|]. intros y Hy. by apply elem_of_nil in Hy.
    - destruct (IH (Z.max a b)) as [Hacc Hall]. split; [lia|].
      intros y Hy. apply elem_of_cons in Hy as [->|Hy]; [lia|]. by apply Hall. }
  destruct xs as [|a xs]; [by intros ?%elem_of_nil|]. simpl.
  destruct (Hfold xs a) as [Hacc Hall].
  intros Hx. apply elem_of_cons in Hx as [->|Hx]; [done|]. by apply Hall.
Qed.

Lemma Math_max_in (xs : list Z) : xs ≠ [] → Math_max xs ∈ xs.
Proof.
  assert (∀ (l : list Z) (a : Z),
            fold_left Z.max l a = a ∨ fold_left Z.max l a ∈ l) as Hfold.
  { induction l as [|b l IH]; intros a; simpl; [by left|].
    destruct (IH (Z.max a b)) as [Heq|Hin].
    - rewrite Heq. destruct (Z.max_spec a b) as [[_ ->]|[_ ->]];
        [right; by left | by left].
    - right. by right. }
  destruct xs as [|a xs]; [done|]. intros _. simpl.
  destruct (Hfold xs a) as [->|Hin]; [by left | by right].
Qed.

Lemma round_double_safe (n : Z) : - 2 ^ 53 ≤ n ≤ 2 ^ 53 → round_double n = n.
Proof.
  intros Hn. unfold round_double.
  destruct (Z.abs n <? 2 ^ 53) eqn:E; [done|].
  apply Z.ltb_ge in E.
  assert (n = 2 ^ 53 ∨ n = - 2 ^ 53) as [->| ->] by lia; by vm_compute.
Qed.

Lemma js_add_1_safe (x : Z) : safe_integer x → js_add x 1 = x + 1.
Proof.
  unfold safe_integer, js_add. intros Hx. apply round_double_safe. lia.
Qed.

Lemma addHabit_id_above (name : string) (frequency : Frequency) (target : Z)
    (category : string) (reminder_time notes : option string) (now : string)
    (st : Store) (h : Habit) :
  safe_ids st →
  h ∈ loadHabits st →
  id h < (addHabit name frequency target category reminder_time notes now st).1.
Proof.
  unfold safe_ids. intros Hsafe Hh. simpl.
  destruct (loadHabits st) as [|h0 habits] eqn:Hhs.
  - by apply elem_of_nil in Hh.
  - cbn [length].
    assert (Math_max (map id (h0 :: habits)) ∈ map id (h0 :: habits)) as Hmax
      by (by apply Math_max_in).
    apply (list_elem_of_fmap (B := Z)) in Hmax as (hm & Hid & Hhm).
    rewrite js_add_1_safe by (rewrite Hid; by apply Hsafe).
    apply Z.lt_succ_r, Math_max_ge.
    apply (list_elem_of_fmap (B := Z)). by exists h.
Qed.

(** Past the safe integers the addition rounds: with 2^53 the greatest id,
    the id that [addHabit] returns is 2^53 again. *)
Example addHabit_reuses_id :
  (addHabit "Read" daily 1 "general" None None "2024-03-10T09:00:00.000Z"
     (saveHabits [mkHabit (2 ^ 53) "Exercise" daily 1 0 "general"
                          "2024-03-10T08:00:00.000Z" None None]
                 empty_store)).1
  = 2 ^ 53.
Proof. by vm_compute. Qed.

(** X1.  On a collection whose ids are safe integers, [addHabit] returns 1
    when the collection is empty and otherwise an id strictly greater than
    every id in use; it appends one habit carrying that id, the given fields
    and streak 0, and leaves the habits already stored and the completions
    entry as they were. *)
Theorem addHabit_fresh_id (name : string) (frequency : Frequency) (target : Z)
    (category : string) (reminder_time notes : option string) (now : string)
    (st : Store) :
  safe_ids st →
  let r := addHabit name frequency target category reminder_time notes now st in
  (loadHabits st = [] → r.1 = 1)
  ∧ (∀ h, h ∈ loadHabits st → id h < r.1)
  ∧ loadHabits r.2
    = loadHabits st
      ++ [mkHabit r.1 name frequency target 0 category now reminder_time notes]
  ∧ COMPLETIONS_KEY r.2 = COMPLETIONS_KEY st.
Proof.
  intros Hsafe r. split_and!; [| |done..].
  - unfold r. simpl. by intros ->.
  - intros h Hh. by apply addHabit_id_above.
Qed.

Lemma three_day_store_safe : safe_ids three_day_store.
Proof.
  intros h Hh. apply list_elem_of_singleton in Hh as ->. by vm_compute.
Qed.

Lemma addHabit_fresh_id_witness :
  safe_ids three_day_store
  ∧ let r := addHabit "Read" weekly 3 "general" None None
               "2024-03-10T09:00:00.000Z" three_day_store in
    (loadHabits three_day_store = [] → r.1 = 1)
    ∧ (∀ h, h ∈ loadHabits three_day_store → id h < r.1)
    ∧ loadHabits r.2
      = loadHabits three_day_store
        ++ [mkHabit r.1 "Read" weekly 3 0 "general"
                    "2024-03-10T09:00:00.000Z" None None]
    ∧ COMPLETIONS_KEY r.2 = COMPLETIONS_KEY three_day_store.
Proof.
  split; [exact three_day_store_safe|].
  exact (addHabit_fresh_id "Read" weekly 3 "general" None None
           "2024-03-10T09:00:00.000Z" three_day_store three_day_store_safe).
Defined.

(** ** Initializing *)

(** X2.  [initializeDatabase] leaves both entries present, keeps the content
    of an entry that was already there, and is idempotent; on a store with
    both entries present it changes nothing. *)
Theorem initializeDatabase_idempotent (st : Store) :
  STORAGE_KEY (initializeDatabase st) = Some (loadHabits st)
  ∧ COMPLETIONS_KEY (initializeDatabase st) = Some (loadCompletions st)
  ∧ initializeDatabase (initializeDatabase st) = initializeDatabase st
  ∧ (is_Some (STORAGE_KEY st) → is_Some (COMPLETIONS_KEY st) →
     initializeDatabase st = st).
Proof.
  destruct st as [[habits|] [completions|]]; split_and!; try done;
    by intros [? ?] [? ?].
Qed.

(** ** More on deleting *)

Lemma find_habit_filter_other (habitId other : Z) (habits : list Habit) :
  other ≠ habitId →
  find_habit other (filter (λ h, id h ≠ habitId) habits)
  = find_habit other habits.
Proof.
  intros Hne. unfold find_habit.
  induction habits as [|h habits IH]; [done|].
  destruct (decide (id h = habitId)) as [Heq|Hneq].
  - rewrite filter_cons_False by (intros ?; done). simpl.
    replace (id h =? other) with false; [done|].
    symmetry. apply Z.eqb_neq. congruence.
  - rewrite filter_cons_True by done. simpl.
    destruct (id h =? other); [done | apply IH].
Qed.

Lemma completed_on_fmap_without (completions : Completions)
    (habitId other date : Z) :
  completed_on (without habitId <$> completions) other date
  ↔ other ≠ habitId ∧ completed_on completions other date.
Proof.
  unfold completed_on. rewrite lookup_fmap. split.
  - intros (bucket & Hlk & Hin).
    destruct (completions !! date) as [b|]; [|done].
    injection Hlk as <-. apply elem_of_without in Hin as [Hne Hin].
    split; [done|]. by exists b.
  - intros (Hne & bucket & Hlk & Hin). rewrite Hlk. simpl.
    eexists. split; [done|]. by apply elem_of_without.
Qed.

(** X3.  [deleteHabit(id)] touches nothing that belongs to another id: every
    other habit is still found, unchanged, each completion of another habit
    is still recorded on its day, and no day bucket is removed, not even one
    that the deletion empties. *)
Theorem deleteHabit_frame (habitId other : Z) (st : Store) :
  other ≠ habitId →
  find_habit other (loadHabits (deleteHabit habitId st))
  = find_habit other (loadHabits st)
  ∧ (∀ date, completed_on (loadCompletions (deleteHabit habitId st)) other date
             ↔ completed_on (loadCompletions st) other date)
  ∧ dom (loadCompletions (deleteHabit habitId st)) = dom (loadCompletions st).
Proof.
  intros Hne. rewrite deleteHabit_habits, deleteHabit_completions.
  split_and!.
  - by apply find_habit_filter_other.
  - intros date. rewrite completed_on_fmap_without. by split; [intros [_ ?]|].
  - apply dom_fmap_L.
Qed.

Lemma deleteHabit_frame_witness :
  1 ≠ 2
  ∧ find_habit 1 (loadHabits (deleteHabit 2 three_day_store))
    = find_habit 1 (loadHabits three_day_store)
  ∧ (∀ date, completed_on (loadCompletions (deleteHabit 2 three_day_store)) 1 date
             ↔ completed_on (loadCompletions three_day_store) 1 date)
  ∧ dom (loadCompletions (deleteHabit 2 three_day_store))
    = dom (loadCompletions three_day_store).
Proof.
  split; [lia|]. apply (deleteHabit_frame 2 1 three_day_store). lia.
Defined.

Lemma without_without (a b : Z) (bucket : list Z) :
  without a (without b bucket) = without b (without a bucket).
Proof.
  unfold without. rewrite !list_filter_filter.
  apply list_filter_iff. intros x. tauto.
Qed.

Lemma without_idemp (a : Z) (bucket : list Z) :
  without a (without a bucket) = without a bucket.
Proof.
  unfold without. rewrite list_filter_filter.
  apply list_filter_iff. intros x. tauto.
Qed.

(** X4.  Deleting is idempotent, and deletions of two ids commute. *)
Theorem deleteHabit_commutes (a b : Z) (st : Store) :
  deleteHabit a (deleteHabit a st) = deleteHabit a st
  ∧ deleteHabit a (deleteHabit b st) = deleteHabit b (deleteHabit a st).
Proof.
  unfold deleteHabit, saveCompletions, saveHabits, loadHabits, loadCompletions.
  simpl. split; f_equal.
  - f_equal. rewrite list_filter_filter. apply list_filter_iff. intros h. tauto.
  - f_equal. rewrite <- map_fmap_compose. apply map_fmap_ext.
    intros date bucket _. apply without_idemp.
  - f_equal. rewrite !list_filter_filter. apply list_filter_iff. intros h. tauto.
  - f_equal. rewrite <- !map_fmap_compose. apply map_fmap_ext.
    intros date bucket _. apply without_without.
Qed.

(** X5.  On a store whose ids are safe integers and whose index references
    existing habits only, deleting the habit that [addHabit] has just created
    brings back the habits and the completions that were there before the
    addition. *)
Theorem addHabit_deleteHabit (name : string) (frequency : Frequency)
    (target : Z) (category : string) (reminder_time notes : option string)
    (now : string) (st : Store) :
  safe_ids st →
  referential_integrity st →
  let r := addHabit name frequency target category reminder_time notes now st in
  loadHabits (deleteHabit r.1 r.2) = loadHabits st
  ∧ loadCompletions (deleteHabit r.1 r.2) = loadCompletions st.
Proof.
  intros Hsafe Hri r.
  assert (∀ h, h ∈ loadHabits st → id h ≠ r.1) as Hne.
  { intros h Hh.
    pose proof (addHabit_id_above name frequency target category
                  reminder_time notes now st h Hsafe Hh) as Hlt.
    fold r in Hlt. lia. }
  split.
  - rewrite deleteHabit_habits.
    change (loadHabits r.2)
      with (loadHabits st
            ++ [mkHabit r.1 name frequency target 0 category now
                        reminder_time notes]).
    rewrite filter_app.
    rewrite filter_cons_False by (intros H; by apply H).
    rewrite filter_nil, app_nil_r.
    apply filter_habits_absent, find_habit_None, Hne.
  - rewrite deleteHabit_completions.
    change (loadCompletions r.2) with (loadCompletions st).
    apply map_eq. intros date. rewrite lookup_fmap.
    destruct (loadCompletions st !! date) as [bucket|] eqn:Hlk; [|done].
    simpl. f_equal. apply without_absent. intros Hin.
    specialize (Hri date bucket r.1 Hlk Hin).
    apply (list_elem_of_fmap (B := Z)) in Hri as (h & Hid & Hh).
    by apply (Hne h).
Qed.

Lemma addHabit_deleteHabit_witness :
  safe_ids three_day_store
  ∧ referential_integrity three_day_store
  ∧ loadHabits (deleteHabit 2
       (addHabit "Read" weekly 3 "general" None None
                 "2024-03-10T09:00:00.000Z" three_day_store).2)
    = loadHabits three_day_store
  ∧ loadCompletions (deleteHabit 2
       (addHabit "Read" weekly 3 "general" None None
                 "2024-03-10T09:00:00.000Z" three_day_store).2)
    = loadCompletions three_day_store.
Proof.
  assert (referential_integrity three_day_store) as Hri.
  { intros date bucket habitId Hlk Hin.
    change (loadCompletions three_day_store)
      with (<[T0 := [1]]> (<[T0 - 1 := [1]]> (<[T0 - 2 := [1]]>
            (<[T0 - 4 := [1]]> (∅ : Completions))))) in Hlk.
    assert (bucket = [1]) as ->.
    { repeat (apply lookup_insert_Some in Hlk as [[_ <-]|[_ Hlk]]; [done|]).
      by rewrite lookup_empty in Hlk. }
    apply list_elem_of_singleton in Hin as ->. by left. }
  split; [exact three_day_store_safe|]. split; [exact Hri|].
  exact (addHabit_deleteHabit "Read" weekly 3 "general" None None
           "2024-03-10T09:00:00.000Z" three_day_store
           three_day_store_safe Hri).
Defined.

(** X6.  Once a habit is deleted its statistics are the zeroed
    [{0, 0, 1, 0}]. *)
Theorem getHabitStats_after_delete (today habitId : Z) (st : Store) :
  (getHabitStats today habitId (deleteHabit habitId st)).1 = Stats.mk 0 0 1 0.
Proof.
  unfold getHabitStats.
  assert (find_habit habitId (loadHabits (deleteHabit habitId st)) = None) as ->;
    [|done].
  apply find_habit_None. intros h. rewrite deleteHabit_habits.
  rewrite list_elem_of_filter. by intros [Hne _].
Qed.

(** ** More on toggling *)

Lemma toggle_bucket_completed_on (today habitId : Z) (completed : bool)
    (completions : Completions) (other date : Z) :
  completed_on (toggle_bucket today habitId completed completions) other date
  ↔ if decide (date = today ∧ other = habitId) then completed = true
    else completed_on completions other date.
Proof.
  unfold completed_on. destruct completed.
  - rewrite toggle_bucket_true.
    destruct (completions !! today) as [b|] eqn:Hb.
    + destruct (includes b habitId) eqn:Hinc.
      * apply includes_spec in Hinc.
        destruct (decide _) as [[-> ->]|Hne]; [|done].
        split; [done|]. intros _. by exists b.
      * destruct (decide _) as [[-> ->]|Hne].
        -- split; [done|]. intros _. exists (b ++ [habitId]).
           rewrite lookup_insert_eq. split; [done|]. set_solver.
        -- destruct (decide (date = today)) as [->|Hd].
           ++ rewrite lookup_insert_eq, Hb. split.
              ** intros (bucket & [= <-] & Hin). exists b. split; [done|].
                 apply elem_of_app in Hin as [Hin|Hin]; [done|].
                 apply list_elem_of_singleton in Hin. naive_solver.
              ** intros (bucket & [= ->] & Hin). exists (bucket ++ [habitId]).
                 split; [done|]. set_solver.
           ++ by rewrite lookup_insert_ne.
    + destruct (decide _) as [[-> ->]|Hne].
      * split; [done|]. intros _. exists [habitId].
        rewrite lookup_insert_eq. split; [done|]. by left.
      * destruct (decide (date = today)) as [->|Hd].
        -- rewrite lookup_insert_eq, Hb. split.
           ++ intros (bucket & [= <-] & Hin).
              apply list_elem_of_singleton in Hin. naive_solver.
           ++ by intros (bucket & ? & _).
        -- by rewrite lookup_insert_ne.
  - rewrite toggle_bucket_false.
    destruct (completions !! today) as [b|] eqn:Hb.
    + destruct (decide _) as [[-> ->]|Hne].
      * rewrite lookup_insert_eq. split; [|done].
        intros (bucket & [= <-] & Hin). by apply elem_of_without in Hin as [? _].
      * destruct (decide (date = today)) as [->|Hd].
        -- rewrite lookup_insert_eq, Hb. split.
           ++ intros (bucket & [= <-] & Hin).
              apply elem_of_without in Hin as [_ Hin]. by exists b.
           ++ intros (bucket & [= <-] & Hin). eexists. split; [done|].
              apply elem_of_without. naive_solver.
        -- by rewrite lookup_insert_ne.
    + destruct (decide _) as [[-> ->]|Hne].
      * rewrite lookup_insert_eq. split; [|done].
        intros (bucket & [= <-] & Hin). by apply elem_of_nil in Hin.
      * destruct (decide (date = today)) as [->|Hd].
        -- rewrite lookup_insert_eq, Hb. split.
           ++ intros (bucket & [= <-] & Hin). by apply elem_of_nil in Hin.
           ++ by intros (bucket & ? & _).
        -- by rewrite lookup_insert_ne.
Qed.

Lemma toggleHabitCompletion_completions (fuel : nat) (today habitId : Z)
    (completed : bool) (st st' : Store) :
  toggleHabitCompletion fuel today habitId completed st = Some st' →
  loadCompletions st'
  = toggle_bucket today habitId completed (loadCompletions st).
Proof.
  unfold toggleHabitCompletion. intros Hrun.
  unfold loadCompletions at 1.
  by rewrite (updateStreak_completions _ _ _ _ _ Hrun).
Qed.

Lemma updateStreak_other (fuel : nat) (today habitId other : Z)
    (st st' : Store) :
  updateStreak fuel today habitId st = Some st' →
  other ≠ habitId →
  find_habit other (loadHabits st') = find_habit other (loadHabits st).
Proof.
  unfold updateStreak. intros Hrun Hne.
  destruct (find_habit habitId (loadHabits st)) as [habit|];
    [|by injection Hrun as <-].
  destruct (computeStreak _ _ _ _ _) as [s|]; [|done]. simpl in Hrun.
  destruct (findIndex habitId (loadHabits st)) as [index|] eqn:Hidx;
    injection Hrun as <-; [|done].
  rewrite loadHabits_saveHabits.
  by apply (find_habit_alter_other (set_streak s) habitId).
Qed.

(** X7.  A toggle changes one membership only: afterwards the habit is
    recorded for today exactly when [completed] is true, every other
    (day, habit) pair is recorded exactly when it was before, and every
    other habit is found unchanged. *)
Theorem toggleHabitCompletion_local (fuel : nat) (today habitId : Z)
    (completed : bool) (st st' : Store) :
  toggleHabitCompletion fuel today habitId completed st = Some st' →
  (completed_on (loadCompletions st') habitId today ↔ completed = true)
  ∧ (∀ date other, date ≠ today ∨ other ≠ habitId →
       (completed_on (loadCompletions st') other date
        ↔ completed_on (loadCompletions st) other date))
  ∧ (∀ other, other ≠ habitId →
       find_habit other (loadHabits st') = find_habit other (loadHabits st)).
Proof.
  intros Hrun. rewrite (toggleHabitCompletion_completions _ _ _ _ _ _ Hrun).
  split_and!.
  - rewrite toggle_bucket_completed_on. by rewrite decide_True.
  - intros date other Hne. rewrite toggle_bucket_completed_on.
    rewrite decide_False; [done|]. intros [-> ->]. by destruct Hne.
  - intros other Hne. unfold toggleHabitCompletion in Hrun.
    by rewrite (updateStreak_other _ _ _ _ _ _ Hrun Hne).
Qed.

Lemma toggleHabitCompletion_local_witness :
  toggleHabitCompletion 7 (T0 + 1) 1 true three_day_store
  = Some (mkStore (Some [set_streak 4 (exercise daily)])
                  (Some (<[T0 + 1 := [1]]> (loadCompletions three_day_store))))
  ∧ (completed_on (<[T0 + 1 := [1]]> (loadCompletions three_day_store)) 1 (T0 + 1)
     ↔ true = true)
  ∧ (∀ date other, date ≠ T0 + 1 ∨ other ≠ 1 →
       (completed_on (<[T0 + 1 := [1]]> (loadCompletions three_day_store)) other date
        ↔ completed_on (loadCompletions three_day_store) other date))
  ∧ (∀ other, other ≠ 1 →
       find_habit other [set_streak 4 (exercise daily)]
       = find_habit other (loadHabits three_day_store)).
Proof.
  assert (toggleHabitCompletion 7 (T0 + 1) 1 true three_day_store
          = Some (mkStore (Some [set_streak 4 (exercise daily)])
                    (Some (<[T0 + 1 := [1]]> (loadCompletions three_day_store)))))
    as Hrun by (vm_compute; reflexivity).
  split; [exact Hrun|].
  exact (toggleHabitCompletion_local 7 (T0 + 1) 1 true three_day_store _ Hrun).
Defined.

Lemma without_snoc (habitId : Z) (bucket : list Z) :
  habitId ∉ bucket → without habitId (bucket ++ [habitId]) = bucket.
Proof.
  intros Hnot. unfold without. rewrite filter_app.
  rewrite filter_cons_False by (intros H; by apply H).
  rewrite filter_nil, app_nil_r. by apply without_absent.
Qed.

(** X8.  Completing a habit and then un-completing it on the same day brings
    the Completion Index back to what it was, provided today's bucket
    already existed and did not contain the habit. *)
Theorem toggle_on_off (fuel : nat) (today habitId : Z) (bucket : list Z)
    (st st1 st2 : Store) :
  loadCompletions st !! today = Some bucket →
  habitId ∉ bucket →
  toggleHabitCompletion fuel today habitId true st = Some st1 →
  toggleHabitCompletion fuel today habitId false st1 = Some st2 →
  loadCompletions st2 = loadCompletions st.
Proof.
  intros Hlk Hnot Hrun1 Hrun2.
  rewrite (toggleHabitCompletion_completions _ _ _ _ _ _ Hrun2).
  rewrite (toggleHabitCompletion_completions _ _ _ _ _ _ Hrun1).
  rewrite toggle_bucket_true, Hlk.
  apply includes_false in Hnot. rewrite Hnot.
  rewrite toggle_bucket_false, lookup_insert_eq, insert_insert_eq.
  rewrite without_snoc by (by apply includes_false).
  by apply insert_id.
Qed.

Lemma toggle_on_off_witness :
  loadCompletions (mkStore (Some [exercise daily]) (Some {[T0 := []]})) !! T0
  = Some []
  ∧ (1 ∉ ([] : list Z))
  ∧ toggleHabitCompletion 3 T0 1 true
      (mkStore (Some [exercise daily]) (Some {[T0 := []]}))
    = Some (mkStore (Some [set_streak 1 (exercise daily)])
                    (Some {[T0 := [1]]}))
  ∧ toggleHabitCompletion 3 T0 1 false
      (mkStore (Some [set_streak 1 (exercise daily)]) (Some {[T0 := [1]]}))
    = Some (mkStore (Some [exercise daily]) (Some {[T0 := []]}))
  ∧ loadCompletions (mkStore (Some [exercise daily]) (Some {[T0 := []]}))
    = loadCompletions (mkStore (Some [exercise daily]) (Some {[T0 := []]})).
Proof.
  assert (1 ∉ ([] : list Z)) as Hnot by apply not_elem_of_nil.
  assert (toggleHabitCompletion 3 T0 1 true
            (mkStore (Some [exercise daily]) (Some {[T0 := []]}))
          = Some (mkStore (Some [set_streak 1 (exercise daily)])
                          (Some {[T0 := [1]]}))) as Hrun1
    by (vm_compute; reflexivity).
  assert (toggleHabitCompletion 3 T0 1 false
            (mkStore (Some [set_streak 1 (exercise daily)])
                     (Some {[T0 := [1]]}))
          = Some (mkStore (Some [exercise daily]) (Some {[T0 := []]})))
    as Hrun2 by (vm_compute; reflexivity).
  split; [reflexivity|]. split; [exact Hnot|].
  split; [exact Hrun1|]. split; [exact Hrun2|].
  exact (toggle_on_off 3 T0 1 []
           (mkStore (Some [exercise daily]) (Some {[T0 := []]})) _ _
           eq_refl Hnot Hrun1 Hrun2).
Defined.

(** ** Invariants of the store *)

Lemma updateHabit_ids (habitId : Z) (updates : Updates.t) (st : Store) :
  Updates.id updates = None →
  map id (loadHabits (updateHabit habitId updates st)) = map id (loadHabits st).
Proof.
  intros Hid. unfold updateHabit.
  destruct (findIndex habitId (loadHabits st)) as [index|]; [|done].
  rewrite loadHabits_saveHabits. apply map_id_alter.
  intros h. by apply merge_id.
Qed.

Lemma updateHabit_completions (habitId : Z) (updates : Updates.t) (st : Store) :
  loadCompletions (updateHabit habitId updates st) = loadCompletions st.
Proof.
  unfold updateHabit. by destruct (findIndex habitId (loadHabits st)).
Qed.

Lemma toggle_bucket_nodup (today habitId : Z) (completed : bool)
    (completions : Completions) :
  (∀ date bucket, completions !! date = Some bucket → NoDup bucket) →
  ∀ date bucket,
    toggle_bucket today habitId completed completions !! date = Some bucket →
    NoDup bucket.
Proof.
  intros Hnd date bucket. destruct completed.
  - rewrite toggle_bucket_true.
    destruct (completions !! today) as [b|] eqn:Hb.
    + destruct (includes b habitId) eqn:Hinc; [apply Hnd|].
      intros [[<- <-]|[_ Hlk]]%lookup_insert_Some; [|by apply (Hnd date)].
      apply NoDup_app. split_and!.
      * by apply (Hnd today).
      * intros x Hx ->%list_elem_of_singleton.
        by apply includes_false in Hinc.
      * apply NoDup_singleton.
    + intros [[<- <-]|[_ Hlk]]%lookup_insert_Some; [|by apply (Hnd date)].
      apply NoDup_singleton.
  - rewrite toggle_bucket_false.
    destruct (completions !! today) as [b|] eqn:Hb.
    + intros [[<- <-]|[_ Hlk]]%lookup_insert_Some; [|by apply (Hnd date)].
      apply NoDup_filter. by apply (Hnd today).
    + intros [[<- <-]|[_ Hlk]]%lookup_insert_Some; [|by apply (Hnd date)].
      apply NoDup_nil_2.
Qed.

(** X9.  A call of the interface keeps the ids of the habit collection
    unique and keeps every day bucket free of duplicates, provided that an
    [addHabit] starts from ids that are safe integers and that the object
    given to an [updateHabit] carries no [id] key. *)
Theorem run_op_well_formed (fuel : nat) (op : Op) (st st' : Store) :
  unique_ids st →
  buckets_nodup st →
  keeps_ids_apart op st →
  run_op fuel op st = Some st' →
  unique_ids st' ∧ buckets_nodup st'.
Proof.
  unfold unique_ids, buckets_nodup. intros Hids Hnd Hguard Hrun.
  destruct op as [|name frequency target category reminder_time notes now
                  |habitId|habitId updates|today habitId completed
                  |today habitId]; simpl in Hrun.
  - injection Hrun as <-.
    by destruct (initializeDatabase_loads st) as [-> ->].
  - injection Hrun as <-. split; [|done].
    change (loadHabits _)
      with (loadHabits st
            ++ [mkHabit (addHabit name frequency target category
                           reminder_time notes now st).1
                        name frequency target 0 category now
                        reminder_time notes]).
    rewrite map_app. apply NoDup_app. split_and!; [done| |apply NoDup_singleton].
    intros x Hx ->%list_elem_of_singleton.
    apply (list_elem_of_fmap (B := Z)) in Hx as (h & Hid & Hh).
    pose proof (addHabit_id_above name frequency target category
                  reminder_time notes now st h Hguard Hh) as Hlt.
    cbn [id] in Hid. lia.
  - injection Hrun as <-. split.
    + rewrite deleteHabit_habits.
      apply (sublist_NoDup _ (map id (loadHabits st))); [done|].
      apply (fmap_sublist id), sublist_filter.
    + intros date bucket. rewrite deleteHabit_completions, lookup_fmap.
      destruct (loadCompletions st !! date) as [b|] eqn:Hb; [|done].
      intros [= <-]. apply NoDup_filter. by apply (Hnd date).
  - injection Hrun as <-.
    by rewrite updateHabit_ids, updateHabit_completions.
  - split.
    + unfold toggleHabitCompletion in Hrun.
      by rewrite (updateStreak_ids _ _ _ _ _ Hrun), loadHabits_saveCompletions.
    + rewrite (toggleHabitCompletion_completions _ _ _ _ _ _ Hrun).
      by apply toggle_bucket_nodup.
  - injection Hrun as <-. by rewrite getHabitStats_store.
Qed.

Lemma run_op_well_formed_witness :
  unique_ids (saveHabits [exercise daily] empty_store)
  ∧ buckets_nodup (saveHabits [exercise daily] empty_store)
  ∧ keeps_ids_apart
      (OpAdd "Read" weekly 2 "general" None None "2024-03-10T09:00:00.000Z")
      (saveHabits [exercise daily] empty_store)
  ∧ run_op 0
      (OpAdd "Read" weekly 2 "general" None None "2024-03-10T09:00:00.000Z")
      (saveHabits [exercise daily] empty_store)
    = Some (mkStore
              (Some [exercise daily;
                     mkHabit 2 "Read" weekly 2 0 "general"
                             "2024-03-10T09:00:00.000Z" None None])
              (Some ∅))
  ∧ unique_ids
      (mkStore
         (Some [exercise daily;
                mkHabit 2 "Read" weekly 2 0 "general"
                        "2024-03-10T09:00:00.000Z" None None])
         (Some ∅))
  ∧ buckets_nodup
      (mkStore
         (Some [exercise daily;
                mkHabit 2 "Read" weekly 2 0 "general"
                        "2024-03-10T09:00:00.000Z" None None])
         (Some ∅)).
Proof.
  assert (unique_ids (saveHabits [exercise daily] empty_store)) as Hids
    by apply NoDup_singleton.
  assert (buckets_nodup (saveHabits [exercise daily] empty_store)) as Hnd.
  { intros date bucket Hlk.
    change (loadCompletions _) with (∅ : Completions) in Hlk.
    by rewrite lookup_empty in Hlk. }
  assert (keeps_ids_apart
            (OpAdd "Read" weekly 2 "general" None None
                   "2024-03-10T09:00:00.000Z")
            (saveHabits [exercise daily] empty_store)) as Hguard.
  { intros h ->%list_elem_of_singleton. by vm_compute. }
  assert (run_op 0
            (OpAdd "Read" weekly 2 "general" None None
                   "2024-03-10T09:00:00.000Z")
            (saveHabits [exercise daily] empty_store)
          = Some (mkStore
                    (Some [exercise daily;
                           mkHabit 2 "Read" weekly 2 0 "general"
                                   "2024-03-10T09:00:00.000Z" None None])
                    (Some ∅))) as Hrun
    by (vm_compute; reflexivity).
  split; [exact Hids|]. split; [exact Hnd|]. split; [exact Hguard|].
  split; [exact Hrun|].
  exact (run_op_well_formed 0 _ _ _ Hids Hnd Hguard Hrun).
Defined.

(** X10.  A call of the interface keeps the Completion Index free of ids
    without a habit, provided that a completion names a habit that exists and
    that the object given to an [updateHabit] carries no [id] key. *)
Theorem run_op_integrity (fuel : nat) (op : Op) (st st' : Store) :
  referential_integrity st →
  keeps_references op st →
  run_op fuel op st = Some st' →
  referential_integrity st'.
Proof.
  intros Hri Hguard Hrun.
  destruct op as [|name frequency target category reminder_time notes now
                  |habitId|habitId updates|today habitId completed
                  |today habitId]; simpl in Hrun.
  - injection Hrun as <-. by apply initializeDatabase_integrity.
  - injection Hrun as <-. by apply addHabit_integrity.
  - injection Hrun as <-. by apply deleteHabit_integrity.
  - injection Hrun as <-. by apply updateHabit_integrity.
  - apply (toggleHabitCompletion_integrity fuel today habitId completed st);
      [done| |done].
    destruct completed; [by right | by left].
  - injection Hrun as <-. by rewrite getHabitStats_store.
Qed.

Lemma run_op_integrity_witness :
  referential_integrity (saveHabits [exercise daily] empty_store)
  ∧ keeps_references (OpToggle T0 1 true)
      (saveHabits [exercise daily] empty_store)
  ∧ run_op 2 (OpToggle T0 1 true) (saveHabits [exercise daily] empty_store)
    = Some (mkStore (Some [set_streak 1 (exercise daily)])
                    (Some {[T0 := [1]]}))
  ∧ referential_integrity
      (mkStore (Some [set_streak 1 (exercise daily)]) (Some {[T0 := [1]]})).
Proof.
  assert (referential_integrity (saveHabits [exercise daily] empty_store))
    as Hri.
  { intros date bucket habitId Hlk.
    change (loadCompletions _) with (∅ : Completions) in Hlk.
    by rewrite lookup_empty in Hlk. }
  assert (keeps_references (OpToggle T0 1 true)
            (saveHabits [exercise daily] empty_store)) as Hguard
    by (by eexists).
  assert (run_op 2 (OpToggle T0 1 true)
            (saveHabits [exercise daily] empty_store)
          = Some (mkStore (Some [set_streak 1 (exercise daily)])
                          (Some {[T0 := [1]]}))) as Hrun
    by (vm_compute; reflexivity).
  split; [exact Hri|]. split; [exact Hguard|]. split; [exact Hrun|].
  exact (run_op_integrity 2 (OpToggle T0 1 true) _ _ Hri Hguard Hrun).
Defined.

(** ** More on the streak cache *)

Lemma findIndex_alter (f : Habit → Habit) (habitId : Z) (habits : list Habit)
    (index : nat) :
  (∀ h, id (f h) = id h) →
  findIndex habitId (alter f index habits) = findIndex habitId habits.
Proof.
  intros Hid. revert index.
  induction habits as [|h habits IH]; intros [|index]; simpl; [done..| |].
  - by rewrite Hid.
  - destruct (id h =? habitId); [done|]. f_equal. apply IH.
Qed.

Lemma count_back_at_least {P : Type} (found : P → bool) (prev : P → P)
    (fuel : nat) (p : P) (s r : Z) :
  count_back found prev fuel p s = Some r → s ≤ r.
Proof.
  intros Hrun. apply count_back_result in Hrun as (n & -> & _). lia.
Qed.

Lemma count_back_found {P : Type} (found : P → bool) (prev : P → P)
    (fuel : nat) (p : P) (s r : Z) :
  found p = true → count_back found prev fuel p s = Some r → s + 1 ≤ r.
Proof.
  intros Hf. destruct fuel as [|fuel]; [done|]. simpl. rewrite Hf.
  apply count_back_at_least.
Qed.

Lemma computeStreak_nonneg (fuel : nat) (habit : Habit)
    (completions : Completions) (habitId today s : Z) :
  computeStreak fuel habit completions habitId today = Some s → 0 ≤ s.
Proof.
  unfold computeStreak, daily_streak, weekly_streak, monthly_streak.
  destruct (frequency habit); apply count_back_at_least.
Qed.

Lemma computeStreak_frequency (fuel : nat) (habit habit' : Habit)
    (completions : Completions) (habitId today : Z) :
  frequency habit' = frequency habit →
  computeStreak fuel habit' completions habitId today
  = computeStreak fuel habit completions habitId today.
Proof. unfold computeStreak. by intros ->. Qed.

(** X11.  [updateStreak] rewrites the cached streak of the habit and nothing
    else: the completions entry and every other habit stay as they were, the
    habit keeps all its other fields, the streak written is never negative,
    and running it again on its own result changes nothing. *)
Theorem updateStreak_frame (fuel : nat) (today habitId : Z) (st st' : Store) :
  updateStreak fuel today habitId st = Some st' →
  updateStreak fuel today habitId st' = Some st'
  ∧ COMPLETIONS_KEY st' = COMPLETIONS_KEY st
  ∧ (∃ s, 0 ≤ s ∧ find_habit habitId (loadHabits st')
                  = set_streak s <$> find_habit habitId (loadHabits st))
  ∧ (∀ other, other ≠ habitId →
       find_habit other (loadHabits st') = find_habit other (loadHabits st)).
Proof.
  intros Hrun. split_and!.
  - destruct (find_habit habitId (loadHabits st)) as [habit|] eqn:Hfind.
    + unfold updateStreak in Hrun. rewrite Hfind in Hrun.
      destruct (computeStreak fuel habit (loadCompletions st) habitId today)
        as [s|] eqn:Hs; [|done]. simpl in Hrun.
      destruct (findIndex habitId (loadHabits st)) as [index|] eqn:Hidx;
        injection Hrun as <-.
      * unfold updateStreak.
        rewrite loadHabits_saveHabits, loadCompletions_saveHabits.
        rewrite (find_habit_alter (set_streak s) _ _ _ (λ _, eq_refl) Hidx).
        rewrite Hfind. simpl.
        rewrite (computeStreak_frequency fuel habit (set_streak s habit))
          by done.
        rewrite Hs. simpl.
        rewrite (findIndex_alter (set_streak s)) by done. rewrite Hidx.
        rewrite list_alter_alter_eq. done.
      * apply findIndex_None in Hidx. congruence.
    + rewrite updateStreak_missing in Hrun by done. injection Hrun as <-.
      by apply updateStreak_missing.
  - by apply (updateStreak_completions fuel today habitId).
  - destruct (find_habit habitId (loadHabits st)) as [habit|] eqn:Hfind.
    + unfold updateStreak in Hrun. rewrite Hfind in Hrun.
      destruct (computeStreak fuel habit (loadCompletions st) habitId today)
        as [s|] eqn:Hs; [|done]. simpl in Hrun.
      exists s. split; [by apply computeStreak_nonneg in Hs|].
      destruct (findIndex habitId (loadHabits st)) as [index|] eqn:Hidx;
        injection Hrun as <-.
      * rewrite loadHabits_saveHabits.
        rewrite (find_habit_alter (set_streak s) _ _ _ (λ _, eq_refl) Hidx).
        by rewrite Hfind.
      * apply findIndex_None in Hidx. congruence.
    + rewrite updateStreak_missing in Hrun by done. injection Hrun as <-.
      exists 0. by rewrite Hfind.
  - intros other Hne. by apply (updateStreak_other fuel today habitId).
Qed.

Lemma updateStreak_frame_witness :
  updateStreak 5 T0 1 three_day_store
  = Some (saveHabits [set_streak 3 (exercise daily)] three_day_store)
  ∧ updateStreak 5 T0 1 (saveHabits [set_streak 3 (exercise daily)] three_day_store)
    = Some (saveHabits [set_streak 3 (exercise daily)] three_day_store)
  ∧ COMPLETIONS_KEY (saveHabits [set_streak 3 (exercise daily)] three_day_store)
    = COMPLETIONS_KEY three_day_store
  ∧ (∃ s, 0 ≤ s
       ∧ find_habit 1 (loadHabits (saveHabits [set_streak 3 (exercise daily)]
                                     three_day_store))
         = set_streak s <$> find_habit 1 (loadHabits three_day_store))
  ∧ (∀ other, other ≠ 1 →
       find_habit other (loadHabits (saveHabits [set_streak 3 (exercise daily)]
                                       three_day_store))
       = find_habit other (loadHabits three_day_store)).
Proof.
  assert (updateStreak 5 T0 1 three_day_store
          = Some (saveHabits [set_streak 3 (exercise daily)] three_day_store))
    as Hrun by (vm_compute; reflexivity).
  split; [exact Hrun|].
  exact (updateStreak_frame 5 T0 1 three_day_store _ Hrun).
Defined.

(** ** Statistics after a toggle *)

Lemma keys_some_here (p : Z → bool) (completions : Completions)
    (habitId today : Z) :
  p today = true →
  bucket_includes completions today habitId = true →
  keys_some p completions habitId = true.
Proof.
  intros Hp Hinc. apply bucket_includes_spec in Hinc as (bucket & Hlk & Hin).
  apply keys_some_spec. by exists today, bucket.
Qed.

Lemma toggleHabitCompletion_found (fuel : nat) (today habitId : Z)
    (completed : bool) (st st' : Store) (habit : Habit) :
  find_habit habitId (loadHabits st) = Some habit →
  toggleHabitCompletion fuel today habitId completed st = Some st' →
  ∃ s, computeStreak fuel habit (loadCompletions st') habitId today = Some s
    ∧ find_habit habitId (loadHabits st') = Some (set_streak s habit).
Proof.
  intros Hfind Hrun.
  rewrite (toggleHabitCompletion_completions _ _ _ _ _ _ Hrun).
  unfold toggleHabitCompletion, updateStreak in Hrun.
  rewrite loadHabits_saveCompletions, loadCompletions_saveCompletions in Hrun.
  rewrite Hfind in Hrun.
  destruct (computeStreak fuel habit _ habitId today) as [s|]; [|done].
  simpl in Hrun. exists s. split; [done|].
  destruct (findIndex habitId (loadHabits st)) as [index|] eqn:Hidx;
    injection Hrun as <-.
  - rewrite loadHabits_saveHabits.
    rewrite (find_habit_alter (set_streak s) _ _ _ (λ _, eq_refl) Hidx).
    by rewrite Hfind.
  - apply findIndex_None in Hidx. congruence.
Qed.

(** X13.  After a daily habit is un-completed for today, its streak is 0 and
    its statistics report [completed = 0] and [completion_rate = 0]. *)
Theorem getHabitStats_after_uncompleting (fuel : nat) (today habitId : Z)
    (st st' : Store) (habit : Habit) :
  find_habit habitId (loadHabits st) = Some habit →
  frequency habit = daily →
  toggleHabitCompletion fuel today habitId false st = Some st' →
  getHabitStats today habitId st' = (Stats.mk 0 0 (target habit) 0, st').
Proof.
  intros Hfind Hfreq Hrun.
  destruct (toggleHabitCompletion_found _ _ _ _ _ _ _ Hfind Hrun)
    as (s & Hs & Hfind').
  assert (bucket_includes (loadCompletions st') today habitId = false) as Hinc.
  { apply not_true_iff_false. intros Hinc. apply bucket_includes_spec in Hinc.
    fold (completed_on (loadCompletions st') habitId today) in Hinc.
    rewrite (toggleHabitCompletion_completions _ _ _ _ _ _ Hrun) in Hinc.
    apply toggle_bucket_completed_on in Hinc.
    by rewrite decide_True in Hinc. }
  assert (s = 0) as ->.
  { unfold computeStreak, daily_streak in Hs. rewrite Hfreq in Hs.
    destruct fuel as [|fuel]; [done|]. simpl in Hs. rewrite Hinc in Hs.
    by injection Hs. }
  unfold getHabitStats. rewrite Hfind'. cbv zeta.
  rewrite isCompleted_daily by done. by rewrite Hinc.
Qed.

Lemma getHabitStats_after_uncompleting_witness :
  find_habit 1 (loadHabits three_day_store) = Some (exercise daily)
  ∧ frequency (exercise daily) = daily
  ∧ toggleHabitCompletion 5 T0 1 false three_day_store
    = Some (saveCompletions (<[T0 := []]> (loadCompletions three_day_store))
              three_day_store)
  ∧ getHabitStats T0 1
      (saveCompletions (<[T0 := []]> (loadCompletions three_day_store))
         three_day_store)
    = (Stats.mk 0 0 (target (exercise daily)) 0,
       saveCompletions (<[T0 := []]> (loadCompletions three_day_store))
         three_day_store).
Proof.
  assert (toggleHabitCompletion 5 T0 1 false three_day_store
    = Some (saveCompletions (<[T0 := []]> (loadCompletions three_day_store))
              three_day_store)) as Hrun by (vm_compute; reflexivity).
  split; [reflexivity|]. split; [reflexivity|]. split; [exact Hrun|].
  exact (getHabitStats_after_uncompleting 5 T0 1 three_day_store _
           (exercise daily) eq_refl eq_refl Hrun).
Defined.

(** ** More on editing *)

Lemma merge_merge (updates : Updates.t) (habit : Habit) :
  merge updates (merge updates habit) = merge updates habit.
Proof.
  destruct updates as [[?|] [?|] [?|] [?|] [?|] [?|] [?|] [?|] [?|]]; done.
Qed.

Lemma findIndex_alter_found (f : Habit → Habit) (habitId : Z)
    (habits : list Habit) (index : nat) :
  (∀ h, id h = habitId → id (f h) = habitId) →
  findIndex habitId habits = Some index →
  findIndex habitId (alter f index habits) = Some index.
Proof.
  intros Hid. revert index.
  induction habits as [|h habits IH]; intros index; simpl; [done|].
  destruct (id h =? habitId) eqn:E.
  - intros [= <-]. simpl. apply Z.eqb_eq in E.
    by rewrite (proj2 (Z.eqb_eq _ _) (Hid h E)).
  - destruct (findIndex habitId habits) as [index'|] eqn:Hidx; [|done].
    intros [= <-]. cbn [alter list_alter findIndex]. rewrite E.
    by rewrite (IH index' eq_refl).
Qed.

Lemma findIndex_alter_gone (f : Habit → Habit) (habitId : Z)
    (habits : list Habit) (index : nat) :
  NoDup (map id habits) →
  (∀ h, id h = habitId → id (f h) ≠ habitId) →
  findIndex habitId habits = Some index →
  findIndex habitId (alter f index habits) = None.
Proof.
  intros Hnd Hid. revert index.
  induction habits as [|h habits IH]; intros index; simpl; [done|].
  apply NoDup_cons in Hnd as [Hh Hnd].
  destruct (id h =? habitId) eqn:E.
  - intros [= <-]. simpl. apply Z.eqb_eq in E.
    rewrite (proj2 (Z.eqb_neq _ _) (Hid h E)).
    assert (findIndex habitId habits = None) as ->; [|done].
    apply findIndex_None, find_habit_None. intros h' Hin Heq.
    apply Hh. rewrite E, <- Heq. apply (list_elem_of_fmap (B := Z)).
    by exists h'.
  - destruct (findIndex habitId habits) as [index'|] eqn:Hidx; [|done].
    intros [= <-]. cbn [alter list_alter findIndex]. rewrite E.
    by rewrite (IH Hnd index' eq_refl).
Qed.

(** With two habits under one id, an update that renames the id reaches the
    second of them when it is called again. *)
Example updateHabit_twice_differs :
  let updates := Updates.mk (Some 2) None None None None None None None None in
  let st := saveHabits [exercise daily; exercise weekly] empty_store in
  updateHabit 1 updates (updateHabit 1 updates st) ≠ updateHabit 1 updates st.
Proof. intros updates st H. vm_compute in H. discriminate H. Qed.

(** X14.  Applying the same updates twice is the same as applying them once,
    when the updates carry no [id] key or the ids of the collection are
    unique; and an updates object without any key leaves every habit as it
    was. *)
Theorem updateHabit_idempotent (habitId : Z) (updates : Updates.t) (st : Store) :
  Updates.id updates = None ∨ unique_ids st →
  updateHabit habitId updates (updateHabit habitId updates st)
  = updateHabit habitId updates st
  ∧ loadHabits (updateHabit habitId
                  (Updates.mk None None None None None None None None None)
                  st)
    = loadHabits st.
Proof.
  intros Hguard. split.
  - unfold updateHabit.
    destruct (findIndex habitId (loadHabits st)) as [index|] eqn:Hidx;
      [|by rewrite Hidx].
    rewrite loadHabits_saveHabits.
    assert (findIndex habitId (alter (merge updates) index (loadHabits st))
            = Some index
            ∨ findIndex habitId (alter (merge updates) index (loadHabits st))
              = None) as [-> | ->]; [| |done].
    + destruct (Updates.id updates) as [newId|] eqn:Hnew.
      * destruct Hguard as [?|Hids]; [done|].
        destruct (decide (newId = habitId)) as [->|Hne].
        -- left. apply findIndex_alter_found; [|done].
           intros h _. unfold merge. simpl. by rewrite Hnew.
        -- right. apply findIndex_alter_gone; [done| |done].
           intros h _. unfold merge. simpl. by rewrite Hnew.
      * left. apply findIndex_alter_found; [|done].
        intros h Hh. by rewrite merge_id.
    + rewrite list_alter_alter_eq. unfold saveHabits. simpl. do 2 f_equal.
      apply list_alter_ext; [|done]. intros h _. apply merge_merge.
  - unfold updateHabit.
    destruct (findIndex habitId (loadHabits st)) as [index|]; [|done].
    rewrite loadHabits_saveHabits. apply list_alter_id. by intros [].
Qed.

Lemma updateHabit_idempotent_witness :
  (Updates.id (Updates.mk (Some 2) None None None (Some 5) None None None None)
   = None
   ∨ unique_ids three_day_store)
  ∧ updateHabit 1
      (Updates.mk (Some 2) None None None (Some 5) None None None None)
      (updateHabit 1
         (Updates.mk (Some 2) None None None (Some 5) None None None None)
         three_day_store)
    = updateHabit 1
        (Updates.mk (Some 2) None None None (Some 5) None None None None)
        three_day_store.
Proof.
  assert (Updates.id
            (Updates.mk (Some 2) None None None (Some 5) None None None None)
          = None
          ∨ unique_ids three_day_store) as Hguard
    by (right; apply NoDup_singleton).
  split; [exact Hguard|].
  exact (proj1 (updateHabit_idempotent 1 _ three_day_store Hguard)).
Defined.

(** ** The list shown to the user *)

Lemma bucket_includes_toggle (today habitId other : Z) (completed : bool)
    (completions : Completions) :
  bucket_includes (toggle_bucket today habitId completed completions)
                  today other
  = if decide (other = habitId) then completed
    else bucket_includes completions today other.
Proof.
  apply eq_true_iff_eq. rewrite !bucket_includes_spec.
  fold (completed_on (toggle_bucket today habitId completed completions)
                     other today).
  rewrite toggle_bucket_completed_on.
  destruct (decide (other = habitId)) as [->|Hne].
  - by rewrite decide_True.
  - rewrite decide_False by (by intros [_ ?]).
    by rewrite bucket_includes_spec.
Qed.

(** X15.  After [toggleHabitCompletion(id, completed)], [getAllHabits()]
    lists the same ids in the same order; the rows of that id carry the flag
    [completed] and every other row carries the flag it had before. *)
Theorem getAllHabits_after_toggle (fuel : nat) (today habitId : Z)
    (completed : bool) (st st' : Store) :
  toggleHabitCompletion fuel today habitId completed st = Some st' →
  map (λ row, id row.1) (getAllHabits today st')
  = map (λ row, id row.1) (getAllHabits today st)
  ∧ map snd (getAllHabits today st')
    = map (λ row, if decide (id row.1 = habitId) then completed else row.2)
          (getAllHabits today st).
Proof.
  intros Hrun. unfold getAllHabits.
  rewrite (toggleHabitCompletion_completions _ _ _ _ _ _ Hrun).
  assert (map id (loadHabits st') = map id (loadHabits st)) as Hids.
  { unfold toggleHabitCompletion in Hrun.
    by rewrite (updateStreak_ids _ _ _ _ _ Hrun), loadHabits_saveCompletions. }
  rewrite !map_map. simpl. split; [done|].
  transitivity (map (λ x, if decide (x = habitId) then completed
                          else bucket_includes (loadCompletions st) today x)
                    (map id (loadHabits st'))).
  - rewrite map_map. apply map_ext. intros h. apply bucket_includes_toggle.
  - rewrite Hids. by rewrite map_map.
Qed.

Lemma getAllHabits_after_toggle_witness :
  toggleHabitCompletion 5 T0 1 false three_day_store
  = Some (saveCompletions (<[T0 := []]> (loadCompletions three_day_store))
            three_day_store)
  ∧ map (λ row, id row.1)
        (getAllHabits T0
           (saveCompletions (<[T0 := []]> (loadCompletions three_day_store))
              three_day_store))
    = map (λ row, id row.1) (getAllHabits T0 three_day_store)
  ∧ map snd
        (getAllHabits T0
           (saveCompletions (<[T0 := []]> (loadCompletions three_day_store))
              three_day_store))
    = map (λ row, if decide (id row.1 = 1) then false else row.2)
          (getAllHabits T0 three_day_store).
Proof.
  assert (toggleHabitCompletion 5 T0 1 false three_day_store
    = Some (saveCompletions (<[T0 := []]> (loadCompletions three_day_store))
              three_day_store)) as Hrun by (vm_compute; reflexivity).
  split; [exact Hrun|].
  exact (getAllHabits_after_toggle 5 T0 1 false three_day_store _ Hrun).
Defined.

(** ** The calendar *)

Ltac div_lia := Z.to_euclidean_division_equations; lia.

Lemma civil_from_days_fields (z : Z) :
  1 ≤ (civil_from_days z).1.2 ≤ 12 ∧ 1 ≤ (civil_from_days z).2 ≤ 31.
Proof.
  unfold civil_from_days. cbv zeta. simpl.
  set (doe := z + 719468 - (z + 719468) / 146097 * 146097).
  assert (0 ≤ doe < 146097) as Hdoe by (unfold doe; div_lia).
  clearbody doe.
  set (yoe := (doe - doe / 1460 + doe / 36524 - doe / 146096) / 365).
  assert (0 ≤ yoe ≤ 399) as Hyoe by (unfold yoe; div_lia).
  set (doy := doe - (365 * yoe + yoe / 4 - yoe / 100)).
  assert (0 ≤ doy ≤ 365) as Hdoy by (unfold doy, yoe; div_lia).
  clearbody doy.
  set (mp := (5 * doy + 2) / 153).
  assert (0 ≤ mp ≤ 11) as Hmp by (unfold mp; div_lia).
  destruct (mp <? 10) eqn:E; [apply Z.ltb_lt in E | apply Z.ltb_ge in E];
    unfold mp in *; div_lia.
Qed.

Lemma days_from_civil_from_days (z : Z) :
  days_from_civil (civil_from_days z).1.1 (civil_from_days z).1.2
                  (civil_from_days z).2 = z.
Proof.
  unfold civil_from_days. cbv zeta. simpl.
  set (era := (z + 719468) / 146097).
  set (doe := z + 719468 - era * 146097).
  assert (0 ≤ doe < 146097) as Hdoe by (unfold doe, era; div_lia).
  assert (z = era * 146097 + doe - 719468) as Hz by (unfold doe; lia).
  clearbody doe. clearbody era.
  set (yoe := (doe - doe / 1460 + doe / 36524 - doe / 146096) / 365).
  assert (0 ≤ yoe ≤ 399) as Hyoe by (unfold yoe; div_lia).
  set (doy := doe - (365 * yoe + yoe / 4 - yoe / 100)).
  assert (0 ≤ doy ≤ 365) as Hdoy by (unfold doy, yoe; div_lia).
  assert (doe = yoe * 365 + yoe / 4 - yoe / 100 + doy) as Hdoe'
    by (unfold doy; lia).
  clearbody doy. clearbody yoe.
  set (mp := (5 * doy + 2) / 153).
  assert (0 ≤ mp ≤ 11) as Hmp by (unfold mp; div_lia).
  unfold days_from_civil.
  destruct (mp <? 10) eqn:E; [apply Z.ltb_lt in E | apply Z.ltb_ge in E].
  - replace (mp + 3 <=? 2) with false by (symmetry; apply Z.leb_gt; lia).
    rewrite Z.gtb_ltb.
    replace (2 <? mp + 3) with true by (symmetry; apply Z.ltb_lt; lia).
    replace (mp + 3 - 3) with mp by lia.
    replace ((yoe + era * 400) / 400) with era by div_lia.
    replace (yoe + era * 400 - era * 400) with yoe by lia.
    unfold mp in *. div_lia.
  - replace (mp - 9 <=? 2) with true by (symmetry; apply Z.leb_le; lia).
    rewrite Z.gtb_ltb.
    replace (2 <? mp - 9) with false by (symmetry; apply Z.ltb_ge; lia).
    replace (mp - 9 + 9) with mp by lia.
    replace (yoe + era * 400 + 1 - 1) with (yoe + era * 400) by lia.
    replace ((yoe + era * 400) / 400) with era by div_lia.
    replace (yoe + era * 400 - era * 400) with yoe by lia.
    unfold mp in *. div_lia.
Qed.

(** A date is at most 365 days after the first of January of its year. *)
Lemma day_of_year (z : Z) :
  0 ≤ z - days_from_civil (getFullYear z) 1 1 ≤ 365.
Proof.
  unfold getFullYear, civil_from_days. cbv zeta. simpl.
  set (era := (z + 719468) / 146097).
  set (doe := z + 719468 - era * 146097).
  assert (0 ≤ doe < 146097) as Hdoe by (unfold doe, era; div_lia).
  assert (z = era * 146097 + doe - 719468) as Hz by (unfold doe; lia).
  clearbody doe. clearbody era.
  set (yoe := (doe - doe / 1460 + doe / 36524 - doe / 146096) / 365).
  assert (0 ≤ yoe ≤ 399) as Hyoe by (unfold yoe; div_lia).
  set (doy := doe - (365 * yoe + yoe / 4 - yoe / 100)).
  assert (0 ≤ doy ≤ 365) as Hdoy by (unfold doy, yoe; div_lia).
  assert (doy = 365 → yoe mod 4 = 3 ∧ (yoe mod 100 ≠ 99 ∨ yoe = 399)) as Hleap
    by (unfold doy, yoe; div_lia).
  assert (doe = yoe * 365 + yoe / 4 - yoe / 100 + doy) as Hdoe'
    by (unfold doy; lia).
  clearbody doy. clearbody yoe.
  set (mp := (5 * doy + 2) / 153).
  assert (0 ≤ mp ≤ 11) as Hmp by (unfold mp; div_lia).
  unfold days_from_civil. simpl.
  destruct (mp <? 10) eqn:E; [apply Z.ltb_lt in E | apply Z.ltb_ge in E].
  - replace (mp + 3 <=? 2) with false by (symmetry; apply Z.leb_gt; lia).
    unfold mp in *. div_lia.
  - replace (mp - 9 <=? 2) with true by (symmetry; apply Z.leb_le; lia).
    unfold mp in *. div_lia.
Qed.

(** Each of the first 365 days of year [y] is a day of year [y]. *)
Lemma year_of_day_in_year (y j : Z) :
  0 ≤ j ≤ 364 → getFullYear (days_from_civil y 1 1 + j) = y.
Proof.
  intros Hj.
  set (E := (y - 1) / 400).
  set (Yoe := y - 1 - E * 400).
  assert (0 ≤ Yoe ≤ 399) as HYoe by (unfold Yoe, E; div_lia).
  assert (days_from_civil y 1 1
          = E * 146097 + (Yoe * 365 + Yoe / 4 - Yoe / 100 + 306) - 719468) as ->.
  { unfold days_from_civil, Yoe, E. simpl. div_lia. }
  assert (y = Yoe + E * 400 + 1) as Hy by (unfold Yoe; lia).
  clearbody Yoe. clearbody E. subst y.
  set (z := E * 146097 + (Yoe * 365 + Yoe / 4 - Yoe / 100 + 306) - 719468 + j).
  unfold getFullYear, civil_from_days. cbv zeta. simpl.
  set (era := (z + 719468) / 146097).
  set (doe := z + 719468 - era * 146097).
  assert (0 ≤ doe < 146097) as Hdoe by (unfold doe, era; div_lia).
  assert (z = era * 146097 + doe - 719468) as Hz by (unfold doe; lia).
  clearbody doe. clearbody era.
  set (yoe := (doe - doe / 1460 + doe / 36524 - doe / 146096) / 365).
  assert (0 ≤ yoe ≤ 399) as Hyoe by (unfold yoe; div_lia).
  set (doy := doe - (365 * yoe + yoe / 4 - yoe / 100)).
  assert (0 ≤ doy ≤ 365) as Hdoy by (unfold doy, yoe; div_lia).
  assert (doy = 365 → yoe mod 4 = 3 ∧ (yoe mod 100 ≠ 99 ∨ yoe = 399)) as Hleap
    by (unfold doy, yoe; div_lia).
  assert (doe = yoe * 365 + yoe / 4 - yoe / 100 + doy) as Hdoe'
    by (unfold doy; lia).
  clearbody doy. clearbody yoe.
  set (mp := (5 * doy + 2) / 153).
  assert (0 ≤ mp ≤ 11) as Hmp by (unfold mp; div_lia).
  assert (mp < 10 ↔ doy < 306) as Hmp' by (unfold mp; div_lia).
  clearbody mp. unfold z in Hz. clear z.
  destruct (mp <? 10) eqn:Em; [apply Z.ltb_lt in Em | apply Z.ltb_ge in Em].
  - replace (mp + 3 <=? 2) with false by (symmetry; apply Z.leb_gt; lia).
    div_lia.
  - replace (mp - 9 <=? 2) with true by (symmetry; apply Z.leb_le; lia).
    div_lia.
Qed.

Lemma getFullYear_modern (z : Z) : -3 ≤ z → 100 ≤ getFullYear z.
Proof.
  intros Hz. unfold getFullYear, civil_from_days. cbv zeta. simpl.
  set (era := (z + 719468) / 146097).
  set (doe := z + 719468 - era * 146097).
  assert (4 ≤ era) by (unfold era; div_lia).
  assert (0 ≤ doe < 146097) as Hdoe by (unfold doe, era; div_lia).
  clearbody doe. clearbody era.
  set (yoe := (doe - doe / 1460 + doe / 36524 - doe / 146096) / 365).
  assert (0 ≤ yoe ≤ 399) as Hyoe by (unfold yoe; div_lia).
  clearbody yoe. destruct (_ <=? 2); lia.
Qed.

Lemma Date_UTC_year (year monthIndex day : Z) :
  100 ≤ year →
  Date_UTC year monthIndex day = days_from_civil year (monthIndex + 1) day.
Proof.
  intros Hy. unfold Date_UTC.
  replace ((0 <=? year) && (year <=? 99)) with false; [done|].
  symmetry. apply andb_false_iff. right. apply Z.leb_gt. lia.
Qed.

Lemma Date_UTC_today (date : Z) :
  -3 ≤ date →
  Date_UTC (getFullYear date) (getMonth date) (getDate date) = date.
Proof.
  intros Hz. rewrite Date_UTC_year by (by apply getFullYear_modern).
  unfold getMonth. replace ((civil_from_days date).1.2 - 1 + 1)
    with (civil_from_days date).1.2 by lia.
  apply days_from_civil_from_days.
Qed.

Lemma getMonth_range (date : Z) : 0 ≤ getMonth date ≤ 11.
Proof.
  unfold getMonth. pose proof (civil_from_days_fields date) as [? _]. lia.
Qed.

Lemma thursday_of_range (date : Z) :
  date - 3 ≤ thursday_of date ≤ date + 3 ∧ getUTCDay (thursday_of date) = 4.
Proof.
  unfold thursday_of, getUTCDay.
  destruct ((date + 4) mod 7 =? 0) eqn:E;
    [apply Z.eqb_eq in E | apply Z.eqb_neq in E]; div_lia.
Qed.

Lemma thursday_of_next_week (date : Z) :
  thursday_of (date + 7) = thursday_of date + 7.
Proof.
  unfold thursday_of, getUTCDay.
  replace ((date + 7 + 4) mod 7) with ((date + 4) mod 7) by div_lia.
  destruct ((date + 4) mod 7 =? 0); lia.
Qed.

(** From 1970 on, the week number is the number of the week of the year in
    which the Thursday of the date's week falls. *)
Lemma getWeekNumber_thursday (date : Z) :
  0 ≤ date →
  getWeekNumber date
  = ceil_div7 (thursday_of date
               - days_from_civil (getFullYear (thursday_of date)) 1 1 + 1).
Proof.
  intros Hz. unfold getWeekNumber. cbv zeta.
  rewrite Date_UTC_today by lia. fold (thursday_of date).
  pose proof (thursday_of_range date) as [Hth _].
  rewrite Date_UTC_year by (apply getFullYear_modern; lia).
  done.
Qed.

(** X16.  On the dates from 1970-01-01 on, the conversions that
    [getWeekNumber] starts with give back the same day: a day's year, month
    and day of month, passed to [Date.UTC], denote that day, with the month
    in 0..11 and the day of month in 1..31. *)
Theorem calendar_round_trip (date : Z) :
  0 ≤ date →
  Date_UTC (getFullYear date) (getMonth date) (getDate date) = date
  ∧ 0 ≤ getMonth date ≤ 11
  ∧ 1 ≤ getDate date ≤ 31.
Proof.
  intros Hz. split_and!; try apply getMonth_range.
  - apply Date_UTC_today. lia.
  - unfold getDate. pose proof (civil_from_days_fields date) as [_ ?]. lia.
  - unfold getDate. pose proof (civil_from_days_fields date) as [_ ?]. lia.
Qed.

Lemma calendar_round_trip_witness :
  0 ≤ T0
  ∧ Date_UTC (getFullYear T0) (getMonth T0) (getDate T0) = T0
  ∧ 0 ≤ getMonth T0 ≤ 11
  ∧ 1 ≤ getDate T0 ≤ 31.
Proof.
  split; [by vm_compute|]. apply (calendar_round_trip T0). by vm_compute.
Defined.

(** X17.  On the dates from 1970-01-01 on, [getWeekNumber] returns a number
    from 1 to 53. *)
Theorem getWeekNumber_range (date : Z) :
  0 ≤ date → 1 ≤ getWeekNumber date ≤ 53.
Proof.
  intros Hz. rewrite getWeekNumber_thursday by done.
  pose proof (day_of_year (thursday_of date)) as Hdoy.
  unfold ceil_div7. div_lia.
Qed.

Lemma getWeekNumber_range_witness :
  0 ≤ T0 ∧ 1 ≤ getWeekNumber T0 ≤ 53.
Proof.
  split; [by vm_compute|]. apply (getWeekNumber_range T0). by vm_compute.
Defined.

(** X18.  The seven days from a Monday to the following Sunday all have the
    week number of that Monday. *)
Theorem getWeekNumber_same_week (monday k : Z) :
  0 ≤ monday → getUTCDay monday = 1 → 0 ≤ k ≤ 6 →
  getWeekNumber (monday + k) = getWeekNumber monday.
Proof.
  intros Hz Hmon Hk. rewrite !getWeekNumber_thursday by lia.
  assert (thursday_of (monday + k) = thursday_of monday) as ->; [|done].
  unfold thursday_of, getUTCDay in *.
  destruct ((monday + k + 4) mod 7 =? 0) eqn:E;
    [apply Z.eqb_eq in E | apply Z.eqb_neq in E];
    (destruct ((monday + 4) mod 7 =? 0) eqn:E';
     [apply Z.eqb_eq in E' | apply Z.eqb_neq in E']); div_lia.
Qed.

Lemma getWeekNumber_same_week_witness :
  0 ≤ T0 - 6 ∧ getUTCDay (T0 - 6) = 1 ∧ 0 ≤ 6 ≤ 6
  ∧ getWeekNumber (T0 - 6 + 6) = getWeekNumber (T0 - 6).
Proof.
  split; [by vm_compute|]. split; [reflexivity|]. split; [lia|].
  apply (getWeekNumber_same_week (T0 - 6) 6);
    [by vm_compute | reflexivity | lia].
Defined.

(** X19.  From 1970 on, the fourth of January is in week 1: week 1 is the
    week that holds the year's first Thursday. *)
Theorem getWeekNumber_jan_4 (y : Z) :
  1970 ≤ y → getWeekNumber (Date_UTC y 0 4) = 1.
Proof.
  intros Hy. rewrite Date_UTC_year by lia. change (0 + 1) with 1.
  assert (days_from_civil y 1 4 = days_from_civil y 1 1 + 3) as Hjan4.
  { unfold days_from_civil. simpl. div_lia. }
  assert (0 ≤ days_from_civil y 1 1) as Hpos.
  { unfold days_from_civil. simpl. div_lia. }
  rewrite Hjan4, getWeekNumber_thursday by lia.
  pose proof (thursday_of_range (days_from_civil y 1 1 + 3)) as [Hth _].
  set (t := thursday_of (days_from_civil y 1 1 + 3)) in *.
  replace t with (days_from_civil y 1 1 + (t - days_from_civil y 1 1))
    at 2 by lia.
  rewrite year_of_day_in_year by lia.
  unfold ceil_div7. div_lia.
Qed.

Lemma getWeekNumber_jan_4_witness :
  1970 ≤ 2024 ∧ getWeekNumber (Date_UTC 2024 0 4) = 1.
Proof. split; [lia|]. apply (getWeekNumber_jan_4 2024). lia. Defined.

(** X20.  From 1970 on, the date seven days later has the next week number,
    or has week number 1 after a week 52 or 53. *)
Theorem getWeekNumber_next_week (date : Z) :
  0 ≤ date →
  getWeekNumber (date + 7) = getWeekNumber date + 1
  ∨ (getWeekNumber (date + 7) = 1 ∧ 52 ≤ getWeekNumber date).
Proof.
  intros Hz. rewrite !getWeekNumber_thursday by lia.
  rewrite thursday_of_next_week.
  pose proof (thursday_of_range date) as [Hth _].
  set (t := thursday_of date) in *.
  pose proof (day_of_year t) as Ha.
  pose proof (day_of_year (t + 7)) as Ha'.
  destruct (Z.le_gt_cases (t - days_from_civil (getFullYear t) 1 1) 357)
    as [Hearly|Hlate].
  - left.
    assert (getFullYear (t + 7) = getFullYear t) as ->.
    { replace (t + 7)
        with (days_from_civil (getFullYear t) 1 1
              + (t - days_from_civil (getFullYear t) 1 1 + 7)) by lia.
      apply year_of_day_in_year. lia. }
    unfold ceil_div7. div_lia.
  - destruct (Z.le_gt_cases
                (t + 7 - days_from_civil (getFullYear (t + 7)) 1 1) 6)
      as [Hnew|Hsame].
    + right. unfold ceil_div7. div_lia.
    + left.
      assert (getFullYear t = getFullYear (t + 7)) as ->.
      { replace t
          with (days_from_civil (getFullYear (t + 7)) 1 1
                + (t + 7 - days_from_civil (getFullYear (t + 7)) 1 1 - 7))
          at 1 by lia.
        apply year_of_day_in_year. lia. }
      unfold ceil_div7. div_lia.
Qed.

Lemma getWeekNumber_next_week_witness :
  0 ≤ R0 - 7
  ∧ (getWeekNumber (R0 - 7 + 7) = getWeekNumber (R0 - 7) + 1
     ∨ (getWeekNumber (R0 - 7 + 7) = 1 ∧ 52 ≤ getWeekNumber (R0 - 7))).
Proof.
  split; [by vm_compute|]. apply (getWeekNumber_next_week (R0 - 7)).
  by vm_compute.
Defined.

(** ** Monthly and weekly streaks *)

Lemma iter_prev_month (i : nat) (m y : Z) :
  0 ≤ m ≤ 11 →
  let my := Nat.iter i prev_month (m, y) in
  0 ≤ my.1 ≤ 11 ∧ 12 * my.2 + my.1 = 12 * y + m - Z.of_nat i.
Proof.
  intros Hm. induction i as [|i IH]; [simpl; lia|].
  rewrite Nat.iter_succ. cbv zeta in *.
  destruct (Nat.iter i prev_month (m, y)) as [m' y']. simpl in IH.
  unfold prev_month. destruct (m' - 1 <? 0) eqn:E;
    [apply Z.ltb_lt in E | apply Z.ltb_ge in E]; simpl; lia.
Qed.

(** ** The page component *)

Section page.
Context (trim : string → string).

Lemma page_loadHabits_synced (today : Z) (w : Page.State * Store) :
  page_synced (Page.loadHabits today w).
Proof.
  unfold page_synced, Page.loadHabits, getAllHabits. simpl.
  by rewrite map_map.
Qed.

Lemma page_nth_habit_Some (rows : list (Habit * bool)) (index : Z)
    (row : Habit * bool) :
  Page.nth_habit rows index = Some row →
  0 ≤ index < Z.of_nat (length rows) ∧ row ∈ rows.
Proof.
  unfold Page.nth_habit. destruct (index <? 0) eqn:E; [done|].
  apply Z.ltb_ge in E. intros Hlk. split.
  - apply lookup_lt_Some in Hlk. lia.
  - by apply list_elem_of_lookup_2 in Hlk.
Qed.

Lemma page_row_exists (w : Page.State * Store) (index : Z)
    (row : Habit * bool) :
  page_synced w →
  Page.nth_habit (Page.habits w.1) index = Some row →
  is_Some (find_habit (id row.1) (loadHabits w.2)).
Proof.
  intros Hsync Hrow. apply page_nth_habit_Some in Hrow as [_ Hin].
  destruct (find_habit (id row.1) (loadHabits w.2)) as [h|] eqn:Hfind;
    [by eexists|].
  exfalso.
  assert (id row.1 ∈ map id (loadHabits w.2)) as Hid.
  { rewrite <- Hsync. apply (list_elem_of_fmap (B := Z)). by exists row. }
  apply (list_elem_of_fmap (B := Z)) in Hid as (h & Hid & Hh).
  by apply (proj1 (find_habit_None _ _) Hfind h).
Qed.

(** One key press keeps the index consistent and the page in step with the
    store. *)
Lemma page_handleKeydown_step (fuel : nat) (today : Z) (now key : string)
    (w w' : Page.State * Store) :
  referential_integrity w.2 →
  page_synced w →
  Page.handleKeydown trim fuel today now key w = Page.Return w' →
  referential_integrity w'.2 ∧ page_synced w'.
Proof.
  intros Hri Hsync. unfold Page.handleKeydown.
  destruct (Page.isAddingHabit w.1 || Page.isEditingHabit w.1).
  { destruct (String.eqb key "Enter").
    - destruct (Page.isAddingHabit w.1); intros [= <-].
      + unfold Page.addHabit.
        destruct (Page.truthy _); [|by destruct w].
        split; [by apply addHabit_integrity | apply page_loadHabits_synced].
      + unfold Page.saveHabitEdit.
        destruct (Page.editingHabit w.1) as [row|]; [|by destruct w].
        destruct (Page.truthy _); [|by destruct w].
        split; [by apply updateHabit_integrity | apply page_loadHabits_synced].
    - destruct (String.eqb key "Escape"); intros [= <-]; [done | by destruct w]. }
  destruct (Page.showingDetails w.1 && String.eqb key "Escape");
    [by intros [= <-]|].
  destruct (String.eqb key "j" || String.eqb key "ArrowDown");
    [by intros [= <-]|].
  destruct (String.eqb key "k" || String.eqb key "ArrowUp");
    [by intros [= <-]|].
  destruct (String.eqb key " ").
  { unfold Page.toggleHabit.
    destruct (Page.nth_habit _ _) as [row|] eqn:Hrow; [|done].
    destruct (toggleHabitCompletion _ _ _ _ _) as [st|] eqn:Hrun; [|done].
    intros [= <-]. split; [|apply page_loadHabits_synced]. simpl.
    apply (toggleHabitCompletion_integrity _ _ _ _ _ _ Hri) in Hrun; [done|].
    right. by apply (page_row_exists w (Page.selectedIndex w.1)). }
  destruct (String.eqb key "n"); [by intros [= <-]|].
  destruct (String.eqb key "d").
  { unfold Page.deleteHabit.
    destruct (Page.nth_habit _ _) as [row|] eqn:Hrow; [|done]. cbv zeta.
    destruct (_ >=? _); intros [= <-].
    - split; [by apply deleteHabit_integrity|].
      apply (page_loadHabits_synced today (w.1, _)).
    - split; [by apply deleteHabit_integrity | apply page_loadHabits_synced]. }
  destruct (String.eqb key "e").
  { unfold Page.startEditing.
    destruct (Page.nth_habit _ _) as [row|]; [|done]. by intros [= <-]. }
  destruct (String.eqb key "Enter"); intros [= <-]; [done | by destruct w].
Qed.

Lemma page_toggleHabit_step (fuel : nat) (today index : Z)
    (w w' : Page.State * Store) :
  referential_integrity w.2 →
  page_synced w →
  Page.toggleHabit fuel today index w = Page.Return w' →
  referential_integrity w'.2 ∧ page_synced w'.
Proof.
  intros Hri Hsync. unfold Page.toggleHabit.
  destruct (Page.nth_habit _ _) as [row|] eqn:Hrow; [|done].
  destruct (toggleHabitCompletion _ _ _ _ _) as [st|] eqn:Hrun; [|done].
  intros [= <-]. split; [|apply page_loadHabits_synced]. simpl.
  apply (toggleHabitCompletion_integrity _ _ _ _ _ _ Hri) in Hrun; [done|].
  right. by apply (page_row_exists w index).
Qed.

Lemma page_dispatch_step (fuel : nat) (event : Page.Event)
    (w w' : Page.State * Store) :
  referential_integrity w.2 →
  page_synced w →
  Page.dispatch trim fuel event w = Page.Return w' →
  referential_integrity w'.2 ∧ page_synced w'.
Proof.
  intros Hri Hsync.
  destruct event as [today now key|name frequency target category notes
                     |today index|]; simpl.
  - by apply page_handleKeydown_step.
  - by intros [= <-].
  - by apply page_toggleHabit_step.
  - unfold Page.startEditing.
    destruct (Page.editingHabit w.1) as [row|]; [|done]. by intros [= <-].
Qed.

(** X23.  Driven from the page, the store stays consistent: after [onMount]
    on a store whose index references existing habits only, every run of
    user events that returns leaves an index that references existing habits
    only, and the rows on the page are the habits of the store.  The page
    never asks to complete a habit that does not exist. *)
Theorem page_keeps_integrity (fuel : nat) (today : Z)
    (events : list Page.Event) (st : Store) (w' : Page.State * Store) :
  referential_integrity st →
  Page.run trim fuel events (Page.onMount today (Page.initial, st))
  = Page.Return w' →
  referential_integrity w'.2 ∧ page_synced w'.
Proof.
  intros Hri.
  assert (referential_integrity (Page.onMount today (Page.initial, st)).2
          ∧ page_synced (Page.onMount today (Page.initial, st))) as Hinv.
  { split; [by apply initializeDatabase_integrity
           | apply page_loadHabits_synced]. }
  revert Hinv. generalize (Page.onMount today (Page.initial, st)).
  induction events as [|event events IH]; intros w [Hri' Hsync].
  - by intros [= <-].
  - simpl. destruct (Page.dispatch trim fuel event w)
      as [w1| |] eqn:Hstep; [|done..].
    apply IH. by apply (page_dispatch_step fuel event w).
Qed.

(** X24.  While the page is in step with the store, a key press that returns
    keeps the selection on a row of the list (or at 0 when the list is
    empty), except for the key j or ArrowDown on an empty list. *)
Theorem page_selection_stays_valid (fuel : nat) (today : Z) (now key : string)
    (w w' : Page.State * Store) :
  page_synced w →
  selection_valid w.1 →
  Page.habits w.1 ≠ [] ∨ (key ≠ "j"%string ∧ key ≠ "ArrowDown"%string) →
  Page.handleKeydown trim fuel today now key w = Page.Return w' →
  selection_valid w'.1.
Proof.
  unfold selection_valid. intros Hsync Hsel Hkey. unfold Page.handleKeydown.
  assert (length (Page.habits w.1) = length (loadHabits w.2)) as Hlen.
  { rewrite <- (length_map (λ row, id row.1)), Hsync. apply length_map. }
  destruct (Page.isAddingHabit w.1 || Page.isEditingHabit w.1).
  { destruct (String.eqb key "Enter").
    - destruct (Page.isAddingHabit w.1); intros [= <-].
      + unfold Page.addHabit.
        destruct (Page.truthy _); [|done]. simpl.
        unfold getAllHabits. rewrite length_map, loadHabits_saveHabits.
        rewrite length_app. simpl. lia.
      + unfold Page.saveHabitEdit.
        destruct (Page.editingHabit w.1) as [row|]; [|done].
        destruct (Page.truthy _); [|done]. simpl.
        unfold getAllHabits. rewrite length_map.
        rewrite <- (length_map id), updateHabit_ids by done.
        rewrite length_map. lia.
    - destruct (String.eqb key "Escape"); by intros [= <-]. }
  destruct (Page.showingDetails w.1 && String.eqb key "Escape");
    [by intros [= <-]|].
  destruct (String.eqb key "j" || String.eqb key "ArrowDown") eqn:Ej.
  { intros [= <-]. simpl.
    destruct Hkey as [Hne|[Hj Ha]].
    - destruct (Page.habits w.1); [done|]. simpl length in *. lia.
    - apply orb_true_iff in Ej as [E|E]; apply String.eqb_eq in E; done. }
  destruct (String.eqb key "k" || String.eqb key "ArrowUp").
  { intros [= <-]. simpl. lia. }
  destruct (String.eqb key " ").
  { unfold Page.toggleHabit.
    destruct (Page.nth_habit _ _) as [row|] eqn:Hrow; [|done].
    destruct (toggleHabitCompletion _ _ _ _ _) as [st|] eqn:Hrun; [|done].
    intros [= <-]. simpl. unfold getAllHabits. rewrite length_map.
    unfold toggleHabitCompletion in Hrun.
    rewrite <- (length_map id), (updateStreak_ids _ _ _ _ _ Hrun).
    rewrite loadHabits_saveCompletions, length_map. lia. }
  destruct (String.eqb key "n"); [by intros [= <-]|].
  destruct (String.eqb key "d").
  { unfold Page.deleteHabit.
    destruct (Page.nth_habit _ _) as [row|] eqn:Hrow; [|done]. cbv zeta.
    destruct (_ >=? _) eqn:E; intros [= <-]; simpl in *; [lia|].
    rewrite Z.geb_leb in E. apply Z.leb_gt in E. lia. }
  destruct (String.eqb key "e").
  { unfold Page.startEditing.
    destruct (Page.nth_habit _ _) as [row|]; [|done]. by intros [= <-]. }
  destruct (String.eqb key "Enter"); by intros [= <-].
Qed.

(** X25.  When the selection is outside the list, as it always is on an empty
    list, the keys space, d and e end in an uncaught [TypeError] that leaves
    the store untouched; and on an empty list the key j moves the selection
    to -1. *)
Theorem page_empty_selection (fuel : nat) (today : Z) (now key : string)
    (w : Page.State * Store) :
  Page.isAddingHabit w.1 = false →
  Page.isEditingHabit w.1 = false →
  (Page.nth_habit (Page.habits w.1) (Page.selectedIndex w.1) = None →
   key = " "%string ∨ key = "d"%string ∨ key = "e"%string →
   ∃ ui', Page.handleKeydown trim fuel today now key w = Page.Throw (ui', w.2))
  ∧ (Page.habits w.1 = [] →
     Page.nth_habit (Page.habits w.1) (Page.selectedIndex w.1) = None
     ∧ Page.handleKeydown trim fuel today now "j" w
       = Page.Return (Page.with_selectedIndex
                        (Z.min (Page.selectedIndex w.1 + 1) (-1)) w.1, w.2)).
Proof.
  intros Hadd Hedit. unfold Page.handleKeydown. rewrite Hadd, Hedit. simpl.
  split.
  - intros Hnone [-> | [-> | ->]]; simpl; rewrite andb_false_r.
    + unfold Page.toggleHabit. rewrite Hnone. exists w.1. by destruct w.
    + unfold Page.deleteHabit. rewrite Hnone. exists w.1. by destruct w.
    + rewrite Hnone. simpl. by eexists.
  - intros Hempty. rewrite Hempty. split.
    + unfold Page.nth_habit. by destruct (_ <? 0).
    + by rewrite andb_false_r.
Qed.
End page.

Lemma page_keeps_integrity_witness :
  referential_integrity empty_store
  ∧ ∃ w', Page.run (λ s, s) 3 sample_events
            (Page.onMount T0 (Page.initial, empty_store)) = Page.Return w'
      ∧ referential_integrity w'.2 ∧ page_synced w'.
Proof.
  assert (referential_integrity empty_store) as Hri.
  { intros date bucket habitId Hlk.
    change (loadCompletions empty_store) with (∅ : Completions) in Hlk.
    by rewrite lookup_empty in Hlk. }
  assert (∃ w', Page.run (λ s, s) 3 sample_events
                  (Page.onMount T0 (Page.initial, empty_store))
                = Page.Return w') as [w' Hrun]
    by (vm_compute; eexists; reflexivity).
  split; [exact Hri|]. exists w'. split; [exact Hrun|].
  exact (page_keeps_integrity (λ s, s) 3 T0 sample_events empty_store w'
           Hri Hrun).
Defined.

Lemma page_selection_stays_valid_witness :
  page_synced sample_page
  ∧ selection_valid sample_page.1
  ∧ (Page.habits sample_page.1 ≠ []
     ∨ (("j" : string) ≠ "j"%string ∧ ("j" : string) ≠ "ArrowDown"%string))
  ∧ Page.handleKeydown (λ s, s) 2 T0 "2024-03-10T08:00:00.000Z" "j" sample_page
    = Page.Return (Page.with_selectedIndex 0 sample_page.1, sample_page.2)
  ∧ selection_valid (Page.with_selectedIndex 0 sample_page.1).
Proof.
  assert (page_synced sample_page) as Hsync by reflexivity.
  assert (selection_valid sample_page.1) as Hsel by (by vm_compute).
  assert (Page.habits sample_page.1 ≠ []
          ∨ (("j" : string) ≠ "j"%string
             ∧ ("j" : string) ≠ "ArrowDown"%string)) as Hkey
    by (left; discriminate).
  assert (Page.handleKeydown (λ s, s) 2 T0 "2024-03-10T08:00:00.000Z" "j"
            sample_page
          = Page.Return (Page.with_selectedIndex 0 sample_page.1,
                         sample_page.2)) as Hrun by reflexivity.
  split; [exact Hsync|]. split; [exact Hsel|]. split; [exact Hkey|].
  split; [exact Hrun|].
  exact (page_selection_stays_valid (λ s, s) 2 T0 _ "j" sample_page _
           Hsync Hsel Hkey Hrun).
Defined.

Lemma page_empty_selection_witness :
  Page.isAddingHabit (Page.onMount T0 (Page.initial, empty_store)).1 = false
  ∧ Page.isEditingHabit (Page.onMount T0 (Page.initial, empty_store)).1 = false
  ∧ (Page.nth_habit
       (Page.habits (Page.onMount T0 (Page.initial, empty_store)).1)
       (Page.selectedIndex (Page.onMount T0 (Page.initial, empty_store)).1)
     = None →
     (" " : string) = " "%string ∨ (" " : string) = "d"%string
     ∨ (" " : string) = "e"%string →
     ∃ ui', Page.handleKeydown (λ s, s) 2 T0 "2024-03-10T08:00:00.000Z" " "
              (Page.onMount T0 (Page.initial, empty_store))
            = Page.Throw (ui', (Page.onMount T0 (Page.initial, empty_store)).2))
  ∧ (Page.habits (Page.onMount T0 (Page.initial, empty_store)).1 = [] →
     Page.nth_habit
       (Page.habits (Page.onMount T0 (Page.initial, empty_store)).1)
       (Page.selectedIndex (Page.onMount T0 (Page.initial, empty_store)).1)
     = None
     ∧ Page.handleKeydown (λ s, s) 2 T0 "2024-03-10T08:00:00.000Z" "j"
         (Page.onMount T0 (Page.initial, empty_store))
       = Page.Return
           (Page.with_selectedIndex
              (Z.min
                 (Page.selectedIndex
                    (Page.onMount T0 (Page.initial, empty_store)).1 + 1) (-1))
              (Page.onMount T0 (Page.initial, empty_store)).1,
            (Page.onMount T0 (Page.initial, empty_store)).2)).
Proof.
  split; [reflexivity|]. split; [reflexivity|].
  exact (page_empty_selection (λ s, s) 2 T0 "2024-03-10T08:00:00.000Z" " "
           (Page.onMount T0 (Page.initial, empty_store)) eq_refl eq_refl).
Defined.

(** ** What the statistics count as the current period *)

Lemma getHabitStats_daily_witness :
  find_habit 1 (loadHabits three_day_store) = Some (exercise daily)
  ∧ frequency (exercise daily) = daily
  ∧ (Stats.completed (getHabitStats T0 1 three_day_store).1 = 1
     ↔ completed_on (loadCompletions three_day_store) 1 T0).
Proof.
  split; [reflexivity|]. split; [reflexivity|].
  exact (getHabitStats_daily T0 1 three_day_store (exercise daily)
           eq_refl eq_refl).
Defined.


(** ** Time values and time zones *)

Lemma MakeDate_Day (t : Z) : MakeDate (Day t) (TimeWithinDay t) = t.
Proof. unfold MakeDate, Day, TimeWithinDay, msPerDay. div_lia. Qed.

Lemma Day_MakeDate (day time : Z) :
  0 ≤ time < msPerDay → Day (MakeDate day time) = day.
Proof. unfold MakeDate, Day, msPerDay. intros Ht. div_lia. Qed.

Lemma Day_back (t : Z) : Day (t - msPerDay) = Day t - 1.
Proof. unfold Day, msPerDay. div_lia. Qed.

Lemma days_from_civil_day (y m d : Z) :
  days_from_civil y m d = days_from_civil y m 1 + d - 1.
Proof.
  unfold days_from_civil. cbv zeta.
  destruct (m <=? 2); destruct (m >? 2); lia.
Qed.

(** [MakeDay] on the year and month of a day reaches the days around it. *)
Lemma MakeDay_fields (date dt : Z) :
  MakeDay (getFullYear date) (getMonth date) dt = date + dt - getDate date.
Proof.
  unfold MakeDay. pose proof (getMonth_range date) as Hm.
  replace (getMonth date / 12) with 0 by div_lia.
  replace (getMonth date mod 12) with (getMonth date) by div_lia.
  rewrite Z.add_0_r.
  pose proof (days_from_civil_from_days date) as Hround.
  rewrite days_from_civil_day in Hround.
  unfold getFullYear, getMonth, getDate.
  replace ((civil_from_days date).1.2 - 1 + 1)
    with (civil_from_days date).1.2 by lia.
  lia.
Qed.

(** [setDate(getDate() - 1)] takes the local time one day back and reads
    the result in the zone. *)
Lemma zoned_setDate_back (zone : Zone) (t : Z) :
  Zoned.setDate zone t (Zoned.getDate zone t - 1)
  = UTC zone (LocalTime zone t - msPerDay).
Proof.
  unfold Zoned.setDate, Zoned.getDate, Zoned.local_day. cbv zeta.
  rewrite MakeDay_fields. f_equal.
  pose proof (MakeDate_Day (LocalTime zone t)) as Hsplit.
  unfold MakeDate in *. lia.
Qed.

(** Without clock changes that is one day back on the UTC scale too. *)
Lemma zoned_setDate_fixed (offset t : Z) :
  Zoned.setDate (fixed_zone offset) t (Zoned.getDate (fixed_zone offset) t - 1)
  = t - msPerDay.
Proof. rewrite zoned_setDate_back. unfold UTC, LocalTime. simpl. lia. Qed.

Lemma zoned_local_day_utc (t : Z) : Zoned.local_day utc_zone t = Day t.
Proof. unfold Zoned.local_day, LocalTime. simpl. by rewrite Z.add_0_r. Qed.

Lemma zoned_key_day_utc (key : Z) : Zoned.key_day utc_zone key = key.
Proof.
  unfold Zoned.key_day, Zoned.new_Date. rewrite zoned_local_day_utc.
  apply Day_MakeDate. unfold msPerDay. lia.
Qed.

Lemma zoned_getWeekNumber (zone : Zone) (date : Z) :
  Zoned.getWeekNumber zone date = getWeekNumber (Zoned.local_day zone date).
Proof.
  unfold Zoned.getWeekNumber, getWeekNumber, Zoned.getFullYear,
    Zoned.getMonth, Zoned.getDate.
  reflexivity.
Qed.

(** ** The loops under a change of representation *)

Lemma count_back_map {P Q : Type} (f : P → Q) (found : P → bool)
    (prev : P → P) (found' : Q → bool) (prev' : Q → Q) (fuel : nat) (p : P)
    (s : Z) :
  (∀ p, found p = found' (f p)) →
  (∀ p, f (prev p) = prev' (f p)) →
  count_back found prev fuel p s = count_back found' prev' fuel (f p) s.
Proof.
  intros Hfound Hprev. revert p s.
  induction fuel as [|fuel IH]; intros p s; [done|]. simpl.
  rewrite <- Hfound. destruct (found p); [|done]. by rewrite IH, Hprev.
Qed.

Lemma keys_some_ext (p q : Z → bool) (completions : Completions)
    (habitId : Z) :
  (∀ key, p key = q key) →
  keys_some p completions habitId = keys_some q completions habitId.
Proof.
  intros Hpq. unfold keys_some. apply eq_true_iff_eq.
  rewrite !existsb_exists. split; intros (kv & Hin & Hkv); exists kv;
    (split; [done|]); [by rewrite <- Hpq | by rewrite Hpq].
Qed.

(** In a zone without clock changes the daily loop walks the keys one day
    at a time. *)
Lemma zoned_daily_streak_fixed (offset : Z) (fuel : nat)
    (completions : Completions) (habitId now : Z) :
  Zoned.daily_streak (fixed_zone offset) fuel completions habitId now
  = daily_streak fuel completions habitId (Day now).
Proof.
  unfold Zoned.daily_streak, daily_streak.
  apply (count_back_map Day); intros t; [done|].
  by rewrite zoned_setDate_fixed, Day_back.
Qed.

Lemma zoned_weekly_streak_utc (fuel : nat) (completions : Completions)
    (habitId now : Z) :
  Zoned.weekly_streak utc_zone fuel completions habitId now
  = weekly_streak fuel completions habitId (Day now).
Proof.
  unfold Zoned.weekly_streak, weekly_streak.
  rewrite zoned_getWeekNumber, zoned_local_day_utc.
  apply (count_back_map (λ w, w)); intros w; [|done].
  apply keys_some_ext. intros key.
  rewrite zoned_getWeekNumber. fold (Zoned.key_day utc_zone key).
  by rewrite zoned_key_day_utc.
Qed.

Lemma zoned_monthly_streak_utc (fuel : nat) (completions : Completions)
    (habitId now : Z) :
  Zoned.monthly_streak utc_zone fuel completions habitId now
  = monthly_streak fuel completions habitId (Day now).
Proof.
  unfold Zoned.monthly_streak, monthly_streak, Zoned.getMonth,
    Zoned.getFullYear.
  rewrite zoned_local_day_utc.
  apply (count_back_map (λ my, my)); intros [m y]; [|done].
  apply keys_some_ext. intros key.
  fold (Zoned.key_day utc_zone key). by rewrite zoned_key_day_utc.
Qed.

Lemma zoned_isCompleted_utc (habit : Habit) (completions : Completions)
    (now habitId : Z) :
  Zoned.isCompleted utc_zone habit completions now
    (Zoned.getTodayKey now) habitId
  = isCompleted habit completions (Day now) habitId.
Proof.
  unfold Zoned.isCompleted, isCompleted. destruct (frequency habit);
    [done| |]; cbv zeta.
  - rewrite zoned_getWeekNumber, zoned_local_day_utc.
    apply keys_some_ext. intros key.
    rewrite zoned_getWeekNumber. fold (Zoned.key_day utc_zone key).
    by rewrite zoned_key_day_utc.
  - unfold Zoned.getMonth. rewrite zoned_local_day_utc.
    apply keys_some_ext. intros key.
    fold (Zoned.key_day utc_zone key). by rewrite zoned_key_day_utc.
Qed.

(** The functions written out for a UTC clock are the functions of [Zoned]
    at [utc_zone], on the day number of the clock reading. *)
Lemma zoned_at_utc (fuel : nat) (now habitId : Z) (completed : bool)
    (st : Store) :
  Zoned.updateStreak utc_zone fuel now habitId st
  = updateStreak fuel (Day now) habitId st
  ∧ Zoned.toggleHabitCompletion utc_zone fuel now habitId completed st
    = toggleHabitCompletion fuel (Day now) habitId completed st
  ∧ Zoned.getHabitStats utc_zone now habitId st
    = getHabitStats (Day now) habitId st.
Proof.
  assert (∀ st, Zoned.updateStreak utc_zone fuel now habitId st
                = updateStreak fuel (Day now) habitId st) as Hupdate.
  { intros st0. unfold Zoned.updateStreak, updateStreak.
    destruct (find_habit habitId (loadHabits st0)) as [habit|]; [|done].
    cbv zeta.
    replace (Zoned.computeStreak utc_zone fuel habit (loadCompletions st0)
               habitId now)
      with (computeStreak fuel habit (loadCompletions st0) habitId (Day now));
      [done|].
    unfold Zoned.computeStreak, computeStreak. destruct (frequency habit).
    - symmetry. apply (zoned_daily_streak_fixed 0).
    - symmetry. apply zoned_weekly_streak_utc.
    - symmetry. apply zoned_monthly_streak_utc. }
  split; [apply Hupdate|]. split.
  - unfold Zoned.toggleHabitCompletion, toggleHabitCompletion. cbv zeta.
    apply Hupdate.
  - unfold Zoned.getHabitStats, getHabitStats.
    destruct (find_habit habitId (loadHabits st)) as [habit|]; [|done].
    cbv zeta. by rewrite zoned_isCompleted_utc.
Qed.

(** ** The store after a recomputation in a zone *)

Lemma zoned_computeStreak_more_fuel (zone : Zone) (fuel fuel' : nat)
    (habit : Habit) (completions : Completions) (habitId now r : Z) :
  Zoned.computeStreak zone fuel habit completions habitId now = Some r →
  (fuel ≤ fuel')%nat →
  Zoned.computeStreak zone fuel' habit completions habitId now = Some r.
Proof.
  unfold Zoned.computeStreak, Zoned.daily_streak, Zoned.weekly_streak,
    Zoned.monthly_streak.
  destruct (frequency habit); apply count_back_more_fuel.
Qed.

Lemma zoned_updateStreak_found (zone : Zone) (fuel : nat) (now habitId s : Z)
    (st : Store) (habit : Habit) :
  find_habit habitId (loadHabits st) = Some habit →
  Zoned.computeStreak zone fuel habit (loadCompletions st) habitId now
  = Some s →
  ∃ st',
    Zoned.updateStreak zone fuel now habitId st = Some st'
    ∧ find_habit habitId (loadHabits st') = Some (set_streak s habit)
    ∧ loadCompletions st' = loadCompletions st.
Proof.
  intros Hfind Hs. unfold Zoned.updateStreak. rewrite Hfind. cbv zeta.
  rewrite Hs. simpl.
  pose proof (findIndex_find habitId (loadHabits st)) as Hidx.
  destruct (findIndex habitId (loadHabits st)) as [index|] eqn:Hi;
    [|congruence].
  eexists. split; [done|]. split; [|done].
  rewrite loadHabits_saveHabits.
  rewrite (find_habit_alter (set_streak s) _ _ _ (λ _, eq_refl) Hi).
  by rewrite Hfind.
Qed.

Lemma zoned_updateStreak_inv (zone : Zone) (fuel : nat) (now habitId : Z)
    (st st' : Store) (habit : Habit) :
  find_habit habitId (loadHabits st) = Some habit →
  Zoned.updateStreak zone fuel now habitId st = Some st' →
  ∃ s,
    Zoned.computeStreak zone fuel habit (loadCompletions st) habitId now
    = Some s
    ∧ find_habit habitId (loadHabits st') = Some (set_streak s habit)
    ∧ loadCompletions st' = loadCompletions st.
Proof.
  intros Hfind Hrun.
  destruct (Zoned.computeStreak zone fuel habit (loadCompletions st) habitId
              now) as [s|] eqn:Hs.
  - destruct (zoned_updateStreak_found _ _ _ _ _ _ _ Hfind Hs)
      as (st'' & Hrun' & Hfind' & Hcompl).
    rewrite Hrun in Hrun'. injection Hrun' as <-. by exists s.
  - unfold Zoned.updateStreak in Hrun. rewrite Hfind in Hrun.
    cbv zeta in Hrun. by rewrite Hs in Hrun.
Qed.

Lemma zoned_updateStreak_more_fuel (zone : Zone) (fuel fuel' : nat)
    (now habitId : Z) (st st' : Store) :
  Zoned.updateStreak zone fuel now habitId st = Some st' →
  (fuel ≤ fuel')%nat →
  Zoned.updateStreak zone fuel' now habitId st = Some st'.
Proof.
  intros Hrun Hle.
  destruct (find_habit habitId (loadHabits st)) as [habit|] eqn:Hfind.
  - destruct (zoned_updateStreak_inv _ _ _ _ _ _ _ Hfind Hrun)
      as (s & Hs & _).
    pose proof (zoned_computeStreak_more_fuel _ _ _ _ _ _ _ _ Hs Hle) as Hs'.
    unfold Zoned.updateStreak in *. rewrite Hfind in *. cbv zeta in *.
    rewrite Hs in Hrun. by rewrite Hs'.
  - unfold Zoned.updateStreak in *. by rewrite Hfind in *.
Qed.

Lemma zoned_toggleHabitCompletion_more_fuel (zone : Zone) (fuel fuel' : nat)
    (now habitId : Z) (completed : bool) (st st' : Store) :
  Zoned.toggleHabitCompletion zone fuel now habitId completed st = Some st' →
  (fuel ≤ fuel')%nat →
  Zoned.toggleHabitCompletion zone fuel' now habitId completed st = Some st'.
Proof. unfold Zoned.toggleHabitCompletion. apply zoned_updateStreak_more_fuel. Qed.

(** A toggle that returns has written today's bucket and, for a habit that
    exists, the streak that the loop of its frequency computes on the index
    just written. *)
Lemma zoned_toggleHabitCompletion_inv (zone : Zone) (fuel : nat)
    (now habitId : Z) (completed : bool) (st st' : Store) (habit : Habit) :
  find_habit habitId (loadHabits st) = Some habit →
  Zoned.toggleHabitCompletion zone fuel now habitId completed st = Some st' →
  loadCompletions st'
  = toggle_bucket (Zoned.getTodayKey now) habitId completed
      (loadCompletions st)
  ∧ ∃ s,
      Zoned.computeStreak zone fuel habit (loadCompletions st') habitId now
      = Some s
      ∧ find_habit habitId (loadHabits st') = Some (set_streak s habit).
Proof.
  intros Hfind Hrun. unfold Zoned.toggleHabitCompletion in Hrun.
  cbv zeta in Hrun.
  apply (zoned_updateStreak_inv _ _ _ _ _ _ habit) in Hrun
    as (s & Hs & Hfind' & Hcompl); [|done].
  rewrite loadCompletions_saveCompletions in Hcompl, Hs.
  split; [done|]. exists s. by rewrite Hcompl.
Qed.

(** ** Termination in a zone

    The weekly and the monthly loop stop within as many iterations as the
    index has keys, whatever the zone.  For the daily loop this is shown
    for the zones without clock changes: across a clock change a key can
    be read twice, and after a skipped local day [setDate] can leave the
    [Date] where it was. *)

(** Where the local time one day back is read with an offset one day
    behind the current one, [setDate(getDate() - 1)] returns the time value
    it was given. *)
Lemma zoned_setDate_skipped_day (zone : Zone) (t : Z) :
  LocalTZA zone (LocalTime zone t - msPerDay) false
  = LocalTZA zone t true - msPerDay →
  Zoned.setDate zone t (Zoned.getDate zone t - 1) = t.
Proof.
  intros Hskip. rewrite zoned_setDate_back. unfold UTC.
  rewrite Hskip. unfold LocalTime. lia.
Qed.

(** A loop whose steps decrease a measure that is never negative where a
    period counts. *)
Lemma count_back_measure {P : Type} (found : P → bool) (prev : P → P)
    (measure : P → Z) (fuel : nat) (p : P) (s : Z) :
  (∀ p, found p = true → 0 ≤ measure p ∧ measure (prev p) < measure p) →
  (Z.to_nat (measure p + 1) < fuel)%nat →
  is_Some (count_back found prev fuel p s).
Proof.
  intros Hstep. revert p s.
  induction fuel as [|fuel IH]; intros p s Hfuel; [lia|]. simpl.
  destruct (found p) eqn:Hf; [|by eexists].
  destruct (Hstep p Hf) as [Hpos Hlt]. apply IH. lia.
Qed.

Lemma keys_bounded_below (completions : Completions) :
  ∃ lo, ∀ key, is_Some (completions !! key) → lo ≤ key.
Proof.
  induction completions as [|key bucket completions Hfresh _ [lo Hlo]]
    using map_first_key_ind.
  - exists 0. intros key [bucket Hlk]. by rewrite lookup_empty in Hlk.
  - exists (Z.min lo key). intros key' [bucket' Hlk].
    apply lookup_insert_Some in Hlk as [[<- _]|[_ Hlk]]; [lia|].
    assert (lo ≤ key') by (apply Hlo; by eexists). lia.
Qed.

(** In a zone whose steps go back in time the daily loop returns: it can
    read a key more than once, but it cannot stay above the first key of
    the index for ever. *)
Lemma zoned_daily_streak_returns (zone : Zone) (completions : Completions)
    (habitId now : Z) :
  steps_back zone →
  ∃ fuel, ∀ fuel', (fuel ≤ fuel')%nat →
    is_Some (Zoned.daily_streak zone fuel' completions habitId now).
Proof.
  intros Hback. destruct (keys_bounded_below completions) as [lo Hlo].
  exists (S (Z.to_nat (now - lo * msPerDay + 1))). intros fuel' Hfuel.
  unfold Zoned.daily_streak.
  apply (count_back_measure _ _ (λ t, t - lo * msPerDay)); [|lia].
  intros t Hf. apply bucket_includes_spec in Hf as (bucket & Hlk & _).
  assert (lo ≤ Day t) as Hday by (apply Hlo; by eexists).
  rewrite zoned_setDate_back. specialize (Hback t).
  unfold UTC, LocalTime, Day, msPerDay in *. split; [div_lia|lia].
Qed.

Lemma fixed_zone_steps_back (offset : Z) : steps_back (fixed_zone offset).
Proof. intros t. simpl. unfold msPerDay. lia. Qed.

Lemma new_york_steps_back : steps_back new_york.
Proof.
  intros t. unfold new_york, msPerDay, msPerHour. simpl.
  repeat destruct (_ && _); lia.
Qed.

Lemma zoned_weekly_streak_terminates (zone : Zone) (fuel : nat)
    (completions : Completions) (habitId now : Z) :
  (size completions < fuel)%nat →
  is_Some (Zoned.weekly_streak zone fuel completions habitId now).
Proof.
  intros Hfuel. unfold Zoned.weekly_streak.
  apply (count_back_terminates _ _ completions (key_week_upto zone));
    [| |done].
  - intros w Hf. apply keys_some_spec in Hf as (date & bucket & Hlk & Hw & _).
    apply Z.eqb_eq in Hw. rewrite zoned_getWeekNumber in Hw.
    exists date. unfold key_week_upto, week_upto, Zoned.key_day.
    split_and!; [by eexists | lia | lia].
  - intros w k. unfold key_week_upto, week_upto. lia.
Qed.

Lemma zoned_monthly_streak_terminates (zone : Zone) (fuel : nat)
    (completions : Completions) (habitId now : Z) :
  (size completions < fuel)%nat →
  is_Some (Zoned.monthly_streak zone fuel completions habitId now).
Proof.
  intros Hfuel. unfold Zoned.monthly_streak.
  apply (count_back_terminates _ _ completions (key_month_upto zone));
    [| |done].
  - intros [m y] Hf.
    apply keys_some_spec in Hf as (date & bucket & Hlk & Hmy & _).
    apply andb_true_iff in Hmy as [Hm Hy].
    apply Z.eqb_eq in Hm, Hy. unfold Zoned.getMonth in Hm.
    unfold Zoned.getFullYear in Hy. exists date.
    split_and!; [by eexists | |];
      unfold key_month_upto, month_upto, prev_month, Zoned.key_day; simpl.
    + lia.
    + destruct (m - 1 <? 0) eqn:E; simpl; lia.
  - intros [m y] k. unfold key_month_upto, month_upto, prev_month.
    destruct (m - 1 <? 0) eqn:E; simpl; lia.
Qed.

Lemma zoned_computeStreak_terminates (zone : Zone) (fuel : nat)
    (habit : Habit) (completions : Completions) (habitId now : Z) :
  frequency habit ≠ daily ∨ (∃ offset, zone = fixed_zone offset) →
  (size completions < fuel)%nat →
  is_Some (Zoned.computeStreak zone fuel habit completions habitId now).
Proof.
  intros Hzone Hfuel. unfold Zoned.computeStreak.
  destruct (frequency habit).
  - destruct Hzone as [?|[offset ->]]; [done|].
    rewrite zoned_daily_streak_fixed. by apply daily_streak_terminates.
  - by apply zoned_weekly_streak_terminates.
  - by apply zoned_monthly_streak_terminates.
Qed.

Lemma zoned_updateStreak_is_Some (zone : Zone) (fuel : nat)
    (now habitId : Z) (st : Store) :
  (∀ habit, find_habit habitId (loadHabits st) = Some habit →
     frequency habit ≠ daily)
  ∨ (∃ offset, zone = fixed_zone offset) →
  (size (loadCompletions st) < fuel)%nat →
  is_Some (Zoned.updateStreak zone fuel now habitId st).
Proof.
  intros Hzone Hfuel.
  destruct (find_habit habitId (loadHabits st)) as [habit|] eqn:Hfind.
  - destruct (zoned_computeStreak_terminates zone fuel habit
                (loadCompletions st) habitId now) as [s Hs]; [|done|].
    { destruct Hzone as [Hfreq|?]; [left; by apply Hfreq | by right]. }
    destruct (zoned_updateStreak_found _ _ _ _ _ _ _ Hfind Hs)
      as (st' & -> & _). by eexists.
  - unfold Zoned.updateStreak. rewrite Hfind. by eexists.
Qed.

Lemma zoned_computeStreak_never (zone : Zone) (fuel : nat) (habit : Habit)
    (completions : Completions) (habitId now : Z) :
  never_completed completions habitId →
  Zoned.computeStreak zone (S fuel) habit completions habitId now = Some 0.
Proof.
  intros Hnever.
  unfold Zoned.computeStreak, Zoned.daily_streak, Zoned.weekly_streak,
    Zoned.monthly_streak.
  destruct (frequency habit); apply count_back_gap.
  - by apply bucket_includes_never.
  - by apply keys_some_never.
  - by apply keys_some_never.
Qed.

(** In every zone whose steps go back in time [updateStreak] returns, with
    the same store for any larger fuel, and with no completion recorded for
    the habit the streak it writes is 0. *)
Lemma zoned_updateStreak_returns (zone : Zone) (now habitId : Z)
    (st : Store) :
  steps_back zone →
  ∃ (fuel : nat) (st' : Store),
    (∀ fuel', (fuel ≤ fuel')%nat →
       Zoned.updateStreak zone fuel' now habitId st = Some st')
    ∧ (never_completed (loadCompletions st) habitId →
       ∀ habit, find_habit habitId (loadHabits st) = Some habit →
         find_habit habitId (loadHabits st') = Some (set_streak 0 habit)).
Proof.
  intros Hback.
  destruct (find_habit habitId (loadHabits st)) as [habit|] eqn:Hfind.
  - assert (∃ fuel, is_Some (Zoned.computeStreak zone (S fuel) habit
                               (loadCompletions st) habitId now))
      as (fuel & s & Hs).
    { unfold Zoned.computeStreak. destruct (frequency habit).
      - destruct (zoned_daily_streak_returns zone (loadCompletions st)
                    habitId now Hback) as (fuel & Hfuel).
        exists fuel. apply Hfuel. lia.
      - exists (size (loadCompletions st)).
        apply zoned_weekly_streak_terminates. lia.
      - exists (size (loadCompletions st)).
        apply zoned_monthly_streak_terminates. lia. }
    destruct (zoned_updateStreak_found _ _ _ _ _ _ _ Hfind Hs)
      as (st' & Hrun & Hfind' & _).
    exists (S fuel), st'. split.
    + intros fuel' Hle. by apply (zoned_updateStreak_more_fuel _ (S fuel)).
    + intros Hnever habit' [= <-].
      rewrite (zoned_computeStreak_never zone fuel habit _ _ now Hnever)
        in Hs.
      by injection Hs as <-.
  - exists 0%nat, st. split.
    + intros fuel' _. unfold Zoned.updateStreak. by rewrite Hfind.
    + intros _ habit. congruence.
Qed.

(** ** The daily streak across a clock change *)

Lemma completed_on_includes (completions : Completions) (habitId date : Z) :
  completed_on completions habitId date
  ↔ bucket_includes completions date habitId = true.
Proof. unfold completed_on. by rewrite bucket_includes_spec. Qed.

(** C1.  The daily loop reads the UTC day of [currentDate] as its key and
    steps the local day.  In New York at 2024-11-04T00:30Z, in the evening
    of the day the clock went back, with habit 1 completed under the key
    2024-11-02: marking the habit complete records it under 2024-11-04, and
    the recomputation reads 2024-11-04, steps to 2024-11-02T23:30Z, reads
    2024-11-02 and writes streak 2.  The day 2024-11-03 has no completion:
    counted from the reference day 2024-11-04 one day at a time, the number
    of consecutive completed days is 1. *)
Theorem daily_streak_skips_day :
  let now := instant 2024 11 4 0 30 in
  let today := Zoned.getTodayKey now in
  ∃ (st' : Store) (habit' : Habit),
    (∀ fuel, (3 ≤ fuel)%nat →
       Zoned.toggleHabitCompletion new_york fuel now 1 true november_store
       = Some st')
    ∧ today = days_from_civil 2024 11 4
    ∧ loadCompletions st'
      = <[days_from_civil 2024 11 4 := [1]]>
          (<[days_from_civil 2024 11 2 := [1]]> ∅)
    ∧ find_habit 1 (loadHabits st') = Some habit'
    ∧ frequency habit' = daily
    ∧ streak habit' = 2
    ∧ ¬ completed_on (loadCompletions st') 1 (today - 1)
    ∧ consecutive_days (loadCompletions st') 1 today 1.
Proof.
  intros now today.
  exists (mkStore (Some [set_streak 2 (exercise daily)])
            (Some (<[days_from_civil 2024 11 4 := [1]]>
                     (<[days_from_civil 2024 11 2 := [1]]> ∅)))).
  exists (set_streak 2 (exercise daily)).
  assert (¬ completed_on
              (<[days_from_civil 2024 11 4 := [1]]>
                 (<[days_from_civil 2024 11 2 := [1]]> (∅ : Completions)))
              1 (today - 1)) as Hgap.
  { rewrite completed_on_includes. by vm_compute. }
  split_and!; try done.
  - intros fuel Hfuel.
    apply (zoned_toggleHabitCompletion_more_fuel _ 3); [|done].
    vm_compute. reflexivity.
  - split; [|exact Hgap].
    intros [|i] Hi; [|lia]. rewrite completed_on_includes. by vm_compute.
Qed.

(** C5.  In New York at 2024-03-10T23:30Z, in the evening of the day the
    clock went forward: adding "Exercise" (daily, target 1) to the
    empty, initialized store returns id 1 and stores the habit with streak
    0; completing it records one completion, under the key 2024-03-10; the
    recomputation reads that key, steps the local day back to
    2024-03-10T00:30Z, reads the same key again and writes streak 2, which
    [getHabitStats] then returns. *)
Theorem exercise_scenario_new_york :
  let now := instant 2024 3 10 23 30 in
  let today := Zoned.getTodayKey now in
  ∃ st1 st2 : Store,
    addHabit "Exercise" daily 1 "general" None None
             "2024-03-10T23:30:00.000Z" empty_store = (1, st1)
    ∧ loadHabits st1
      = [mkHabit 1 "Exercise" daily 1 0 "general" "2024-03-10T23:30:00.000Z"
                 None None]
    ∧ (∀ fuel, (3 ≤ fuel)%nat →
         Zoned.toggleHabitCompletion new_york fuel now 1 true st1 = Some st2)
    ∧ today = days_from_civil 2024 3 10
    ∧ loadCompletions st2 = <[days_from_civil 2024 3 10 := [1]]> ∅
    ∧ consecutive_days (loadCompletions st2) 1 today 1
    ∧ Zoned.getHabitStats new_york now 1 st2 = (Stats.mk 2 1 1 100, st2).
Proof.
  intros now today.
  set (h0 := mkHabit 1 "Exercise" daily 1 0 "general"
                     "2024-03-10T23:30:00.000Z" None None).
  exists (mkStore (Some [h0]) (Some ∅)).
  exists (mkStore (Some [set_streak 2 h0])
            (Some (<[days_from_civil 2024 3 10 := [1]]> ∅))).
  split_and!; try done.
  - intros fuel Hfuel.
    apply (zoned_toggleHabitCompletion_more_fuel _ 3); [|done].
    vm_compute. reflexivity.
  - split.
    + intros [|i] Hi; [|lia]. rewrite completed_on_includes. by vm_compute.
    + rewrite completed_on_includes. by vm_compute.
Qed.

(** X29.  In a zone without clock changes, for a daily habit, the streak
    that [updateStreak] writes is the number of consecutive days, counted
    backwards from today's key one day at a time, whose bucket contains the
    habit's id, up to the first missing day.  In particular completions on
    T, T-1, T-2 and none on T-3 give 3, and no completion on T gives 0. *)
Theorem daily_streak_fixed_zone (offset : Z) (fuel : nat) (now habitId : Z)
    (st : Store) (habit : Habit) :
  find_habit habitId (loadHabits st) = Some habit →
  frequency habit = daily →
  (size (loadCompletions st) < fuel)%nat →
  let today := Zoned.getTodayKey now in
  ∃ (n : nat) (st' : Store) (habit' : Habit),
    Zoned.updateStreak (fixed_zone offset) fuel now habitId st = Some st'
    ∧ find_habit habitId (loadHabits st') = Some habit'
    ∧ habit' = set_streak (Z.of_nat n) habit
    ∧ streak habit' = Z.of_nat n
    ∧ consecutive_days (loadCompletions st) habitId today n
    ∧ (completed_on (loadCompletions st) habitId today →
       completed_on (loadCompletions st) habitId (today - 1) →
       completed_on (loadCompletions st) habitId (today - 2) →
       ¬ completed_on (loadCompletions st) habitId (today - 3) →
       n = 3%nat)
    ∧ (¬ completed_on (loadCompletions st) habitId today → n = 0%nat).
Proof.
  intros Hfind Hfreq Hfuel today.
  destruct (daily_streak_terminates fuel (loadCompletions st) habitId today
              Hfuel) as [s Hs].
  assert (Zoned.computeStreak (fixed_zone offset) fuel habit
            (loadCompletions st) habitId now = Some s) as Hs'.
  { unfold Zoned.computeStreak. rewrite Hfreq.
    by rewrite zoned_daily_streak_fixed. }
  destruct (zoned_updateStreak_found _ _ _ _ _ _ _ Hfind Hs')
    as (st' & Hrun & Hfind' & _).
  apply daily_streak_consecutive in Hs as (n & -> & Hn).
  exists n, st', (set_streak (Z.of_nat n) habit).
  split_and!; [done..| |].
  - intros H0 H1 H2 H3.
    apply (consecutive_days_unique _ _ _ _ _ Hn). split; [|done].
    intros [|[|[|i]]] Hi; [| | |lia].
    + by replace (today - Z.of_nat 0) with today by lia.
    + by replace (today - Z.of_nat 1) with (today - 1) by lia.
    + by replace (today - Z.of_nat 2) with (today - 2) by lia.
  - intros H0. apply (consecutive_days_unique _ _ _ _ _ Hn). split.
    + intros i Hi. lia.
    + by replace (today - Z.of_nat 0) with today by lia.
Qed.

Lemma daily_streak_fixed_zone_witness :
  find_habit 1 (loadHabits three_day_store) = Some (exercise daily)
  ∧ frequency (exercise daily) = daily
  ∧ (size (loadCompletions three_day_store) < 5)%nat
  ∧ Zoned.getTodayKey (instant 2024 3 10 20 0) = T0
  ∧ Zoned.updateStreak kolkata 5 (instant 2024 3 10 20 0) 1 three_day_store
    = Some (saveHabits [set_streak 3 (exercise daily)] three_day_store)
  ∧ ∃ (n : nat) (st' : Store) (habit' : Habit),
      Zoned.updateStreak kolkata 5 (instant 2024 3 10 20 0) 1 three_day_store
      = Some st'
      ∧ find_habit 1 (loadHabits st') = Some habit'
      ∧ habit' = set_streak (Z.of_nat n) (exercise daily)
      ∧ streak habit' = Z.of_nat n
      ∧ consecutive_days (loadCompletions three_day_store) 1 T0 n
      ∧ (completed_on (loadCompletions three_day_store) 1 T0 →
         completed_on (loadCompletions three_day_store) 1 (T0 - 1) →
         completed_on (loadCompletions three_day_store) 1 (T0 - 2) →
         ¬ completed_on (loadCompletions three_day_store) 1 (T0 - 3) →
         n = 3%nat)
      ∧ (¬ completed_on (loadCompletions three_day_store) 1 T0 → n = 0%nat).
Proof.
  split; [reflexivity|]. split; [reflexivity|]. split; [vm_compute; lia|].
  split; [reflexivity|]. split; [vm_compute; reflexivity|].
  apply (daily_streak_fixed_zone (5 * msPerHour + 30 * 60000) 5
           (instant 2024 3 10 20 0) 1 three_day_store (exercise daily));
    [reflexivity | reflexivity | vm_compute; lia].
Defined.

(** X30.  In a zone without clock changes, from the empty, initialized
    store: adding "Exercise" (daily, target 1) returns id 1 and stores the
    habit with streak 0; after it is completed its statistics, read on the
    same UTC day, are [{streak: 1, completed: 1, total_required: 1,
    completion_rate: 100}]; after it is un-completed on that day they are
    [{streak: 0, completed: 0, total_required: 1, completion_rate: 0}]. *)
Theorem exercise_scenario_fixed_zone (offset : Z) (fuel : nat)
    (now1 now2 now3 now4 : Z) (created : string) :
  (2 ≤ fuel)%nat →
  Zoned.getTodayKey now2 = Zoned.getTodayKey now1 →
  Zoned.getTodayKey now3 = Zoned.getTodayKey now1 →
  Zoned.getTodayKey now4 = Zoned.getTodayKey now1 →
  ∃ st1 st2 st3 : Store,
    addHabit "Exercise" daily 1 "general" None None created empty_store
    = (1, st1)
    ∧ loadHabits st1
      = [mkHabit 1 "Exercise" daily 1 0 "general" created None None]
    ∧ Zoned.toggleHabitCompletion (fixed_zone offset) fuel now1 1 true st1
      = Some st2
    ∧ Zoned.getHabitStats (fixed_zone offset) now2 1 st2
      = (Stats.mk 1 1 1 100, st2)
    ∧ Zoned.toggleHabitCompletion (fixed_zone offset) fuel now3 1 false st2
      = Some st3
    ∧ Zoned.getHabitStats (fixed_zone offset) now4 1 st3
      = (Stats.mk 0 0 1 0, st3).
Proof.
  intros Hfuel Hnow2 Hnow3 Hnow4.
  set (today := Zoned.getTodayKey now1) in *.
  set (h0 := mkHabit 1 "Exercise" daily 1 0 "general" created None None).
  exists (mkStore (Some [h0]) (Some ∅)).
  exists (mkStore (Some [set_streak 1 h0]) (Some (<[today := [1]]> ∅))).
  exists (mkStore (Some [set_streak 0 (set_streak 1 h0)])
                  (Some (<[today := []]> ∅))).
  split; [reflexivity|]. split; [reflexivity|]. split_and!.
  - unfold Zoned.toggleHabitCompletion, Zoned.updateStreak. cbv zeta.
    rewrite loadCompletions_saveCompletions, loadHabits_saveCompletions.
    change (loadCompletions _) with (∅ : Completions).
    fold today. rewrite toggle_bucket_true, lookup_empty.
    change (find_habit 1 (loadHabits _)) with (Some h0). cbv beta iota.
    change (Zoned.computeStreak (fixed_zone offset) fuel h0)
      with (Zoned.daily_streak (fixed_zone offset) fuel).
    rewrite zoned_daily_streak_fixed.
    change (Day now1) with today.
    rewrite daily_streak_today_only by done. reflexivity.
  - unfold Zoned.getHabitStats.
    change (find_habit 1 (loadHabits _)) with (Some (set_streak 1 h0)).
    cbv beta iota zeta. rewrite Hnow2.
    change (Zoned.isCompleted _ _ ?c _ ?k ?i) with (bucket_includes c k i).
    change (loadCompletions _) with (<[today := [1]]> (∅ : Completions)).
    rewrite bucket_includes_insert_eq. reflexivity.
  - unfold Zoned.toggleHabitCompletion, Zoned.updateStreak. cbv zeta.
    rewrite loadCompletions_saveCompletions, loadHabits_saveCompletions.
    change (loadCompletions _) with (<[today := [1]]> (∅ : Completions)).
    rewrite Hnow3.
    rewrite toggle_bucket_false, lookup_insert_eq, insert_insert_eq.
    change (find_habit 1 (loadHabits _)) with (Some (set_streak 1 h0)).
    cbv beta iota.
    change (Zoned.computeStreak (fixed_zone offset) fuel (set_streak 1 h0))
      with (Zoned.daily_streak (fixed_zone offset) fuel).
    rewrite zoned_daily_streak_fixed.
    change (Day now3) with (Zoned.getTodayKey now3). rewrite Hnow3.
    rewrite daily_streak_today_only by done. reflexivity.
  - unfold Zoned.getHabitStats.
    change (find_habit 1 (loadHabits _))
      with (Some (set_streak 0 (set_streak 1 h0))).
    cbv beta iota zeta. rewrite Hnow4.
    change (Zoned.isCompleted _ _ ?c _ ?k ?i) with (bucket_includes c k i).
    change (loadCompletions _) with (<[today := []]> (∅ : Completions)).
    rewrite bucket_includes_insert_eq. reflexivity.
Qed.

Lemma exercise_scenario_fixed_zone_witness :
  (2 ≤ 2)%nat
  ∧ Zoned.getTodayKey (instant 2024 3 10 20 5)
    = Zoned.getTodayKey (instant 2024 3 10 20 0)
  ∧ Zoned.getTodayKey (instant 2024 3 10 21 0)
    = Zoned.getTodayKey (instant 2024 3 10 20 0)
  ∧ Zoned.getTodayKey (instant 2024 3 10 21 5)
    = Zoned.getTodayKey (instant 2024 3 10 20 0)
  ∧ ∃ st1 st2 st3 : Store,
      addHabit "Exercise" daily 1 "general" None None
               "2024-03-10T19:55:00.000Z" empty_store = (1, st1)
      ∧ loadHabits st1
        = [mkHabit 1 "Exercise" daily 1 0 "general"
                   "2024-03-10T19:55:00.000Z" None None]
      ∧ Zoned.toggleHabitCompletion kolkata 2 (instant 2024 3 10 20 0) 1 true
          st1 = Some st2
      ∧ Zoned.getHabitStats kolkata (instant 2024 3 10 20 5) 1 st2
        = (Stats.mk 1 1 1 100, st2)
      ∧ Zoned.toggleHabitCompletion kolkata 2 (instant 2024 3 10 21 0) 1
          false st2 = Some st3
      ∧ Zoned.getHabitStats kolkata (instant 2024 3 10 21 5) 1 st3
        = (Stats.mk 0 0 1 0, st3).
Proof.
  split; [lia|]. split; [reflexivity|]. split; [reflexivity|].
  split; [reflexivity|].
  apply (exercise_scenario_fixed_zone (5 * msPerHour + 30 * 60000) 2
           (instant 2024 3 10 20 0) (instant 2024 3 10 20 5)
           (instant 2024 3 10 21 0) (instant 2024 3 10 21 5)
           "2024-03-10T19:55:00.000Z"); [lia | reflexivity..].
Defined.

(** ** Months and weeks as the runtime reads the keys *)

Lemma completed_in_found (zone : Zone) (p : Z → bool) (period : Z → Prop)
    (completions : Completions) (habitId : Z) :
  (∀ key, p key = true ↔ period (Zoned.key_day zone key)) →
  keys_some p completions habitId = true
  ↔ completed_in zone period completions habitId.
Proof.
  intros Hp. rewrite keys_some_spec. unfold completed_in.
  split; intros (key & bucket & H1 & H2 & H3); exists key, bucket.
  - split_and!; [done..|]. by apply Hp.
  - split_and!; [done| |done]. by apply Hp.
Qed.

Lemma zoned_month_found (zone : Zone) (completions : Completions)
    (habitId m y : Z) :
  0 ≤ m ≤ 11 →
  keys_some (λ date,
               (Zoned.getMonth zone (Zoned.new_Date date) =? m)
               && (Zoned.getFullYear zone (Zoned.new_Date date) =? y))
            completions habitId = true
  ↔ completed_in_month zone completions habitId (12 * y + m).
Proof.
  intros Hm. apply completed_in_found. intros key.
  unfold Zoned.getMonth, Zoned.getFullYear, month_index.
  fold (Zoned.key_day zone key).
  pose proof (getMonth_range (Zoned.key_day zone key)) as Hrange.
  rewrite andb_true_iff, !Z.eqb_eq. lia.
Qed.

Lemma zoned_monthly_streak_consecutive (zone : Zone) (fuel : nat)
    (completions : Completions) (habitId now r : Z) :
  Zoned.monthly_streak zone fuel completions habitId now = Some r →
  ∃ n : nat, r = Z.of_nat n
    ∧ consecutive_months zone completions habitId now n.
Proof.
  unfold Zoned.monthly_streak, Zoned.getMonth at 2, Zoned.getFullYear at 2.
  intros Hrun.
  apply count_back_result in Hrun as (n & -> & Hall & Hstop).
  pose proof (getMonth_range (Zoned.local_day zone now)) as Hm.
  exists n. split; [lia|]. split.
  - intros i Hi. specialize (Hall i Hi).
    pose proof (iter_prev_month i _ (getFullYear (Zoned.local_day zone now))
                  Hm) as [Hr Hidx].
    destruct (Nat.iter i prev_month _) as [m' y']. simpl in Hr, Hidx.
    apply zoned_month_found in Hall; [|done].
    unfold month_index. by rewrite <- Hidx.
  - pose proof (iter_prev_month n _ (getFullYear (Zoned.local_day zone now))
                  Hm) as [Hr Hidx].
    destruct (Nat.iter n prev_month _) as [m' y']. simpl in Hr, Hidx.
    intros Hc. unfold month_index in Hc. rewrite <- Hidx in Hc.
    apply zoned_month_found in Hc; [|done]. congruence.
Qed.

(** X21.  For a monthly habit, in any time zone, [updateStreak] terminates
    and writes the number of consecutive calendar months, counted backwards
    from the local month of the clock and across year ends, that have a
    completion, up to the first month without one.  The month of a
    completion is the local month in which the runtime reads its key, that
    is, midnight UTC of the key's day. *)
Theorem monthly_streak_correct (zone : Zone) (fuel : nat) (now habitId : Z)
    (st : Store) (habit : Habit) :
  find_habit habitId (loadHabits st) = Some habit →
  frequency habit = monthly →
  (size (loadCompletions st) < fuel)%nat →
  ∃ (n : nat) (st' : Store) (habit' : Habit),
    Zoned.updateStreak zone fuel now habitId st = Some st'
    ∧ find_habit habitId (loadHabits st') = Some habit'
    ∧ habit' = set_streak (Z.of_nat n) habit
    ∧ streak habit' = Z.of_nat n
    ∧ consecutive_months zone (loadCompletions st) habitId now n.
Proof.
  intros Hfind Hfreq Hfuel.
  destruct (zoned_monthly_streak_terminates zone fuel (loadCompletions st)
              habitId now Hfuel) as [s Hs].
  assert (Zoned.computeStreak zone fuel habit (loadCompletions st) habitId
            now = Some s) as Hs'.
  { unfold Zoned.computeStreak. by rewrite Hfreq. }
  destruct (zoned_updateStreak_found _ _ _ _ _ _ _ Hfind Hs')
    as (st' & Hrun & Hfind' & _).
  apply zoned_monthly_streak_consecutive in Hs as (n & -> & Hn).
  by exists n, st', (set_streak (Z.of_nat n) habit).
Qed.

Lemma monthly_streak_correct_witness :
  let st := two_key_store monthly (days_from_civil 2024 3 1)
                          (days_from_civil 2024 3 15) in
  let now := instant 2024 3 15 12 0 in
  find_habit 1 (loadHabits st) = Some (exercise monthly)
  ∧ frequency (exercise monthly) = monthly
  ∧ (size (loadCompletions st) < 3)%nat
  ∧ Zoned.updateStreak new_york 3 now 1 st
    = Some (saveHabits [set_streak 2 (exercise monthly)] st)
  ∧ ∃ (n : nat) (st' : Store) (habit' : Habit),
      Zoned.updateStreak new_york 3 now 1 st = Some st'
      ∧ find_habit 1 (loadHabits st') = Some habit'
      ∧ habit' = set_streak (Z.of_nat n) (exercise monthly)
      ∧ streak habit' = Z.of_nat n
      ∧ consecutive_months new_york (loadCompletions st) 1 now n.
Proof.
  intros st now.
  split; [reflexivity|]. split; [reflexivity|]. split; [vm_compute; lia|].
  split; [vm_compute; reflexivity|].
  apply (monthly_streak_correct new_york 3 now 1 st (exercise monthly));
    [reflexivity | reflexivity | vm_compute; lia].
Defined.

(** West of UTC a key of the first of a month is read as a day of the
    month before: in New York on 2024-03-15 a completion under 2024-03-01
    does not count for March, and the monthly streak written is 0. *)
Example monthly_streak_first_of_month :
  let st := one_key_store monthly (days_from_civil 2024 3 1) in
  Zoned.updateStreak new_york 2 (instant 2024 3 15 12 0) 1 st
  = Some (saveHabits [set_streak 0 (exercise monthly)] st).
Proof. vm_compute. reflexivity. Qed.

Lemma zoned_week_found (zone : Zone) (completions : Completions)
    (habitId w : Z) :
  keys_some (λ date, Zoned.getWeekNumber zone (Zoned.new_Date date) =? w)
            completions habitId = true
  ↔ completed_in_week_number zone completions habitId w.
Proof.
  apply completed_in_found. intros key.
  rewrite zoned_getWeekNumber. fold (Zoned.key_day zone key).
  apply Z.eqb_eq.
Qed.

Lemma zoned_weekly_streak_week_numbers (zone : Zone) (fuel : nat)
    (completions : Completions) (habitId now r : Z) :
  Zoned.weekly_streak zone fuel completions habitId now = Some r →
  ∃ n : nat, r = Z.of_nat n
    ∧ (∀ i : nat, (i < n)%nat →
         completed_in_week_number zone completions habitId
           (Zoned.getWeekNumber zone now - Z.of_nat i))
    ∧ ¬ completed_in_week_number zone completions habitId
          (Zoned.getWeekNumber zone now - Z.of_nat n).
Proof.
  unfold Zoned.weekly_streak. intros Hrun.
  apply count_back_result in Hrun as (n & -> & Hall & Hstop).
  exists n. split; [lia|]. split.
  - intros i Hi. specialize (Hall i Hi). rewrite iter_day_back in Hall.
    by apply zoned_week_found.
  - rewrite iter_day_back in Hstop. intros Hc.
    apply zoned_week_found in Hc. congruence.
Qed.

Lemma getWeekNumber_bounds (date : Z) :
  0 ≤ date → 1 ≤ getWeekNumber date ≤ 53.
Proof.
  intros Hdate. rewrite getWeekNumber_thursday by done.
  pose proof (day_of_year (thursday_of date)).
  unfold ceil_div7. div_lia.
Qed.

(** X22.  For a weekly habit, in any time zone, [updateStreak] terminates
    and writes a count of week numbers: the number [n] such that the week
    numbers W, W-1, ..., W-(n-1) below the week number W of the clock's
    local day each have a completion in some year, and W-n has none.  The
    week number of a completion is that of the local day on which the
    runtime reads its key.  With these days and the clock's local day from
    1970 on, the streak is at most W, hence at most 53. *)
Theorem weekly_streak_bounded (zone : Zone) (fuel : nat) (now habitId : Z)
    (st : Store) (habit : Habit) :
  find_habit habitId (loadHabits st) = Some habit →
  frequency habit = weekly →
  (size (loadCompletions st) < fuel)%nat →
  let thisWeek := Zoned.getWeekNumber zone now in
  ∃ (n : nat) (st' : Store) (habit' : Habit),
    Zoned.updateStreak zone fuel now habitId st = Some st'
    ∧ find_habit habitId (loadHabits st') = Some habit'
    ∧ habit' = set_streak (Z.of_nat n) habit
    ∧ streak habit' = Z.of_nat n
    ∧ (∀ i : nat, (i < n)%nat →
         completed_in_week_number zone (loadCompletions st) habitId
           (thisWeek - Z.of_nat i))
    ∧ ¬ completed_in_week_number zone (loadCompletions st) habitId
          (thisWeek - Z.of_nat n)
    ∧ (0 ≤ Zoned.local_day zone now →
       (∀ key, is_Some (loadCompletions st !! key) →
          0 ≤ Zoned.key_day zone key) →
       Z.of_nat n ≤ thisWeek ≤ 53).
Proof.
  intros Hfind Hfreq Hfuel thisWeek.
  destruct (zoned_weekly_streak_terminates zone fuel (loadCompletions st)
              habitId now Hfuel) as [s Hs].
  assert (Zoned.computeStreak zone fuel habit (loadCompletions st) habitId
            now = Some s) as Hs'.
  { unfold Zoned.computeStreak. by rewrite Hfreq. }
  destruct (zoned_updateStreak_found _ _ _ _ _ _ _ Hfind Hs')
    as (st' & Hrun & Hfind' & _).
  apply zoned_weekly_streak_week_numbers in Hs as (n & -> & Hall & Hstop).
  exists n, st', (set_streak (Z.of_nat n) habit).
  split_and!; [done..|].
  intros Hnow Hkeys. subst thisWeek. rewrite zoned_getWeekNumber in *.
  pose proof (getWeekNumber_bounds _ Hnow) as HW.
  split; [|lia].
  destruct (Z.le_gt_cases (Z.of_nat n)
              (getWeekNumber (Zoned.local_day zone now))) as [|Hgt]; [done|].
  exfalso.
  destruct (Hall (Z.to_nat (getWeekNumber (Zoned.local_day zone now)))
              ltac:(lia)) as (key & bucket & Hlk & _ & Hw).
  assert (0 ≤ Zoned.key_day zone key) as Hkey
    by (apply Hkeys; by eexists).
  pose proof (getWeekNumber_bounds _ Hkey). lia.
Qed.

Lemma weekly_streak_bounded_witness :
  let st := two_key_store weekly (days_from_civil 2024 3 11)
                          (days_from_civil 2024 3 12) in
  let now := instant 2024 3 12 12 0 in
  find_habit 1 (loadHabits st) = Some (exercise weekly)
  ∧ frequency (exercise weekly) = weekly
  ∧ (size (loadCompletions st) < 3)%nat
  ∧ Zoned.getWeekNumber new_york now = 11
  ∧ Zoned.updateStreak new_york 3 now 1 st
    = Some (saveHabits [set_streak 2 (exercise weekly)] st)
  ∧ ∃ (n : nat) (st' : Store) (habit' : Habit),
      Zoned.updateStreak new_york 3 now 1 st = Some st'
      ∧ find_habit 1 (loadHabits st') = Some habit'
      ∧ habit' = set_streak (Z.of_nat n) (exercise weekly)
      ∧ streak habit' = Z.of_nat n
      ∧ (∀ i : nat, (i < n)%nat →
           completed_in_week_number new_york (loadCompletions st) 1
             (Zoned.getWeekNumber new_york now - Z.of_nat i))
      ∧ ¬ completed_in_week_number new_york (loadCompletions st) 1
            (Zoned.getWeekNumber new_york now - Z.of_nat n)
      ∧ (0 ≤ Zoned.local_day new_york now →
         (∀ key, is_Some (loadCompletions st !! key) →
            0 ≤ Zoned.key_day new_york key) →
         Z.of_nat n ≤ Zoned.getWeekNumber new_york now ≤ 53).
Proof.
  intros st now.
  split; [reflexivity|]. split; [reflexivity|]. split; [vm_compute; lia|].
  split; [vm_compute; reflexivity|]. split; [vm_compute; reflexivity|].
  apply (weekly_streak_bounded new_york 3 now 1 st (exercise weekly));
    [reflexivity | reflexivity | vm_compute; lia].
Defined.

(** ** What the statistics count as the current week and month *)

(** X27.  For an existing weekly habit, in any time zone, [getHabitStats]
    reports [completed = 1] exactly when some key, read by the runtime as a
    local day, has the week number of the clock's local day, in whatever
    year, and holds a completion of the habit; it reports 0 otherwise. *)
Theorem getHabitStats_period (zone : Zone) (now habitId : Z) (st : Store)
    (habit : Habit) :
  find_habit habitId (loadHabits st) = Some habit →
  frequency habit = weekly →
  (Stats.completed (Zoned.getHabitStats zone now habitId st).1 = 1
   ↔ completed_in_week_number zone (loadCompletions st) habitId
       (Zoned.getWeekNumber zone now))
  ∧ (Stats.completed (Zoned.getHabitStats zone now habitId st).1 = 0
     ↔ ¬ completed_in_week_number zone (loadCompletions st) habitId
           (Zoned.getWeekNumber zone now)).
Proof.
  intros Hfind Hfreq. unfold Zoned.getHabitStats. rewrite Hfind. simpl.
  unfold Zoned.isCompleted. rewrite Hfreq. cbv zeta.
  rewrite <- zoned_week_found.
  destruct (keys_some _ _ _); split; split; (done || lia || congruence).
Qed.

Lemma getHabitStats_period_witness :
  let st := one_key_store weekly (days_from_civil 2024 3 12) in
  let now := instant 2024 3 12 12 0 in
  find_habit 1 (loadHabits st) = Some (exercise weekly)
  ∧ frequency (exercise weekly) = weekly
  ∧ Zoned.getHabitStats new_york now 1 st = (Stats.mk 0 1 1 100, st)
  ∧ (Stats.completed (Zoned.getHabitStats new_york now 1 st).1 = 1
     ↔ completed_in_week_number new_york (loadCompletions st) 1
         (Zoned.getWeekNumber new_york now))
  ∧ (Stats.completed (Zoned.getHabitStats new_york now 1 st).1 = 0
     ↔ ¬ completed_in_week_number new_york (loadCompletions st) 1
           (Zoned.getWeekNumber new_york now)).
Proof.
  intros st now.
  split; [reflexivity|]. split; [reflexivity|].
  split; [vm_compute; reflexivity|].
  exact (getHabitStats_period new_york now 1 st (exercise weekly)
           eq_refl eq_refl).
Defined.

(** In New York on Monday 2024-03-11 a completion under the key of that
    day is read as Sunday evening, in the week before: the statistics of a
    weekly habit report nothing completed. *)
Example getHabitStats_week_before :
  let st := one_key_store weekly (days_from_civil 2024 3 11) in
  Zoned.getHabitStats new_york (instant 2024 3 11 12 0) 1 st
  = (Stats.mk 0 0 1 0, st).
Proof. vm_compute. reflexivity. Qed.

(** X28.  For an existing monthly habit, in any time zone, [getHabitStats]
    reports [completed = 1] exactly when some key, read by the runtime as a
    local day, falls in the month of the year of the clock's local day, in
    whatever year, and holds a completion of the habit; it reports 0
    otherwise. *)
Theorem getHabitStats_month (zone : Zone) (now habitId : Z) (st : Store)
    (habit : Habit) :
  find_habit habitId (loadHabits st) = Some habit →
  frequency habit = monthly →
  (Stats.completed (Zoned.getHabitStats zone now habitId st).1 = 1
   ↔ completed_in_month_of_year zone (loadCompletions st) habitId
       (Zoned.getMonth zone now))
  ∧ (Stats.completed (Zoned.getHabitStats zone now habitId st).1 = 0
     ↔ ¬ completed_in_month_of_year zone (loadCompletions st) habitId
           (Zoned.getMonth zone now)).
Proof.
  intros Hfind Hfreq. unfold Zoned.getHabitStats. rewrite Hfind. simpl.
  unfold Zoned.isCompleted. rewrite Hfreq. cbv zeta.
  assert (keys_some
            (λ date, Zoned.getMonth zone (Zoned.new_Date date)
                     =? Zoned.getMonth zone now)
            (loadCompletions st) habitId = true
          ↔ completed_in_month_of_year zone (loadCompletions st) habitId
              (Zoned.getMonth zone now)) as <-.
  { apply completed_in_found. intros key. apply Z.eqb_eq. }
  destruct (keys_some _ _ _); split; split; (done || lia || congruence).
Qed.

Lemma getHabitStats_month_witness :
  let st := one_key_store monthly (days_from_civil 2024 3 1) in
  let now := instant 2024 3 15 12 0 in
  find_habit 1 (loadHabits st) = Some (exercise monthly)
  ∧ frequency (exercise monthly) = monthly
  ∧ Zoned.getHabitStats new_york now 1 st = (Stats.mk 0 0 1 0, st)
  ∧ (Stats.completed (Zoned.getHabitStats new_york now 1 st).1 = 1
     ↔ completed_in_month_of_year new_york (loadCompletions st) 1
         (Zoned.getMonth new_york now))
  ∧ (Stats.completed (Zoned.getHabitStats new_york now 1 st).1 = 0
     ↔ ¬ completed_in_month_of_year new_york (loadCompletions st) 1
           (Zoned.getMonth new_york now)).
Proof.
  intros st now.
  split; [reflexivity|]. split; [reflexivity|].
  split; [vm_compute; reflexivity|].
  exact (getHabitStats_month new_york now 1 st (exercise monthly)
           eq_refl eq_refl).
Defined.

(** ** Statistics after a completion, in a zone *)

Lemma zoned_isCompleted_today (zone : Zone) (habit : Habit)
    (completions : Completions) (now habitId : Z) :
  frequency habit = daily
  ∨ Zoned.key_day zone (Zoned.getTodayKey now) = Zoned.local_day zone now →
  bucket_includes completions (Zoned.getTodayKey now) habitId = true →
  Zoned.isCompleted zone habit completions now (Zoned.getTodayKey now)
    habitId = true.
Proof.
  intros Hday Hinc. unfold Zoned.isCompleted.
  destruct (frequency habit); [done| |];
    (destruct Hday as [?|Hday]; [done|]); cbv zeta.
  - apply (keys_some_here _ _ _ (Zoned.getTodayKey now)); [|done].
    rewrite !zoned_getWeekNumber. fold (Zoned.key_day zone (Zoned.getTodayKey now)).
    rewrite Hday. apply Z.eqb_refl.
  - apply (keys_some_here _ _ _ (Zoned.getTodayKey now)); [|done].
    unfold Zoned.getMonth. fold (Zoned.key_day zone (Zoned.getTodayKey now)).
    rewrite Hday. apply Z.eqb_refl.
Qed.

Lemma zoned_computeStreak_today (zone : Zone) (fuel : nat) (habit : Habit)
    (completions : Completions) (habitId now s : Z) :
  frequency habit = daily
  ∨ Zoned.key_day zone (Zoned.getTodayKey now) = Zoned.local_day zone now →
  bucket_includes completions (Zoned.getTodayKey now) habitId = true →
  Zoned.computeStreak zone fuel habit completions habitId now = Some s →
  1 ≤ s.
Proof.
  intros Hday Hinc.
  unfold Zoned.computeStreak, Zoned.daily_streak, Zoned.weekly_streak,
    Zoned.monthly_streak.
  destruct (frequency habit); intros Hs;
    apply count_back_found in Hs; try lia; try done;
    (destruct Hday as [?|Hday]; [done|]).
  - apply (keys_some_here _ _ _ (Zoned.getTodayKey now)); [|done].
    rewrite !zoned_getWeekNumber. fold (Zoned.key_day zone (Zoned.getTodayKey now)).
    rewrite Hday. apply Z.eqb_refl.
  - apply (keys_some_here _ _ _ (Zoned.getTodayKey now)); [|done].
    unfold Zoned.getMonth, Zoned.getFullYear.
    fold (Zoned.key_day zone (Zoned.getTodayKey now)).
    rewrite Hday. by rewrite !Z.eqb_refl.
Qed.

(** X12.  After an existing habit is marked complete, its statistics read
    at the same clock time report [completed = 1] and [completion_rate =
    100] with a streak of at least 1, and [total_required] is the habit's
    target: for a daily habit in any time zone, and for a weekly or monthly
    habit when the runtime reads today's key as the clock's local day. *)
Theorem getHabitStats_after_completing (zone : Zone) (fuel : nat)
    (now habitId : Z) (st st' : Store) (habit : Habit) :
  find_habit habitId (loadHabits st) = Some habit →
  frequency habit = daily
  ∨ Zoned.key_day zone (Zoned.getTodayKey now) = Zoned.local_day zone now →
  Zoned.toggleHabitCompletion zone fuel now habitId true st = Some st' →
  ∃ s, 1 ≤ s
    ∧ Zoned.getHabitStats zone now habitId st'
      = (Stats.mk s 1 (target habit) 100, st').
Proof.
  intros Hfind Hday Hrun.
  destruct (zoned_toggleHabitCompletion_inv _ _ _ _ _ _ _ _ Hfind Hrun)
    as (Hcompl & s & Hs & Hfind').
  assert (bucket_includes (loadCompletions st') (Zoned.getTodayKey now)
            habitId = true) as Hinc.
  { apply completed_on_includes. rewrite Hcompl.
    apply toggle_bucket_completed_on. by rewrite decide_True. }
  exists s. split.
  - by apply (zoned_computeStreak_today zone fuel habit (loadCompletions st')
                habitId now).
  - unfold Zoned.getHabitStats. rewrite Hfind'. cbv zeta.
    rewrite zoned_isCompleted_today; done.
Qed.

Lemma getHabitStats_after_completing_witness :
  let st := saveHabits [exercise weekly] empty_store in
  let st' := mkStore (Some [set_streak 1 (exercise weekly)])
                     (Some (<[days_from_civil 2024 3 11 := [1]]> ∅)) in
  let now := instant 2024 3 11 2 0 in
  find_habit 1 (loadHabits st) = Some (exercise weekly)
  ∧ (frequency (exercise weekly) = daily
     ∨ Zoned.key_day new_york (Zoned.getTodayKey now)
       = Zoned.local_day new_york now)
  ∧ Zoned.toggleHabitCompletion new_york 2 now 1 true st = Some st'
  ∧ ∃ s, 1 ≤ s
      ∧ Zoned.getHabitStats new_york now 1 st'
        = (Stats.mk s 1 (target (exercise weekly)) 100, st').
Proof.
  intros st st' now.
  assert (frequency (exercise weekly) = daily
          ∨ Zoned.key_day new_york (Zoned.getTodayKey now)
            = Zoned.local_day new_york now) as Hday
    by (right; vm_compute; reflexivity).
  assert (Zoned.toggleHabitCompletion new_york 2 now 1 true st = Some st')
    as Hrun by (vm_compute; reflexivity).
  split; [reflexivity|]. split; [exact Hday|]. split; [exact Hrun|].
  exact (getHabitStats_after_completing new_york 2 now 1 st st'
           (exercise weekly) eq_refl Hday Hrun).
Defined.

(** Without that agreement the completion can go unseen: in New York at
    noon UTC of Monday 2024-03-11, a weekly habit that has just been marked
    complete has streak 0 and nothing completed. *)
Example getHabitStats_unseen_completion :
  let st := saveHabits [exercise weekly] empty_store in
  let st' := mkStore (Some [set_streak 0 (exercise weekly)])
                     (Some (<[days_from_civil 2024 3 11 := [1]]> ∅)) in
  let now := instant 2024 3 11 12 0 in
  Zoned.toggleHabitCompletion new_york 2 now 1 true st = Some st'
  ∧ Zoned.getHabitStats new_york now 1 st' = (Stats.mk 0 0 1 0, st').
Proof. split; vm_compute; reflexivity. Qed.
